(** * MarketMind: the Gemini service layer (services/gemini.ts)

    A shallow embedding of the four request orchestrators of the
    dashboard, [getLivePrice], [analyzeStock], [getForecast] and
    [getTopPicks], together with the part of the JavaScript platform they
    rest on (strings, [JSON.parse], exceptions, the console) and of the
    [@google/genai] client (requests, responses, streams).  Further on
    come the other two exports of the service layer, the handlers of
    App.tsx as computations on the state of the component, the simulated
    data of the chart and the text formatting of the markdown renderer.

    Conventions of the embedding.
    - A JavaScript string is a [string]: a sequence of 8-bit units, read as
      the UTF-8 bytes of the text.  [toLowerCase] gives every ASCII
      character of the lower-cased text, which is all a search for an
      ASCII keyword looks at: it maps the letters A-Z, the Kelvin sign
      (to k) and the capital I with a dot above (to i and a combining
      dot), and keeps any other character outside ASCII where the platform
      gives a character outside ASCII as well.  [trim] strips all the white
      space and line terminators of ECMAScript.
    - A JSON number is kept as the exact decimal its text denotes.
    - An [async] function is a computation in the monad [M]: it emits a
      trace of observable events (console output, what a callback does) and
      completes normally with a value or abruptly with a thrown error.
    - The hosted generation service is an oracle: a function from the
      request to the completion of the call.  [JSON.parse] is a parameter
      of the orchestrators as well, so that what is proved of them holds
      for the platform's parser whatever it does; the parser of module
      [JSON] below instantiates it where a text has to be parsed. *)

From Stdlib Require Import String Ascii List ZArith Bool Lia.
From Stdlib Require Import DecimalString DecimalNat Finite.
Import ListNotations.

Local Open Scope string_scope.
Local Open Scope list_scope.

(* ================================================================== *)
(** ** JavaScript strings *)

Module JsString.

Definition code (c : ascii) : Z := Z.of_N (N_of_ascii c).

Definition char_of_code (n : Z) : ascii := ascii_of_N (Z.to_N n).

Definition lower_char (c : ascii) : ascii :=
  if (65 <=? code c)%Z && (code c <=? 90)%Z then char_of_code (code c + 32) else c.

(** [String.prototype.startsWith] *)
Fixpoint startsWith (s p : string) : bool :=
  match p, s with
  | EmptyString, _ => true
  | String _ _, EmptyString => false
  | String a p', String b s' => Ascii.eqb a b && startsWith s' p'
  end.

(** [String.prototype.includes]: [sub] occurs in [s] at some position. *)
Fixpoint includes (s sub : string) : bool :=
  startsWith s sub
  || match s with
     | EmptyString => false
     | String _ rest => includes rest sub
     end.

(** The unit is an ASCII character; the text is ASCII throughout. *)
Definition is_ascii (c : ascii) : bool := (code c <? 128)%Z.

Fixpoint ascii_text (s : string) : bool :=
  match s with
  | EmptyString => true
  | String c rest => is_ascii c && ascii_text rest
  end.

(** The two characters outside ASCII whose lower case holds an ASCII
    letter: U+212A KELVIN SIGN (E2 84 AA) becomes k, and U+0130 LATIN
    CAPITAL LETTER I WITH DOT ABOVE (C4 B0) becomes i followed by U+0307
    COMBINING DOT ABOVE (CC 87). *)
Definition kelvin_sign : string := String "226" (String "132" (String "170" EmptyString)).
Definition dotted_I : string := String "196" (String "176" EmptyString).
Definition dot_above : string := String "204" (String "135" EmptyString).

(** [String.prototype.toLowerCase], as far as ASCII goes: the letters A-Z
    and the two characters above are mapped.  Of any other character
    outside ASCII the platform makes one or more characters outside ASCII
    again; here its bytes are kept.  The ASCII characters of the result,
    and which of them stand next to each other, are therefore those of
    the platform's result, and an ASCII word occurs in the one exactly
    when it occurs in the other. *)
Fixpoint toLowerCase (s : string) : string :=
  match s with
  | EmptyString => EmptyString
  | String c rest =>
      match startsWith s kelvin_sign, rest with
      | true, String _ (String _ rest') => String "k" (toLowerCase rest')
      | _, _ =>
          match startsWith s dotted_I, rest with
          | true, String _ rest' => String "i" (dot_above ++ toLowerCase rest')
          | _, _ => String (lower_char c) (toLowerCase rest)
          end
      end
  end.

(** Truthiness of a string: only the empty string is falsy. *)
Definition truthy (s : string) : bool :=
  match s with EmptyString => false | String _ _ => true end.

(** The double quote, which a string literal of this file cannot hold. *)
Definition dquote : ascii := "034"%char.
Definition dq : string := String dquote EmptyString.

(** [s] without its prefix [p], when it starts with it. *)
Fixpoint strip_prefix (p s : string) : option string :=
  match p, s with
  | EmptyString, _ => Some s
  | String _ _, EmptyString => None
  | String a p', String b s' =>
      if Ascii.eqb a b then strip_prefix p' s' else None
  end.

End JsString.

(* ================================================================== *)
(** ** Exceptions and the effect monad *)

(** A thrown JavaScript error: its [name] and its [message]. *)
Record error : Type := Error { error_name : string; error_message : string }.

Definition SyntaxError (message : string) : error := Error "SyntaxError" message.

(** How an evaluation ends. *)
Inductive completion (A : Type) : Type :=
| Normal (a : A)
| Throw (e : error).
Arguments Normal {A} a.
Arguments Throw {A} e.

(** What a run lets the outside see. *)
Inductive event : Type :=
| console_error (label : string) (e : error)   (* console.error(label, e) *)
| observed (text : string).                     (* a caller's callback saw [text] *)

Definition M (A : Type) : Type := (list event * completion A)%type.

Definition ret {A} (a : A) : M A := ([], Normal a).
Definition throw {A} (e : error) : M A := ([], Throw e).
Definition tell (ev : event) : M unit := ([ev], Normal tt).

Definition bind {A B} (m : M A) (k : A -> M B) : M B :=
  match m with
  | (t, Normal a) => let '(t', r) := k a in (t ++ t', r)
  | (t, Throw e) => (t, Throw e)
  end.

(** [try { body } catch (error) { handler error }] *)
Definition try_catch {A} (body : M A) (handler : error -> M A) : M A :=
  match body with
  | (t, Normal a) => (t, Normal a)
  | (t, Throw e) => let '(t', r) := handler e in (t ++ t', r)
  end.

(** [await] of a promise that has settled as [c]. *)
Definition await {A} (c : completion A) : M A := ([], c).

Definition trace_of {A} (m : M A) : list event := fst m.
Definition value_of {A} (m : M A) : completion A := snd m.

Declare Scope js_scope.
Delimit Scope js_scope with js.
Notation "x <- m ;; k" := (bind m (fun x => k))
  (at level 61, m at next level, right associativity) : js_scope.
Notation "m ;; k" := (bind m (fun _ => k))
  (at level 61, right associativity) : js_scope.
Notation "'try' body 'catch' handler" := (try_catch body handler)
  (at level 62, body at level 61, handler at level 61) : js_scope.

(* ================================================================== *)
(** ** JSON values and [JSON.parse] *)

Module JSON.
Import JsString.

(** The decimal [mantissa * 10 ^ exponent]. *)
Record number : Type := Num { mantissa : Z; exponent : Z }.

#[warnings="-register-all"]
Inductive json : Type :=
| JNull
| JBool (b : bool)
| JNum (n : number)
| JStr (s : string)
| JArr (elements : list json)
| JObj (members : list (string * json)).

Definition of_Z (z : Z) : json := JNum (Num z 0).

(** Property read [v.key] on an object; [None] is [undefined]. *)
Fixpoint lookup (key : string) (members : list (string * json)) : option json :=
  match members with
  | [] => None
  | (k, v) :: rest => if String.eqb k key then Some v else lookup key rest
  end.

Definition get (v : json) (key : string) : option json :=
  match v with
  | JObj members => lookup key members
  | _ => None
  end.

(** Defining a property that may already be there: the value is replaced
    where the key first appeared. *)
Fixpoint set_member (key : string) (v : json) (members : list (string * json))
  : list (string * json) :=
  match members with
  | [] => [(key, v)]
  | (k, w) :: rest =>
      if String.eqb k key then (k, v) :: rest else (k, w) :: set_member key v rest
  end.

Definition object_of (members : list (string * json)) : json :=
  JObj (fold_left (fun acc kv => set_member (fst kv) (snd kv) acc) members []).

(** *** Lexical elements *)

Definition is_ws (c : ascii) : bool :=
  let n := code c in
  (n =? 32)%Z || (n =? 9)%Z || (n =? 10)%Z || (n =? 13)%Z.

Fixpoint skip_ws (s : string) : string :=
  match s with
  | EmptyString => EmptyString
  | String c rest => if is_ws c then skip_ws rest else s
  end.

Definition digit (c : ascii) : option Z :=
  let n := code c in
  if (48 <=? n)%Z && (n <=? 57)%Z then Some (n - 48)%Z else None.

Definition hex_digit (c : ascii) : option Z :=
  let n := code c in
  if (48 <=? n)%Z && (n <=? 57)%Z then Some (n - 48)%Z
  else if (65 <=? n)%Z && (n <=? 70)%Z then Some (n - 55)%Z
  else if (97 <=? n)%Z && (n <=? 102)%Z then Some (n - 87)%Z
  else None.

(** A run of decimal digits appended to [acc]; [count] digits were read. *)
Fixpoint digits (s : string) (acc count : Z) : Z * Z * string :=
  match s with
  | EmptyString => (acc, count, s)
  | String c rest =>
      match digit c with
      | Some d => digits rest (10 * acc + d)%Z (count + 1)%Z
      | None => (acc, count, s)
      end
  end.

(** A JSON number: an optional minus sign; an integer part that is 0 or
    starts with a digit 1-9; an optional fraction, a dot and at least one
    digit; an optional exponent, e or E, a sign or none, at least one digit. *)
Definition parse_number (s : string) : option (number * string) :=
  let '(negative, s1) :=
    match strip_prefix "-" s with Some r => (true, r) | None => (false, s) end in
  match s1 with
  | EmptyString => None
  | String c r =>
      match digit c with
      | None => None
      | Some d =>
          let '(int_part, s2) :=
            if (d =? 0)%Z then (0%Z, r)
            else let '(v, _, r') := digits r d 1 in (v, r') in
          let fraction :=
            match strip_prefix "." s2 with
            | Some r2 =>
                let '(v, k, r3) := digits r2 int_part 0 in
                if (k =? 0)%Z then None else Some (v, k, r3)
            | None => Some (int_part, 0%Z, s2)
            end in
          match fraction with
          | None => None
          | Some (m, k, s3) =>
              let signed := if negative then (- m)%Z else m in
              let after_e :=
                match strip_prefix "e" s3 with
                | Some r4 => Some r4
                | None => strip_prefix "E" s3
                end in
              match after_e with
              | None => Some (Num signed (- k), s3)
              | Some r4 =>
                  let '(eneg, r5) :=
                    match strip_prefix "-" r4, strip_prefix "+" r4 with
                    | Some r, _ => (true, r)
                    | None, Some r => (false, r)
                    | None, None => (false, r4)
                    end in
                  let '(e, ke, r6) := digits r5 0 0 in
                  if (ke =? 0)%Z then None
                  else Some (Num signed ((if eneg then - e else e) - k), r6)
              end
          end
      end
  end.

(** The UTF-8 bytes of the code unit [n] (a surrogate half is encoded on
    its own). *)
Definition utf8 (n : Z) : string :=
  if (n <? 128)%Z then String (char_of_code n) ""
  else if (n <? 2048)%Z then
    String (char_of_code (192 + n / 64)) (String (char_of_code (128 + n mod 64)) "")
  else
    String (char_of_code (224 + n / 4096))
      (String (char_of_code (128 + (n / 64) mod 64))
         (String (char_of_code (128 + n mod 64)) "")).

Definition hex4 (a b c d : ascii) : option Z :=
  match hex_digit a, hex_digit b, hex_digit c, hex_digit d with
  | Some x, Some y, Some z, Some w => Some (((x * 16 + y) * 16 + z) * 16 + w)%Z
  | _, _, _, _ => None
  end.

Definition simple_escape (c : ascii) : option ascii :=
  if Ascii.eqb c dquote then Some dquote
  else if Ascii.eqb c "\" then Some "\"%char
  else if Ascii.eqb c "/" then Some "/"%char
  else if Ascii.eqb c "b" then Some "008"%char
  else if Ascii.eqb c "f" then Some "012"%char
  else if Ascii.eqb c "n" then Some "010"%char
  else if Ascii.eqb c "r" then Some "013"%char
  else if Ascii.eqb c "t" then Some "009"%char
  else None.

(** The characters of a string literal after its opening quote, up to
    and including the closing one. *)
Fixpoint parse_chars (s : string) : option (string * string) :=
  match s with
  | EmptyString => None
  | String c rest =>
      if Ascii.eqb c dquote then Some ("", rest)
      else if Ascii.eqb c "\" then
        match rest with
        | EmptyString => None
        | String e rest' =>
            if Ascii.eqb e "u" then
              match rest' with
              | String h1 (String h2 (String h3 (String h4 rest''))) =>
                  match hex4 h1 h2 h3 h4, parse_chars rest'' with
                  | Some n, Some (str, r) => Some ((utf8 n ++ str)%string, r)
                  | _, _ => None
                  end
              | _ => None
              end
            else
              match simple_escape e, parse_chars rest' with
              | Some c', Some (str, r) => Some (String c' str, r)
              | _, _ => None
              end
        end
      else if (code c <? 32)%Z then None
      else
        match parse_chars rest with
        | Some (str, r) => Some (String c str, r)
        | None => None
        end
  end.

(** *** Values

    Recursive descent; every call consumes one unit of [fuel] and at
    least one character. *)
Fixpoint parse_value (fuel : nat) (s : string) {struct fuel} : option (json * string) :=
  match fuel with
  | O => None
  | S fuel' =>
      let s := skip_ws s in
      match strip_prefix "null" s, strip_prefix "true" s, strip_prefix "false" s with
      | Some r, _, _ => Some (JNull, r)
      | None, Some r, _ => Some (JBool true, r)
      | None, None, Some r => Some (JBool false, r)
      | None, None, None =>
          match s with
          | EmptyString => None
          | String c r =>
              if Ascii.eqb c dquote then
                match parse_chars r with
                | Some (str, r') => Some (JStr str, r')
                | None => None
                end
              else if Ascii.eqb c "[" then
                match strip_prefix "]" (skip_ws r) with
                | Some r' => Some (JArr [], r')
                | None =>
                    match parse_elements fuel' r with
                    | Some (vs, r') => Some (JArr vs, r')
                    | None => None
                    end
                end
              else if Ascii.eqb c "{" then
                match strip_prefix "}" (skip_ws r) with
                | Some r' => Some (JObj [], r')
                | None =>
                    match parse_members fuel' r with
                    | Some (ms, r') => Some (object_of ms, r')
                    | None => None
                    end
                end
              else
                match parse_number s with
                | Some (n, r') => Some (JNum n, r')
                | None => None
                end
          end
      end
  end

with parse_elements (fuel : nat) (s : string) {struct fuel}
  : option (list json * string) :=
  match fuel with
  | O => None
  | S fuel' =>
      match parse_value fuel' s with
      | None => None
      | Some (v, r) =>
          let r := skip_ws r in
          match strip_prefix "," r, strip_prefix "]" r with
          | Some r', _ =>
              match parse_elements fuel' r' with
              | Some (vs, r'') => Some (v :: vs, r'')
              | None => None
              end
          | None, Some r' => Some ([v], r')
          | None, None => None
          end
      end
  end

with parse_members (fuel : nat) (s : string) {struct fuel}
  : option (list (string * json) * string) :=
  match fuel with
  | O => None
  | S fuel' =>
      match skip_ws s with
      | EmptyString => None
      | String q r =>
          if negb (Ascii.eqb q dquote) then None
          else
            match parse_chars r with
            | None => None
            | Some (key, r1) =>
                match strip_prefix ":" (skip_ws r1) with
                | None => None
                | Some r2 =>
                    match parse_value fuel' r2 with
                    | None => None
                    | Some (v, r3) =>
                        let r3 := skip_ws r3 in
                        match strip_prefix "," r3, strip_prefix "}" r3 with
                        | Some r4, _ =>
                            match parse_members fuel' r4 with
                            | Some (ms, r5) => Some ((key, v) :: ms, r5)
                            | None => None
                            end
                        | None, Some r4 => Some ([(key, v)], r4)
                        | None, None => None
                        end
                    end
                end
            end
      end
  end.

(** [JSON.parse(text)]: one value, white space around it, nothing else. *)
Definition parse (text : string) : completion json :=
  match parse_value (2 * String.length text + 2) text with
  | Some (v, rest) =>
      match skip_ws rest with
      | EmptyString => Normal v
      | String _ _ => Throw (SyntaxError "Unexpected non-whitespace character after JSON")
      end
  | None => Throw (SyntaxError "Unexpected token")
  end.

End JSON.


(* ================================================================== *)
(** ** The [@google/genai] client *)

Module GenAI.

(** A response schema ([Type.STRING], [Type.NUMBER], [Type.ARRAY],
    [Type.OBJECT]); the free-text descriptions are left out. *)
#[warnings="-register-all"]
Inductive Schema : Type :=
| STRING (enum : option (list string))
| NUMBER
| ARRAY (items : Schema)
| OBJECT (properties : list (string * Schema)) (required : list string).

Inductive Tool : Type := googleSearch.

Record GenerateContentConfig : Type := {
  tools : list Tool;
  responseMimeType : option string;
  responseSchema : option Schema;
  thinkingBudget : option Z;          (* thinkingConfig: { thinkingBudget } *)
  systemInstruction : option string
}.

Record GenerateContentParameters : Type := {
  model : string;
  contents : string;
  config : GenerateContentConfig
}.

Record GroundingChunk : Type := {
  web : option (string * string)      (* uri, title *)
}.

Record GroundingMetadata : Type := {
  groundingChunks : option (list GroundingChunk)
}.

Record Candidate : Type := {
  groundingMetadata : option GroundingMetadata
}.

(** A response, and equally a chunk of a streamed response.  [text] is
    the getter of the client: [None] is [undefined]. *)
Record GenerateContentResponse : Type := {
  text : option string;
  candidates : option (list Candidate)
}.

(** What the async iterator of a streamed response does when it is
    consumed: it ends, it throws, or it yields a chunk and goes on.  A
    stream is finite: one that never ends leaves the caller waiting and
    returns nothing to speak of. *)
Inductive Stream : Type :=
| Done
| Fail (e : error)
| Yield (chunk : GenerateContentResponse) (rest : Stream).

(** [ai.models]: the two calls of the hosted service, each settled. *)
Record GoogleGenAI : Type := {
  generateContent : GenerateContentParameters -> completion GenerateContentResponse;
  generateContentStream : GenerateContentParameters -> completion Stream
}.

(** [response.candidates?.[0]?.groundingMetadata?.groundingChunks] *)
Definition candidate_groundingChunks (response : option GenerateContentResponse)
  : option (list GroundingChunk) :=
  match response with
  | None => None
  | Some r =>
      match candidates r with
      | Some (c :: _) =>
          match groundingMetadata c with
          | Some m => groundingChunks m
          | None => None
          end
      | _ => None
      end
  end.

End GenAI.

(* ================================================================== *)
(** ** types.ts *)

Module Types.

Inductive Sentiment : Type := bullish | bearish | neutral.

Inductive AnalysisMode : Type :=
| QUICK   (* Flash + Search *)
| DEEP.   (* Pro + Thinking + Search *)

Record AnalysisResult : Type := {
  markdown : string;
  groundingChunks : option (list GenAI.GroundingChunk);
  sentiment : Sentiment
}.

Inductive Market : Type := US | IN.

(** The result of [getTopPicks].  [recommendations] is what [JSON.parse]
    gave, cast to [Recommendation[]] without a check. *)
Record TopPicks : Type := {
  recommendations : JSON.json;
  strategyUsed : string
}.

End Types.


(* ================================================================== *)
(** ** services/gemini.ts *)

Module Gemini.
Import JsString JSON GenAI Types.
Local Open Scope js_scope.

(** A value interpolated in a template literal: [undefined] prints as
    the word. *)
Definition interpolate (v : option string) : string :=
  match v with Some s => s | None => "undefined" end.

(** *** The requests

    Each definition is the argument of one call of the client, as the
    function named in it builds it. *)

Definition getLivePrice_prompt (symbol : string) : string :=
  "Find the current real-time price of stock symbol " ++ dq ++ symbol ++ dq ++ ". 
    Return a JSON object with:
    - price (number)
    - currency (string, e.g., USD, INR, EUR)
    - exchange (string, e.g., NYSE, NSE, NASDAQ)
    
    If the symbol exists on multiple exchanges (like ICICI Bank on NSE vs IBN on NYSE), choose the primary domestic exchange unless the symbol explicitly implies the ADR.".

Definition getLivePrice_request (symbol : string) : GenerateContentParameters :=
  {| model := "gemini-2.5-flash";
     contents := getLivePrice_prompt symbol;
     config :=
       {| tools := [googleSearch];
          responseMimeType := Some "application/json";
          responseSchema :=
            Some (OBJECT [("price", NUMBER);
                          ("currency", STRING None);
                          ("exchange", STRING None)]
                         ["price"; "currency"; "exchange"]);
          thinkingBudget := None;
          systemInstruction := None |} |}.

Definition analyzeStock_modelName (mode : AnalysisMode) : string :=
  match mode with DEEP => "gemini-3-pro-preview" | QUICK => "gemini-2.5-flash" end.

(** 70+ Years Experience / Value Investing Persona (deep), Quick Snapshot
    Persona (quick). *)
Definition analyzeStock_systemInstruction (mode : AnalysisMode) : string :=
  match mode with
  | DEEP =>
  "You are a legendary " ++ dq ++ "Master Investor" ++ dq ++ " with 70+ years of experience. You do not write generic reports; you write definitive, data-dense " ++ dq ++ "Business Owner" ++ dq ++ " breakdowns.

    Your goal is to provide specific numbers, specific names, and specific dates. Avoid vague phrases like " ++ dq ++ "good performance." ++ dq ++ "

    CRITICAL: Detect the correct Exchange and Currency. 
    - If user asks for " ++ dq ++ "ICICI Bank" ++ dq ++ " (NSE), do NOT quote the " ++ dq ++ "IBN" ++ dq ++ " (NYSE) price. 
    - Quote prices in the local currency.

    MANDATORY DATA POINTS TO FIND & INCLUDE:
    - Live Price, Market Cap, P/E Ratio.
    - For Banks: CASA Ratio, Net Interest Margin (NIM), Net NPA, PCR (Provision Coverage Ratio).
    - For Tech: Retention Rates, CAC/LTV, Cloud Growth % (if applicable).
    - Management Names: Specifically name the CEO and their key strategic shifts.
    - Valuation: Compare Current P/E vs 5-Year Median P/E.

    STRUCTURE YOUR RESPONSE EXACTLY LIKE THIS:

    ### Executive Summary: The 30-Second Snapshot
    (Bullet points of Price [with Currency], Valuation, and a 1-word Verdict: Buy/Sell/Wait)

    ### I. The Business & The Moat (The Engine)
    - Explain the business model simply.
    - **The Moat:** specifically identify the Cost Advantage (e.g. CASA %), Switching Costs, or Network Effects.
    - **The Shift:** How has the business changed in the last 5 years? (e.g. Corporate to Retail).

    ### II. The Management (The Jockey)
    - **The Leader:** Name them. Are they a " ++ dq ++ "Grower" ++ dq ++ " or a " ++ dq ++ "Consolidator" ++ dq ++ "?
    - **Integrity Check:** Any red flags?
    - **Skin in the Game:** Do they own stock?

    ### III. The Financial Microscope (Deep Dive)
    - Provide a data table or list of key metrics (ROE, ROA, Margins).
    - **The " ++ dq ++ "Owner Earnings" ++ dq ++ " Test:** Is cash flow growing?
    - **Asset Quality:** (Crucial for lenders) - State the Net NPA %.

    ### IV. Valuation & Targets (The Price)
    - **Is it Cheap?** Compare P/E to historical averages.
    - **The " ++ dq ++ "Buffett" ++ dq ++ " Test:** Is it a wonderful business at a fair price?

    ### V. Predictions & Future Outlook (12-24 Months)
    - **Consensus Targets:** Estimate a specific price range for 12 months out based on earnings growth.
    - **The Catalyst:** What specific event could trigger a rally? (e.g. Rate cuts, IPO of subsidiary).
    - **The Risk:** What is the #1 thing that could kill the thesis?

    ### VI. Final Verdict
    (Definitive conclusion for a long-term holder)"
  | QUICK =>
  "You are MarketMind, a senior financial analyst.
    Provide a concise snapshot of price, recent news, and technical stance.
    Always use Google Search to get the latest price and news."
  end.

Definition analyzeStock_prompt (symbol : string) (mode : AnalysisMode) : string :=
  match mode with
  | DEEP =>
  "Conduct a rigorous, data-heavy " ++ dq ++ "Master Investor" ++ dq ++ " analysis of " ++ symbol ++ ". Get every single detail. finding specific latest quarterly numbers (NPA, Margins, CASA) and Management details. Include a specific Price Prediction section."
  | QUICK =>
  "Analyze " ++ symbol ++ ". Provide a structured report including Current Price (approx), Key Catalysts, Risks, and a Verdict (Buy/Sell/Hold)."
  end.

Definition analyzeStock_request (symbol : string) (mode : AnalysisMode)
  : GenerateContentParameters :=
  {| model := analyzeStock_modelName mode;
     contents := analyzeStock_prompt symbol mode;
     config :=
       {| tools := [googleSearch];
          responseMimeType := None;
          responseSchema := None;
          (* Allocate thinking budget for deep analysis *)
          thinkingBudget := match mode with DEEP => Some 4096%Z | QUICK => None end;
          systemInstruction := Some (analyzeStock_systemInstruction mode) |} |}.

(** Step 1 of [getForecast]: gather real-time context using Flash + Search. *)
Definition getForecast_contextPrompt (symbol : string) : string :=
  "Get the current price, currency, and exchange for " ++ symbol ++ ".
    CRITICAL: Ensure you identify the correct currency (e.g. INR for Indian stocks, USD for US stocks).
    Do not confuse the US ADR price with the local share price.".

Definition getForecast_contextRequest (symbol : string) : GenerateContentParameters :=
  {| model := "gemini-2.5-flash";
     contents := getForecast_contextPrompt symbol;
     config :=
       {| tools := [googleSearch];
          responseMimeType := None;
          responseSchema := None;
          thinkingBudget := None;
          systemInstruction := None |} |}.

(** Step 2 of [getForecast]: the Pro model with Thinking generates the
    scenarios. *)
Definition getForecast_prompt (symbol : string) (context : string) : string :=
  "Based on this real-time context: 
    " ++ dq ++ context ++ dq ++ "
    
    Generate a 3-month price forecast for " ++ symbol ++ ".
    Create 3 distinct scenarios: Bearish, Base, and Bullish.
    Assign a probability to each (must sum to 100%).
    Provide a specific price target for each scenario IN THE SAME CURRENCY as the context price.
    Estimate the current price.
    Estimate an overall confidence score (0-100).".

Definition getForecast_schema : Schema :=
  OBJECT
    [("symbol", STRING None);
     ("timeframe", STRING None);
     ("currentPrice", NUMBER);
     ("confidenceScore", NUMBER);
     ("scenarios",
      ARRAY (OBJECT [("type", STRING None);
                     ("priceTarget", NUMBER);
                     ("probability", NUMBER);
                     ("reasoning", STRING None)]
                    ["type"; "priceTarget"; "probability"; "reasoning"]))]
    ["symbol"; "scenarios"; "confidenceScore"].

Definition getForecast_request (symbol : string) (context : option string)
  : GenerateContentParameters :=
  {| model := "gemini-3-pro-preview";
     contents := getForecast_prompt symbol (interpolate context);
     config :=
       {| tools := [];
          responseMimeType := Some "application/json";
          responseSchema := Some getForecast_schema;
          thinkingBudget := Some 2048%Z;
          systemInstruction := None |} |}.

(** The strategy [getTopPicks] determines from the timeframe, before it
    calls the service. *)
Definition getTopPicks_strategy (timeframe : string) : string :=
  let tf := toLowerCase timeframe in
  if includes tf "day" || includes tf "intraday" then
    "INTRA-DAY MOMENTUM. Focus on high relative volume, pre-market movers, earnings beats, and immediate volatility."
  else if includes tf "week" then
    "SWING TRADING. Focus on technical breakouts, sector rotation, and short-term news catalysts."
  else if includes tf "month" then
    (* Check for specific month counts *)
    if includes tf "1" || includes tf "2" || includes tf "3" then
      "SHORT-TO-MEDIUM TERM TREND. Focus on earnings growth, relative strength (RSI), and moving average crossovers."
    else if includes tf "4" || includes tf "5" || includes tf "6" then
      "POSITION TRADING. Focus on macro trends, fundamental growth, and sustained sector leadership."
    else
      (* Fallback for generic 'months' *)
      "TREND FOLLOWING. Focus on fundamental catalysts and technical trends."
  else if includes tf "year" then
    "LONG TERM VALUE & COMPOUNDING. Focus on undervalued companies with wide moats, high ROIC, and durable competitive advantages (Buffett Style)."
  else
    (* Default fallback *)
    "BALANCED GROWTH & VALUE. Focus on companies with strong fundamentals and technical uptrends.".

Definition getTopPicks_marketContext (market : Market) : string :=
  match market with
  | IN => "Indian Stock Market (NSE/BSE). Prices in INR."
  | US => "US Stock Market (NYSE/NASDAQ). Prices in USD."
  end.

Definition getTopPicks_prompt (marketContext timeframe strategy : string) : string :=
  "You are an expert Portfolio Manager.
  Market: " ++ marketContext ++ "
  Investment Horizon: " ++ timeframe ++ "
  Selected Strategy: " ++ strategy ++ "

  Using Google Search, identify 4 of the BEST stocks to buy right now that match this specific strategy and timeframe.
  Get real-time prices.
  Provide a structured JSON response.".

Definition getTopPicks_schema : Schema :=
  ARRAY
    (OBJECT
       [("symbol", STRING None);
        ("name", STRING None);
        ("price", STRING None);
        ("currency", STRING None);
        ("action", STRING (Some ["Buy"; "Strong Buy"; "Watch"]));
        ("reasoning", STRING None);
        ("riskLevel", STRING (Some ["High"; "Medium"; "Low"]));
        ("potentialUpside", STRING None);
        ("sources", ARRAY (STRING None))]
       ["symbol"; "name"; "price"; "reasoning"; "riskLevel"; "sources"]).

Definition getTopPicks_request (market : Market) (timeframe : string)
  : GenerateContentParameters :=
  {| model := "gemini-3-pro-preview";
     contents :=
       getTopPicks_prompt (getTopPicks_marketContext market) timeframe
         (getTopPicks_strategy timeframe);
     config :=
       {| tools := [googleSearch];
          responseMimeType := Some "application/json";
          responseSchema := Some getTopPicks_schema;
          thinkingBudget := None;
          systemInstruction := None |} |}.

(** Determine sentiment based on text analysis: the rule [analyzeStock]
    applies to the full text once the stream has ended. *)
Definition analyzeStock_sentiment (fullText : string) : Sentiment :=
  let lowerText := toLowerCase fullText in
  if includes lowerText "invest" || includes lowerText "buy" || includes lowerText "bullish"
  then bullish
  else if includes lowerText "pass" || includes lowerText "sell" || includes lowerText "bearish"
  then bearish
  else neutral.

(** [for await (const chunk of result) { ... }] of [analyzeStock], from
    the state [(fullText, finalResponse)] the loop is entered in. *)
Fixpoint analyzeStock_loop (onStream : option (string -> M unit)) (result : Stream)
    (fullText : string) (finalResponse : option GenerateContentResponse)
  : M (string * option GenerateContentResponse) :=
  match result with
  | Done => ret (fullText, finalResponse)
  | Fail e => throw e
  | Yield chunk rest =>
      let text := match GenAI.text chunk with Some t => t | None => "" end in
      let fullText := (fullText ++ text)%string in
      match onStream with Some f => f fullText | None => ret tt end ;;
      (* Keep reference to last chunk for metadata *)
      analyzeStock_loop onStream rest fullText (Some chunk)
  end.

Section Services.

(** The platform's [JSON.parse] and the client [ai] of the module. *)
Variable JSON_parse : string -> completion json.
Variable ai : GoogleGenAI.

Definition getLivePrice (symbol : string) : M json :=
  try
    (response <- await (generateContent ai (getLivePrice_request symbol)) ;;
     match text response with
     | Some t => if truthy t then await (JSON_parse t) else ret JNull
     | None => ret JNull
     end)
  catch
    (fun error => tell (console_error "Price fetch error:" error) ;; ret JNull).

Definition analyzeStock (symbol : string) (mode : AnalysisMode)
    (onStream : option (string -> M unit)) : M AnalysisResult :=
  try
    ((* We use streaming for better UX on long analyses *)
     result <- await (generateContentStream ai (analyzeStock_request symbol mode)) ;;
     final <- analyzeStock_loop onStream result "" None ;;
     let '(fullText, finalResponse) := final in
     ret {| markdown := fullText;
            groundingChunks :=
              Some (match candidate_groundingChunks finalResponse with
                    | Some chunks => chunks
                    | None => []
                    end);
            sentiment := analyzeStock_sentiment fullText |})
  catch
    (fun error =>
       tell (console_error "Analysis error:" error) ;;
       ret {| markdown := "Failed to generate analysis. Please try again.";
              groundingChunks := None;
              sentiment := neutral |}).

Definition getForecast (symbol : string) : M json :=
  try
    (contextResp <- await (generateContent ai (getForecast_contextRequest symbol)) ;;
     let context := text contextResp in
     response <- await (generateContent ai (getForecast_request symbol context)) ;;
     match text response with
     | Some t => if truthy t then await (JSON_parse t) else ret JNull
     | None => ret JNull
     end)
  catch
    (fun error => tell (console_error "Forecast error:" error) ;; ret JNull).

Definition getTopPicks (market : Market) (timeframe : string) : M TopPicks :=
  let strategy := getTopPicks_strategy timeframe in
  try
    (response <- await (generateContent ai (getTopPicks_request market timeframe)) ;;
     match text response with
     | Some t =>
         if truthy t then
           parsed <- await (JSON_parse t) ;;
           ret {| recommendations := parsed; strategyUsed := strategy |}
         else ret {| recommendations := JArr []; strategyUsed := strategy |}
     | None => ret {| recommendations := JArr []; strategyUsed := strategy |}
     end)
  catch
    (fun error =>
       tell (console_error "Screener error:" error) ;;
       ret {| recommendations := JArr []; strategyUsed := strategy |}).

End Services.

End Gemini.


(* ================================================================== *)
(** ** What the specification says of the results *)

Module Spec.
Import JsString JSON GenAI Types.

(** A value conforms to a response schema: the kind fits, a string is in
    the enumeration when there is one, every element of an array fits the
    item schema, every required property is present and every declared
    property that is present fits. *)
Fixpoint conforms (s : Schema) (v : json) {struct s} : bool :=
  match s, v with
  | STRING None, JStr _ => true
  | STRING (Some enum), JStr x => existsb (String.eqb x) enum
  | NUMBER, JNum _ => true
  | ARRAY items, JArr vs => forallb (conforms items) vs
  | OBJECT properties required, JObj members =>
      forallb (fun k => match lookup k members with Some _ => true | None => false end)
              required
      && (fix each (ps : list (string * Schema)) : bool :=
            match ps with
            | [] => true
            | (k, sk) :: ps' =>
                match lookup k members with
                | Some w => conforms sk w
                | None => true
                end && each ps'
            end) properties
  | _, _ => false
  end.

Definition is_letter (c : ascii) : bool :=
  let n := code (lower_char c) in (97 <=? n)%Z && (n <=? 122)%Z.

(** A 3-letter currency code. *)
Definition currency_code (c : string) : bool :=
  (String.length c =? 3)%nat && forallb is_letter (list_ascii_of_string c).

(** The number is strictly positive. *)
Definition strictly_positive (n : number) : bool := (0 <? mantissa n)%Z.

(** A quote with [price > 0] and a 3-letter currency code. *)
Definition valid_quote (v : json) : bool :=
  match get v "price", get v "currency" with
  | Some (JNum p), Some (JStr c) => strictly_positive p && currency_code c
  | _, _ => false
  end.

(** A quote whose price is a number that is not strictly positive. *)
Definition nonpositive_price (v : json) : bool :=
  match get v "price" with
  | Some (JNum p) => negb (strictly_positive p)
  | _ => false
  end.

Definition has_kind (scenarios : list json) (kind : string) : bool :=
  existsb (fun s => match get s "type" with
                    | Some (JStr t) => String.eqb t kind
                    | _ => false
                    end) scenarios.

(** A forecast with exactly 3 scenarios, one of each kind. *)
Definition three_scenarios (v : json) : bool :=
  match get v "scenarios" with
  | Some (JArr scenarios) =>
      (List.length scenarios =? 3)%nat
      && forallb (has_kind scenarios) ["Bearish"; "Base"; "Bullish"]
  | _ => false
  end.

(** The sentiment rule in the words of the specification: the keywords
    "buy", "invest", "bullish" make the text bullish, else the keywords
    "sell", "bearish" make it bearish, else it is neutral. *)
Definition stated_sentiment (finalText : string) : Sentiment :=
  let lowerText := toLowerCase finalText in
  if includes lowerText "buy" || includes lowerText "invest" || includes lowerText "bullish"
  then bullish
  else if includes lowerText "sell" || includes lowerText "bearish"
  then bearish
  else neutral.

(** *** Streams and callbacks *)

(** The stream that yields [chunks] in order and ends. *)
Definition stream_of (chunks : list GenerateContentResponse) : Stream :=
  fold_right Yield Done chunks.

(** The text a chunk adds to the buffer: [chunk.text || ""]. *)
Definition chunk_text (chunk : GenerateContentResponse) : string :=
  match text chunk with Some t => t | None => "" end.

(** The texts, one after another. *)
Definition join (texts : list string) : string := fold_right append "" texts.

(** The buffer after each text, starting from [buffer]. *)
Fixpoint buffers (buffer : string) (texts : list string) : list string :=
  match texts with
  | [] => []
  | t :: rest => (buffer ++ t)%string :: buffers (buffer ++ t)%string rest
  end.

(** A callback that returns, whatever it is given. *)
Definition returns (onStream : option (string -> M unit)) : Prop :=
  match onStream with
  | Some f => forall t, value_of (f t) = Normal tt
  | None => True
  end.

(** What calling [onStream] on each of [texts], in order, lets see. *)
Definition calls (onStream : option (string -> M unit)) (texts : list string)
  : list event :=
  match onStream with
  | Some f => flat_map (fun t => trace_of (f t)) texts
  | None => []
  end.

(** The error a stream throws while it is consumed, if it does. *)
Fixpoint stream_error (s : Stream) : option error :=
  match s with
  | Done => None
  | Fail e => Some e
  | Yield _ rest => stream_error rest
  end.

(** The streaming call throws a transport error: the call itself, or
    the stream it opened. *)
Definition transport_error (c : completion Stream) : bool :=
  match c with
  | Throw _ => true
  | Normal s => match stream_error s with Some _ => true | None => false end
  end.

(** A non-streaming call gives nothing to return: it throws, or its
    response has no text or an empty one, or the text does not parse. *)
Definition no_result (JSON_parse : string -> completion json)
    (c : completion GenerateContentResponse) : bool :=
  match c with
  | Throw _ => true
  | Normal response =>
      match text response with
      | None => true
      | Some t =>
          negb (truthy t)
          || match JSON_parse t with Throw _ => true | Normal _ => false end
      end
  end.

End Spec.

(* ================================================================== *)
(** ** Mock services *)

Module Mock.
Import JsString JSON GenAI Types.

Definition q (s : string) : string := (dq ++ s ++ dq)%string.

Definition chunk_of (t : string) : GenerateContentResponse :=
  {| text := Some t; candidates := None |}.

Definition network_error : error := Error "TypeError" "fetch failed".

(** Every call fails on the network. *)
Definition network_down : GoogleGenAI :=
  {| generateContent := fun _ => Throw network_error;
     generateContentStream := fun _ => Throw network_error |}.

(** Answers every streaming call with the chunks of [texts]. *)
Definition streaming (texts : list string) : GoogleGenAI :=
  {| generateContent := fun _ => Throw network_error;
     generateContentStream := fun _ => Normal (Spec.stream_of (map chunk_of texts)) |}.

(** Answers every call with the text [answer]. *)
Definition answering (answer : string) : GoogleGenAI :=
  {| generateContent := fun _ => Normal (chunk_of answer);
     generateContentStream := fun _ => Throw network_error |}.

(** [{"price":0,"currency":"USD","exchange":"NASDAQ"}] *)
Definition zero_quote_text : string :=
  ("{" ++ q "price" ++ ":0," ++ q "currency" ++ ":" ++ q "USD" ++ ","
       ++ q "exchange" ++ ":" ++ q "NASDAQ" ++ "}")%string.

Definition zero_quote : json :=
  JObj [("price", of_Z 0); ("currency", JStr "USD"); ("exchange", JStr "NASDAQ")].

(** [{"symbol":"NVDA","confidenceScore":60,"scenarios":[{"type":"Base",
    "priceTarget":100,"probability":100,"reasoning":"flat"}]}] *)
Definition one_scenario_text : string :=
  ("{" ++ q "symbol" ++ ":" ++ q "NVDA" ++ "," ++ q "confidenceScore" ++ ":60,"
       ++ q "scenarios" ++ ":[{" ++ q "type" ++ ":" ++ q "Base" ++ ","
       ++ q "priceTarget" ++ ":100," ++ q "probability" ++ ":100,"
       ++ q "reasoning" ++ ":" ++ q "flat" ++ "}]}")%string.

Definition one_scenario : json :=
  JObj [("symbol", JStr "NVDA");
        ("confidenceScore", of_Z 60);
        ("scenarios",
         JArr [JObj [("type", JStr "Base");
                     ("priceTarget", of_Z 100);
                     ("probability", of_Z 100);
                     ("reasoning", JStr "flat")]])].

(** Gives the flash model's call a sentence of context and the pro
    model's call the forecast above. *)
Definition one_scenario_service : GoogleGenAI :=
  {| generateContent := fun request =>
       if String.eqb (model request) "gemini-3-pro-preview"
       then Normal (chunk_of one_scenario_text)
       else Normal (chunk_of "NVDA trades at 100 USD on NASDAQ.");
     generateContentStream := fun _ => Throw network_error |}.

(** A caller that renders every partial text it is given. *)
Definition render : option (string -> M unit) := Some (fun t => tell (observed t)).

End Mock.


(* ================================================================== *)
(** ** The other calls of the client *)

Module GenAIMore.
Import JSON GenAI.

(** The argument of [generateContent] when it also sets
    [config.temperature]. *)
Record SampledParameters : Type := {
  parameters : GenerateContentParameters;
  temperature : number
}.

(** The argument of [generateContent] for an image: the texts of
    [contents.parts] and [config.imageConfig.aspectRatio]. *)
Record ImageParameters : Type := {
  image_model : string;
  part_texts : list string;
  aspectRatio : string
}.

Record Blob : Type := {
  data : option string;
  mimeType : option string
}.

Record Part : Type := {
  part_text : option string;
  inlineData : option Blob
}.

Record Content : Type := {
  parts : option (list Part)
}.

Record ContentCandidate : Type := {
  content : option Content
}.

(** A response read through its parts. *)
Record ContentResponse : Type := {
  content_candidates : option (list ContentCandidate)
}.

(** [ai.models.generateContent] at these two shapes of argument. *)
Record Models : Type := {
  generateContent_sampled : SampledParameters -> completion GenerateContentResponse;
  generateContent_image : ImageParameters -> completion ContentResponse
}.

(** [response.candidates?.[0]?.content?.parts || []] *)
Definition candidate_parts (response : ContentResponse) : list Part :=
  match content_candidates response with
  | Some (c :: _) =>
      match content c with
      | Some body => match parts body with Some ps => ps | None => [] end
      | None => []
      end
  | _ => []
  end.

End GenAIMore.

(* ================================================================== *)
(** ** services/gemini.ts, the other exports *)

Module GeminiMore.
Import JsString JSON GenAI GenAIMore Types Gemini.
Local Open Scope js_scope.

Record MarketNews : Type := {
  news : string;
  chunks : list GroundingChunk
}.

Definition getMarketNews_request : SampledParameters :=
  {| parameters :=
       {| model := "gemini-2.5-flash";
          contents := "What are the top 5 most important financial news headlines right now? Format as a concise list.";
          config :=
            {| tools := [googleSearch];
               responseMimeType := None;
               responseSchema := None;
               thinkingBudget := None;
               systemInstruction := None |} |};
     temperature := Num 3 (-1) |}.

Definition generateAppThumbnail_request : ImageParameters :=
  {| image_model := "gemini-2.5-flash-image";
     part_texts :=
       ["A futuristic, cinematic 3D render of a financial AI assistant interface named 'MarketMind'. Dark mode, glowing emerald green data streams, holographic stock charts, and a central digital brain. Professional, high-tech, 8k resolution, aspect ratio 16:9."];
     aspectRatio := "16:9" |}.

(** [for (const part of ...) { if (part.inlineData) return ...; }
    return null;] of [generateAppThumbnail]. *)
Fixpoint generateAppThumbnail_loop (remaining : list Part) : option string :=
  match remaining with
  | [] => None
  | part :: rest =>
      match inlineData part with
      | Some blob => Some ("data:image/png;base64," ++ interpolate (data blob))%string
      | None => generateAppThumbnail_loop rest
      end
  end.

Section Services.

Variable ai : Models.

Definition getMarketNews : M MarketNews :=
  try
    (response <- await (generateContent_sampled ai getMarketNews_request) ;;
     ret {| news :=
              match text response with
              | Some t => if truthy t then t else "Unable to fetch news."
              | None => "Unable to fetch news."
              end;
            chunks :=
              match candidate_groundingChunks (Some response) with
              | Some cs => cs
              | None => []
              end |})
  catch
    (fun error =>
       tell (console_error "Error fetching news:" error) ;;
       ret {| news := "Error fetching market news."; chunks := [] |}).

Definition generateAppThumbnail : M (option string) :=
  try
    (response <- await (generateContent_image ai generateAppThumbnail_request) ;;
     ret (generateAppThumbnail_loop (candidate_parts response)))
  catch
    (fun e => tell (console_error "Thumbnail generation error" e) ;; ret None).

End Services.

End GeminiMore.

(* ================================================================== *)
(** ** Notions used to state what the services do *)

Module SpecMore.
Import JsString JSON GenAI GenAIMore Types Gemini.

(** The stream that yields [chunks] in order and then throws [e]. *)
Definition failing_stream (chunks : list GenerateContentResponse) (e : error) : Stream :=
  fold_right Yield (Fail e) chunks.

(** What [analyzeStock] returns from its [catch]. *)
Definition analysis_failed : AnalysisResult :=
  {| markdown := "Failed to generate analysis. Please try again.";
     groundingChunks := None;
     sentiment := neutral |}.

(** The citations of a chunk: [chunk.candidates?.[0]?.groundingMetadata
    ?.groundingChunks || []]. *)
Definition citations (chunk : GenerateContentResponse) : list GroundingChunk :=
  match candidate_groundingChunks (Some chunk) with
  | Some cs => cs
  | None => []
  end.

(** Neutral below bearish below bullish. *)
Definition rank (s : Sentiment) : nat :=
  match s with neutral => 0 | bearish => 1 | bullish => 2 end.

(** The strategy texts that occur in [getTopPicks]. *)
Definition strategies : list string :=
  ["INTRA-DAY MOMENTUM. Focus on high relative volume, pre-market movers, earnings beats, and immediate volatility.";
   "SWING TRADING. Focus on technical breakouts, sector rotation, and short-term news catalysts.";
   "SHORT-TO-MEDIUM TERM TREND. Focus on earnings growth, relative strength (RSI), and moving average crossovers.";
   "POSITION TRADING. Focus on macro trends, fundamental growth, and sustained sector leadership.";
   "TREND FOLLOWING. Focus on fundamental catalysts and technical trends.";
   "LONG TERM VALUE & COMPOUNDING. Focus on undervalued companies with wide moats, high ROIC, and durable competitive advantages (Buffett Style).";
   "BALANCED GROWTH & VALUE. Focus on companies with strong fundamentals and technical uptrends."].

(** [getForecast] has nothing to return: its first call throws, or the
    second gives no result. *)
Definition no_forecast (JSON_parse : string -> completion json) (ai : GoogleGenAI)
    (symbol : string) : bool :=
  match generateContent ai (getForecast_contextRequest symbol) with
  | Throw _ => true
  | Normal contextResp =>
      Spec.no_result JSON_parse
        (generateContent ai (getForecast_request symbol (text contextResp)))
  end.

(** No part of the list carries inline data. *)
Definition no_inline_data (ps : list Part) : Prop :=
  Forall (fun p => inlineData p = None) ps.

End SpecMore.

(* ================================================================== *)
(** ** More mock services *)

Module MockMore.
Import JsString JSON GenAI GenAIMore Types.

Definition source (uri title : string) : GroundingChunk :=
  {| web := Some (uri, title) |}.

(** A chunk with text and citations. *)
Definition cited_chunk (t : string) (cs : list GroundingChunk) : GenerateContentResponse :=
  {| text := Some t;
     candidates := Some [{| groundingMetadata := Some {| GenAI.groundingChunks := Some cs |} |}] |}.

(** Answers every streaming call with the given stream. *)
Definition streaming_as (s : Stream) : GoogleGenAI :=
  {| generateContent := fun _ => Throw Mock.network_error;
     generateContentStream := fun _ => Normal s |}.

(** A callback that renders the first text it is given and throws on
    every other. *)
Definition render_once : option (string -> M unit) :=
  Some (fun t => if String.eqb t "NVDA " then tell (observed t)
                 else ([observed t], Throw (Error "TypeError" "unmounted"))).

Definition text_part (t : string) : Part :=
  {| part_text := Some t; inlineData := None |}.

Definition image_part (d : string) : Part :=
  {| part_text := None; inlineData := Some {| data := Some d; mimeType := Some "image/jpeg" |} |}.

Definition parts_response (ps : list Part) : ContentResponse :=
  {| content_candidates := Some [{| content := Some {| parts := Some ps |} |}] |}.

(** Answers an image request with the given parts and a sampled request
    with the given text. *)
Definition models (answer : option string) (ps : list Part) : Models :=
  {| generateContent_sampled := fun _ => Normal {| text := answer; candidates := None |};
     generateContent_image := fun _ => Normal (parts_response ps) |}.

(** Answers the flash model with a response without text and the pro
    model with [answer]. *)
Definition no_context (answer : string) : GoogleGenAI :=
  {| generateContent := fun request =>
       if String.eqb (model request) "gemini-3-pro-preview"
       then Normal (Mock.chunk_of answer)
       else Normal {| text := None; candidates := None |};
     generateContentStream := fun _ => Throw Mock.network_error |}.

(** Fails the flash model's call and answers the pro model with
    [answer]. *)
Definition context_down (answer : string) : GoogleGenAI :=
  {| generateContent := fun request =>
       if String.eqb (model request) "gemini-3-pro-preview"
       then Normal (Mock.chunk_of answer)
       else Throw Mock.network_error;
     generateContentStream := fun _ => Throw Mock.network_error |}.

End MockMore.

(* ================================================================== *)
(** ** App.tsx: the state of the component and its handlers *)

Module App.
Import JsString JSON GenAI GenAIMore Types Gemini GeminiMore.

(** A JavaScript value that came out of parsed JSON or is [undefined];
    [null] is [of_json JNull]. *)
Inductive value : Type :=
| undefined
| of_json (v : json).

Definition null : value := of_json JNull.

(** Truthiness: [null], [false], zero and the empty string are falsy,
    every array and object is truthy.  A number is zero when its decimal
    is; a literal so small that its double is zero is not told apart. *)
Definition truthy_json (v : json) : bool :=
  match v with
  | JNull => false
  | JBool b => b
  | JNum n => negb (mantissa n =? 0)%Z
  | JStr s => truthy s
  | JArr _ => true
  | JObj _ => true
  end.

Definition truthy_value (v : value) : bool :=
  match v with
  | undefined => false
  | of_json j => truthy_json j
  end.

(** Property read [data.key]. *)
Definition member (data : json) (key : string) : value :=
  match get data key with
  | Some v => of_json v
  | None => undefined
  end.

(** White space and line terminators, which [trim] strips, in UTF-8.
    In one byte: tab, line feed, vertical tab, form feed, carriage
    return, space. *)
Definition is_space (c : ascii) : bool :=
  let n := code c in ((9 <=? n)%Z && (n <=? 13)%Z) || (n =? 32)%Z.

(** In two bytes: U+00A0 NO-BREAK SPACE, which is C2 A0. *)
Definition is_space2 (c x : ascii) : bool :=
  (code c =? 194)%Z && (code x =? 160)%Z.

(** In three bytes: U+1680 (E1 9A 80); U+2000 to U+200A, U+2028, U+2029
    and U+202F (E2 80, then 80 to 8A, A8, A9, AF); U+205F (E2 81 9F);
    U+3000 (E3 80 80); U+FEFF (EF BB BF). *)
Definition is_space3 (c x y : ascii) : bool :=
  let a := code c in
  let b := code x in
  let d := code y in
  ((a =? 225)%Z && (b =? 154)%Z && (d =? 128)%Z)
  || ((a =? 226)%Z && (b =? 128)%Z
      && (((128 <=? d)%Z && (d <=? 138)%Z)
          || (d =? 168)%Z || (d =? 169)%Z || (d =? 175)%Z))
  || ((a =? 226)%Z && (b =? 129)%Z && (d =? 159)%Z)
  || ((a =? 227)%Z && (b =? 128)%Z && (d =? 128)%Z)
  || ((a =? 239)%Z && (b =? 187)%Z && (d =? 191)%Z).

(** [String.prototype.trimStart] *)
Fixpoint trimStart (s : string) : string :=
  match s with
  | EmptyString => EmptyString
  | String c r1 =>
      if is_space c then trimStart r1
      else
        match r1 with
        | EmptyString => s
        | String x r2 =>
            if is_space2 c x then trimStart r2
            else
              match r2 with
              | EmptyString => s
              | String y r3 => if is_space3 c x y then trimStart r3 else s
              end
        end
  end.

(** [String.prototype.trimEnd]: the text up to where nothing but white
    space follows. *)
Fixpoint trimEnd (s : string) : string :=
  match s with
  | EmptyString => EmptyString
  | String c rest =>
      if String.eqb (trimStart s) EmptyString then EmptyString
      else String c (trimEnd rest)
  end.

(** [String.prototype.trim] *)
Definition trim (s : string) : string := trimEnd (trimStart s).

(** What follows the white space character [s] starts with, if it starts
    with one: a step of [trimStart]. *)
Definition strip_space (s : string) : option string :=
  match s with
  | EmptyString => None
  | String c r1 =>
      if is_space c then Some r1
      else
        match r1 with
        | EmptyString => None
        | String x r2 =>
            if is_space2 c x then Some r2
            else
              match r2 with
              | EmptyString => None
              | String y r3 => if is_space3 c x y then Some r3 else None
              end
        end
  end.

Inductive Tab : Type := dashboard | research | picks_tab | export.

(** The state held by the [useState] hooks of [App], in their order. *)
Record AppState : Type := {
  activeTab : Tab;
  symbol : string;
  analysisResult : option AnalysisResult;
  forecast : json;
  isAnalyzing : bool;
  isForecasting : bool;
  news : MarketNews;
  analysisMode : AnalysisMode;
  livePrice : value;
  currency : value;
  pickMarket : Market;
  pickTimeframe : string;
  customTimeframe : string;
  picks : json;
  activeStrategy : string;
  isPicking : bool;
  showShareCard : bool;
  thumbnailUrl : option string;
  isGeneratingThumbnail : bool
}.

(** The state of the first render. *)
Definition initial : AppState :=
  {| activeTab := dashboard;
     symbol := "NVDA";
     analysisResult := None;
     forecast := JNull;
     isAnalyzing := false;
     isForecasting := false;
     news := {| GeminiMore.news := ""; chunks := [] |};
     analysisMode := QUICK;
     livePrice := null;
     currency := of_json (JStr "USD");
     pickMarket := US;
     pickTimeframe := "1 Month";
     customTimeframe := "";
     picks := JArr [];
     activeStrategy := "";
     isPicking := false;
     showShareCard := false;
     thumbnailUrl := None;
     isGeneratingThumbnail := false |}.

(** *** The state setters *)

Definition setActiveTab (x : Tab) (s : AppState) : AppState :=
  {| activeTab := x;
     symbol := symbol s;
     analysisResult := analysisResult s;
     forecast := forecast s;
     isAnalyzing := isAnalyzing s;
     isForecasting := isForecasting s;
     news := news s;
     analysisMode := analysisMode s;
     livePrice := livePrice s;
     currency := currency s;
     pickMarket := pickMarket s;
     pickTimeframe := pickTimeframe s;
     customTimeframe := customTimeframe s;
     picks := picks s;
     activeStrategy := activeStrategy s;
     isPicking := isPicking s;
     showShareCard := showShareCard s;
     thumbnailUrl := thumbnailUrl s;
     isGeneratingThumbnail := isGeneratingThumbnail s |}.

Definition setSymbol (x : string) (s : AppState) : AppState :=
  {| activeTab := activeTab s;
     symbol := x;
     analysisResult := analysisResult s;
     forecast := forecast s;
     isAnalyzing := isAnalyzing s;
     isForecasting := isForecasting s;
     news := news s;
     analysisMode := analysisMode s;
     livePrice := livePrice s;
     currency := currency s;
     pickMarket := pickMarket s;
     pickTimeframe := pickTimeframe s;
     customTimeframe := customTimeframe s;
     picks := picks s;
     activeStrategy := activeStrategy s;
     isPicking := isPicking s;
     showShareCard := showShareCard s;
     thumbnailUrl := thumbnailUrl s;
     isGeneratingThumbnail := isGeneratingThumbnail s |}.

Definition setAnalysisResult (x : option AnalysisResult) (s : AppState) : AppState :=
  {| activeTab := activeTab s;
     symbol := symbol s;
     analysisResult := x;
     forecast := forecast s;
     isAnalyzing := isAnalyzing s;
     isForecasting := isForecasting s;
     news := news s;
     analysisMode := analysisMode s;
     livePrice := livePrice s;
     currency := currency s;
     pickMarket := pickMarket s;
     pickTimeframe := pickTimeframe s;
     customTimeframe := customTimeframe s;
     picks := picks s;
     activeStrategy := activeStrategy s;
     isPicking := isPicking s;
     showShareCard := showShareCard s;
     thumbnailUrl := thumbnailUrl s;
     isGeneratingThumbnail := isGeneratingThumbnail s |}.

Definition setForecast (x : json) (s : AppState) : AppState :=
  {| activeTab := activeTab s;
     symbol := symbol s;
     analysisResult := analysisResult s;
     forecast := x;
     isAnalyzing := isAnalyzing s;
     isForecasting := isForecasting s;
     news := news s;
     analysisMode := analysisMode s;
     livePrice := livePrice s;
     currency := currency s;
     pickMarket := pickMarket s;
     pickTimeframe := pickTimeframe s;
     customTimeframe := customTimeframe s;
     picks := picks s;
     activeStrategy := activeStrategy s;
     isPicking := isPicking s;
     showShareCard := showShareCard s;
     thumbnailUrl := thumbnailUrl s;
     isGeneratingThumbnail := isGeneratingThumbnail s |}.

Definition setIsAnalyzing (x : bool) (s : AppState) : AppState :=
  {| activeTab := activeTab s;
     symbol := symbol s;
     analysisResult := analysisResult s;
     forecast := forecast s;
     isAnalyzing := x;
     isForecasting := isForecasting s;
     news := news s;
     analysisMode := analysisMode s;
     livePrice := livePrice s;
     currency := currency s;
     pickMarket := pickMarket s;
     pickTimeframe := pickTimeframe s;
     customTimeframe := customTimeframe s;
     picks := picks s;
     activeStrategy := activeStrategy s;
     isPicking := isPicking s;
     showShareCard := showShareCard s;
     thumbnailUrl := thumbnailUrl s;
     isGeneratingThumbnail := isGeneratingThumbnail s |}.

Definition setIsForecasting (x : bool) (s : AppState) : AppState :=
  {| activeTab := activeTab s;
     symbol := symbol s;
     analysisResult := analysisResult s;
     forecast := forecast s;
     isAnalyzing := isAnalyzing s;
     isForecasting := x;
     news := news s;
     analysisMode := analysisMode s;
     livePrice := livePrice s;
     currency := currency s;
     pickMarket := pickMarket s;
     pickTimeframe := pickTimeframe s;
     customTimeframe := customTimeframe s;
     picks := picks s;
     activeStrategy := activeStrategy s;
     isPicking := isPicking s;
     showShareCard := showShareCard s;
     thumbnailUrl := thumbnailUrl s;
     isGeneratingThumbnail := isGeneratingThumbnail s |}.

Definition setNews (x : MarketNews) (s : AppState) : AppState :=
  {| activeTab := activeTab s;
     symbol := symbol s;
     analysisResult := analysisResult s;
     forecast := forecast s;
     isAnalyzing := isAnalyzing s;
     isForecasting := isForecasting s;
     news := x;
     analysisMode := analysisMode s;
     livePrice := livePrice s;
     currency := currency s;
     pickMarket := pickMarket s;
     pickTimeframe := pickTimeframe s;
     customTimeframe := customTimeframe s;
     picks := picks s;
     activeStrategy := activeStrategy s;
     isPicking := isPicking s;
     showShareCard := showShareCard s;
     thumbnailUrl := thumbnailUrl s;
     isGeneratingThumbnail := isGeneratingThumbnail s |}.

Definition setAnalysisMode (x : AnalysisMode) (s : AppState) : AppState :=
  {| activeTab := activeTab s;
     symbol := symbol s;
     analysisResult := analysisResult s;
     forecast := forecast s;
     isAnalyzing := isAnalyzing s;
     isForecasting := isForecasting s;
     news := news s;
     analysisMode := x;
     livePrice := livePrice s;
     currency := currency s;
     pickMarket := pickMarket s;
     pickTimeframe := pickTimeframe s;
     customTimeframe := customTimeframe s;
     picks := picks s;
     activeStrategy := activeStrategy s;
     isPicking := isPicking s;
     showShareCard := showShareCard s;
     thumbnailUrl := thumbnailUrl s;
     isGeneratingThumbnail := isGeneratingThumbnail s |}.

Definition setLivePrice (x : value) (s : AppState) : AppState :=
  {| activeTab := activeTab s;
     symbol := symbol s;
     analysisResult := analysisResult s;
     forecast := forecast s;
     isAnalyzing := isAnalyzing s;
     isForecasting := isForecasting s;
     news := news s;
     analysisMode := analysisMode s;
     livePrice := x;
     currency := currency s;
     pickMarket := pickMarket s;
     pickTimeframe := pickTimeframe s;
     customTimeframe := customTimeframe s;
     picks := picks s;
     activeStrategy := activeStrategy s;
     isPicking := isPicking s;
     showShareCard := showShareCard s;
     thumbnailUrl := thumbnailUrl s;
     isGeneratingThumbnail := isGeneratingThumbnail s |}.

Definition setCurrency (x : value) (s : AppState) : AppState :=
  {| activeTab := activeTab s;
     symbol := symbol s;
     analysisResult := analysisResult s;
     forecast := forecast s;
     isAnalyzing := isAnalyzing s;
     isForecasting := isForecasting s;
     news := news s;
     analysisMode := analysisMode s;
     livePrice := livePrice s;
     currency := x;
     pickMarket := pickMarket s;
     pickTimeframe := pickTimeframe s;
     customTimeframe := customTimeframe s;
     picks := picks s;
     activeStrategy := activeStrategy s;
     isPicking := isPicking s;
     showShareCard := showShareCard s;
     thumbnailUrl := thumbnailUrl s;
     isGeneratingThumbnail := isGeneratingThumbnail s |}.

Definition setPickMarket (x : Market) (s : AppState) : AppState :=
  {| activeTab := activeTab s;
     symbol := symbol s;
     analysisResult := analysisResult s;
     forecast := forecast s;
     isAnalyzing := isAnalyzing s;
     isForecasting := isForecasting s;
     news := news s;
     analysisMode := analysisMode s;
     livePrice := livePrice s;
     currency := currency s;
     pickMarket := x;
     pickTimeframe := pickTimeframe s;
     customTimeframe := customTimeframe s;
     picks := picks s;
     activeStrategy := activeStrategy s;
     isPicking := isPicking s;
     showShareCard := showShareCard s;
     thumbnailUrl := thumbnailUrl s;
     isGeneratingThumbnail := isGeneratingThumbnail s |}.

Definition setPickTimeframe (x : string) (s : AppState) : AppState :=
  {| activeTab := activeTab s;
     symbol := symbol s;
     analysisResult := analysisResult s;
     forecast := forecast s;
     isAnalyzing := isAnalyzing s;
     isForecasting := isForecasting s;
     news := news s;
     analysisMode := analysisMode s;
     livePrice := livePrice s;
     currency := currency s;
     pickMarket := pickMarket s;
     pickTimeframe := x;
     customTimeframe := customTimeframe s;
     picks := picks s;
     activeStrategy := activeStrategy s;
     isPicking := isPicking s;
     showShareCard := showShareCard s;
     thumbnailUrl := thumbnailUrl s;
     isGeneratingThumbnail := isGeneratingThumbnail s |}.

Definition setCustomTimeframe (x : string) (s : AppState) : AppState :=
  {| activeTab := activeTab s;
     symbol := symbol s;
     analysisResult := analysisResult s;
     forecast := forecast s;
     isAnalyzing := isAnalyzing s;
     isForecasting := isForecasting s;
     news := news s;
     analysisMode := analysisMode s;
     livePrice := livePrice s;
     currency := currency s;
     pickMarket := pickMarket s;
     pickTimeframe := pickTimeframe s;
     customTimeframe := x;
     picks := picks s;
     activeStrategy := activeStrategy s;
     isPicking := isPicking s;
     showShareCard := showShareCard s;
     thumbnailUrl := thumbnailUrl s;
     isGeneratingThumbnail := isGeneratingThumbnail s |}.

Definition setPicks (x : json) (s : AppState) : AppState :=
  {| activeTab := activeTab s;
     symbol := symbol s;
     analysisResult := analysisResult s;
     forecast := forecast s;
     isAnalyzing := isAnalyzing s;
     isForecasting := isForecasting s;
     news := news s;
     analysisMode := analysisMode s;
     livePrice := livePrice s;
     currency := currency s;
     pickMarket := pickMarket s;
     pickTimeframe := pickTimeframe s;
     customTimeframe := customTimeframe s;
     picks := x;
     activeStrategy := activeStrategy s;
     isPicking := isPicking s;
     showShareCard := showShareCard s;
     thumbnailUrl := thumbnailUrl s;
     isGeneratingThumbnail := isGeneratingThumbnail s |}.

Definition setActiveStrategy (x : string) (s : AppState) : AppState :=
  {| activeTab := activeTab s;
     symbol := symbol s;
     analysisResult := analysisResult s;
     forecast := forecast s;
     isAnalyzing := isAnalyzing s;
     isForecasting := isForecasting s;
     news := news s;
     analysisMode := analysisMode s;
     livePrice := livePrice s;
     currency := currency s;
     pickMarket := pickMarket s;
     pickTimeframe := pickTimeframe s;
     customTimeframe := customTimeframe s;
     picks := picks s;
     activeStrategy := x;
     isPicking := isPicking s;
     showShareCard := showShareCard s;
     thumbnailUrl := thumbnailUrl s;
     isGeneratingThumbnail := isGeneratingThumbnail s |}.

Definition setIsPicking (x : bool) (s : AppState) : AppState :=
  {| activeTab := activeTab s;
     symbol := symbol s;
     analysisResult := analysisResult s;
     forecast := forecast s;
     isAnalyzing := isAnalyzing s;
     isForecasting := isForecasting s;
     news := news s;
     analysisMode := analysisMode s;
     livePrice := livePrice s;
     currency := currency s;
     pickMarket := pickMarket s;
     pickTimeframe := pickTimeframe s;
     customTimeframe := customTimeframe s;
     picks := picks s;
     activeStrategy := activeStrategy s;
     isPicking := x;
     showShareCard := showShareCard s;
     thumbnailUrl := thumbnailUrl s;
     isGeneratingThumbnail := isGeneratingThumbnail s |}.

Definition setShowShareCard (x : bool) (s : AppState) : AppState :=
  {| activeTab := activeTab s;
     symbol := symbol s;
     analysisResult := analysisResult s;
     forecast := forecast s;
     isAnalyzing := isAnalyzing s;
     isForecasting := isForecasting s;
     news := news s;
     analysisMode := analysisMode s;
     livePrice := livePrice s;
     currency := currency s;
     pickMarket := pickMarket s;
     pickTimeframe := pickTimeframe s;
     customTimeframe := customTimeframe s;
     picks := picks s;
     activeStrategy := activeStrategy s;
     isPicking := isPicking s;
     showShareCard := x;
     thumbnailUrl := thumbnailUrl s;
     isGeneratingThumbnail := isGeneratingThumbnail s |}.

Definition setThumbnailUrl (x : option string) (s : AppState) : AppState :=
  {| activeTab := activeTab s;
     symbol := symbol s;
     analysisResult := analysisResult s;
     forecast := forecast s;
     isAnalyzing := isAnalyzing s;
     isForecasting := isForecasting s;
     news := news s;
     analysisMode := analysisMode s;
     livePrice := livePrice s;
     currency := currency s;
     pickMarket := pickMarket s;
     pickTimeframe := pickTimeframe s;
     customTimeframe := customTimeframe s;
     picks := picks s;
     activeStrategy := activeStrategy s;
     isPicking := isPicking s;
     showShareCard := showShareCard s;
     thumbnailUrl := x;
     isGeneratingThumbnail := isGeneratingThumbnail s |}.

Definition setIsGeneratingThumbnail (x : bool) (s : AppState) : AppState :=
  {| activeTab := activeTab s;
     symbol := symbol s;
     analysisResult := analysisResult s;
     forecast := forecast s;
     isAnalyzing := isAnalyzing s;
     isForecasting := isForecasting s;
     news := news s;
     analysisMode := analysisMode s;
     livePrice := livePrice s;
     currency := currency s;
     pickMarket := pickMarket s;
     pickTimeframe := pickTimeframe s;
     customTimeframe := customTimeframe s;
     picks := picks s;
     activeStrategy := activeStrategy s;
     isPicking := isPicking s;
     showShareCard := showShareCard s;
     thumbnailUrl := thumbnailUrl s;
     isGeneratingThumbnail := x |}.

(** *** Handlers as computations on the state

    A handler is a closure of one render: what it reads of the state
    ([symbol], [analysisMode], the screener's choices) it reads in the
    state of that render, here [render]; what it sets, it sets in the
    state of the component as it is then, which the computation threads.
    The scrolling of the report pane is left out: it does not touch the
    state. *)

Inductive ui_event : Type :=
| from_service (ev : event)       (* what a call of services/gemini.ts lets see *)
| console_error_1 (e : error)     (* console.error(e) *)
| unhandled_rejection (e : error).

Definition UI (A : Type) : Type :=
  AppState -> (list ui_event * AppState * completion A)%type.

Definition ui_ret {A} (a : A) : UI A := fun s => ([], s, Normal a).

Definition ui_bind {A B} (m : UI A) (k : A -> UI B) : UI B :=
  fun s =>
    match m s with
    | (t, s', Normal a) => let '(t', s'', r) := k a s' in (t ++ t', s'', r)
    | (t, s', Throw e) => (t, s', Throw e)
    end.

(** A call of a state setter. *)
Definition set (update : AppState -> AppState) : UI unit :=
  fun s => ([], update s, Normal tt).

(** [await] of a call of the service layer that does not touch the
    state. *)
Definition call {A} (m : M A) : UI A :=
  fun s => (map from_service (trace_of m), s, value_of m).

Definition ui_try_catch {A} (body : UI A) (handler : error -> UI A) : UI A :=
  fun s =>
    match body s with
    | (t, s', Normal a) => (t, s', Normal a)
    | (t, s', Throw e) => let '(t', s'', r) := handler e s' in (t ++ t', s'', r)
    end.

(** [try { body } finally { finalizer }] *)
Definition ui_finally {A} (body : UI A) (finalizer : UI unit) : UI A :=
  fun s =>
    match body s with
    | (t, s', r) =>
        match finalizer s' with
        | (t', s'', Normal _) => (t ++ t', s'', r)
        | (t', s'', Throw e) => (t ++ t', s'', Throw e)
        end
    end.

Definition log (e : error) : UI unit := fun s => ([console_error_1 e], s, Normal tt).

Definition final_state {A} (r : list ui_event * AppState * completion A) : AppState :=
  snd (fst r).
Definition ui_trace {A} (r : list ui_event * AppState * completion A) : list ui_event :=
  fst (fst r).
Definition ui_value {A} (r : list ui_event * AppState * completion A) : completion A :=
  snd r.

Declare Scope ui_scope.
Delimit Scope ui_scope with ui.
Notation "x <- m ;; k" := (ui_bind m (fun x => k))
  (at level 61, m at next level, right associativity) : ui_scope.
Notation "m ;; k" := (ui_bind m (fun _ => k))
  (at level 61, right associativity) : ui_scope.

Local Open Scope ui_scope.

(** The callback [handleAnalyze] gives to [analyzeStock]:
    [setAnalysisResult(prev => ({ markdown: streamedText, sentiment:
    'neutral', groundingChunks: prev?.groundingChunks || [] }))]. *)
Definition streamed (streamedText : string) (s : AppState) : AppState :=
  setAnalysisResult
    (Some {| markdown := streamedText;
             sentiment := neutral;   (* Updated at end *)
             groundingChunks :=
               Some (match analysisResult s with
                     | Some prev =>
                         match groundingChunks prev with
                         | Some cs => cs
                         | None => []
                         end
                     | None => []
                     end) |})
    s.

(** The state after the callback has run on each text a call showed
    it. *)
Definition replay (t : list event) (s : AppState) : AppState :=
  fold_left (fun s ev => match ev with
                         | observed streamedText => streamed streamedText s
                         | console_error _ _ => s
                         end) t s.

(** The callback as [analyzeStock] takes it: each text it is given is
    seen, and [replay] says what seeing it does to the state. *)
Definition renderPartial : option (string -> M unit) :=
  Some (fun streamedText => tell (observed streamedText)).

(** What the continuation of the price lookup makes of the price and the
    currency of state [s], from the [data] the lookup gave. *)
Definition price_after (data : json) (s : AppState) : value * value :=
  if truthy_json data
  then (member data "price", member data "currency")
  else (null, currency s).

Section Handlers.

Variable JSON_parse : string -> completion json.
Variable ai : GoogleGenAI.
Variable models : Models.

(** [useEffect(() => { fetchNews(); }, [])] *)
Definition fetchNews : UI unit :=
  data <- call (getMarketNews models) ;;
  set (setNews data).

(** [getLivePrice(symbol).then(data => { if (data) { setLivePrice(
    data.price); setCurrency(data.currency); } })], once the lookup has
    settled.  Nothing awaits it and nothing catches a rejection. *)
Definition priceArrives (render : AppState) : UI unit :=
  fun s =>
    let m := getLivePrice JSON_parse ai (symbol render) in
    match value_of m with
    | Normal data =>
        (map from_service (trace_of m),
         if truthy_json data
         then setCurrency (member data "currency") (setLivePrice (member data "price") s)
         else s,
         Normal tt)
    | Throw e => (map from_service (trace_of m) ++ [unhandled_rejection e], s, Normal tt)
    end.

(** [await analyzeStock(symbol, analysisMode, (streamedText) => ...)] *)
Definition streamAnalysis (render : AppState) : UI AnalysisResult :=
  fun s =>
    let m := analyzeStock ai (symbol render) (analysisMode render) renderPartial in
    (map from_service (trace_of m), replay (trace_of m) s, value_of m).

(** [handleAnalyze].  The price lookup runs beside the analysis; its
    continuation is placed where the lookup settles: before the analysis
    streams ([price_first]) or after the handler has finished. *)
Definition handleAnalyze (price_first : bool) (render : AppState) : UI unit :=
  if negb (truthy (symbol render)) then ui_ret tt
  else
    set (setIsAnalyzing true) ;;
    set (setAnalysisResult None) ;;
    set (setForecast JNull) ;;      (* Reset forecast on new analysis *)
    set (setLivePrice null) ;;      (* Reset price *)
    set (setActiveTab research) ;;
    ui_finally
      (ui_try_catch
         ((* 1. Fire off price fetch (Fast) *)
          (if price_first then priceArrives render else ui_ret tt) ;;
          (* 2. Fire off heavy analysis (Streamed) *)
          result <- streamAnalysis render ;;
          set (setAnalysisResult (Some result)))
         (fun e => log e))
      (set (setIsAnalyzing false)) ;;
    (if price_first then ui_ret tt else priceArrives render).

Definition handleForecast (render : AppState) : UI unit :=
  if negb (truthy (symbol render)) then ui_ret tt
  else
    set (setIsForecasting true) ;;
    ui_finally
      (ui_try_catch
         (data <- call (getForecast JSON_parse ai (symbol render)) ;;
          set (setForecast data))
         (fun e => log e))
      (set (setIsForecasting false)).

(** The timeframe [handleGetPicks] passes on: the custom one when
    'Custom' is selected, else the selected one; trimmed; '1 Month' when
    that leaves nothing. *)
Definition finalTimeframe (render : AppState) : string :=
  let selectedTimeframe :=
    if String.eqb (pickTimeframe render) "Custom"
    then customTimeframe render else pickTimeframe render in
  if truthy (trim selectedTimeframe) then trim selectedTimeframe else "1 Month".

Definition handleGetPicks (render : AppState) : UI unit :=
  set (setIsPicking true) ;;
  set (setPicks (JArr [])) ;;
  set (setActiveStrategy "") ;;
  ui_finally
    (ui_try_catch
       (result <- call (getTopPicks JSON_parse ai (pickMarket render) (finalTimeframe render)) ;;
        set (setPicks (recommendations result)) ;;
        set (setActiveStrategy (strategyUsed result)))
       (fun e => log e))
    (set (setIsPicking false)).

Definition handleGenerateThumbnail : UI unit :=
  set (setIsGeneratingThumbnail true) ;;
  url <- call (generateAppThumbnail models) ;;
  set (setThumbnailUrl url) ;;
  set (setIsGeneratingThumbnail false).

(** [if (e.key === 'Enter') handleAnalyze();] *)
Definition handleKeyDown (price_first : bool) (key : string) (render : AppState) : UI unit :=
  if String.eqb key "Enter" then handleAnalyze price_first render else ui_ret tt.

(** The button of a pick: [setSymbol(pick.symbol); handleAnalyze();] *)
Definition analyzePick (price_first : bool) (pick_symbol : string) (render : AppState)
  : UI unit :=
  set (setSymbol pick_symbol) ;;
  handleAnalyze price_first render.

End Handlers.

(** The top section of the research tab, chart and verdict, is rendered
    when [livePrice || isAnalyzing]. *)
Definition showsChart (s : AppState) : bool :=
  truthy_value (livePrice s) || isAnalyzing s.

End App.

(* ================================================================== *)
(** ** Mock states and services for the handlers *)

Module MockApp.
Import JsString JSON GenAI Types.

(** The screener set to 'Custom' with a horizon of blanks: a space, a
    no-break space (C2 A0), a tab and an em space (E2 80 83). *)
Definition custom_blank : App.AppState :=
  App.setPickTimeframe "Custom"
    (App.setCustomTimeframe
       (String " " (String "194" (String "160" (String "009"
          (String "226" (String "128" (String "131" EmptyString)))))))
       App.initial).

(** A render that shows INR after an earlier lookup. *)
Definition after_inr : App.AppState :=
  App.setCurrency (App.of_json (JStr "INR")) App.initial.

(** Streams back, as one chunk, the prompt it was sent. *)
Definition echo : GoogleGenAI :=
  {| generateContent := fun _ => Throw Mock.network_error;
     generateContentStream := fun request =>
       Normal (Spec.stream_of [Mock.chunk_of (contents request)]) |}.

End MockApp.

(* ================================================================== *)
(** ** components/StockChart.tsx: the simulated intraday data *)

Module StockChart.

(** A non-negative integer written as JavaScript writes it in a template
    literal: in decimal, without padding (below 10^21, where JavaScript
    turns to the exponent form). *)
Definition decimal (n : nat) : string := NilEmpty.string_of_uint (Nat.to_uint n).

(** [`${10 + Math.floor(i / 6)}:${(i % 6) * 10}`] *)
Definition time_label (i : nat) : string :=
  (decimal (10 + i / 6) ++ ":" ++ decimal ((i mod 6) * 10))%string.

Section Numbers.

(** The arithmetic of doubles and [Math.random] are parameters:
    [random i] is what the call of [Math.random] in round [i] of the loop
    returns, [literal] reads a numeric literal. *)
Variable number : Type.
Variables add sub mul : number -> number -> number.
Variable literal : JSON.number -> number.
Variable random : nat -> number.

Record DataPoint : Type := {
  time : string;
  price : number
}.

(** [for (let i = ...; i < points; i++) { ... }] with [remaining] rounds
    to go. *)
Fixpoint generateMockData_loop (remaining i : nat) (currentPrice volatility : number)
  : list DataPoint :=
  match remaining with
  | O => []
  | S remaining' =>
      let change :=
        mul (mul (sub (random i) (literal (JSON.Num 5 (-1)))) volatility)
            (literal (JSON.Num 2 0)) in
      let currentPrice := add currentPrice change in
      {| time := time_label i; price := currentPrice |}
        :: generateMockData_loop remaining' (S i) currentPrice volatility
  end.

Definition generateMockData (points : nat) (startPrice : number) : list DataPoint :=
  (* Reduce volatility to make it look more realistic intraday *)
  let volatility := mul startPrice (literal (JSON.Num 5 (-3))) in   (* 0.5% volatility *)
  generateMockData_loop points 0 startPrice volatility.

End Numbers.

Arguments time {number} _.
Arguments price {number} _.

End StockChart.

(* ================================================================== *)
(** ** components/MarkdownRenderer.tsx: formatText

    The five regular expressions are given by what they match.  A line
    terminator is a line feed, a carriage return, or one of U+2028 and
    U+2029, which in UTF-8 are the bytes E2 80 A8 and E2 80 A9; the dot of
    a regular expression matches anything else, and with the flag [m] the
    anchors [^] and [$] match at both ends of every line between
    terminators. *)

Module MarkdownRenderer.
Import JsString.

(** [s] starts with a line terminator. *)
Definition terminates (s : string) : bool :=
  match s with
  | EmptyString => false
  | String c r =>
      (code c =? 10)%Z || (code c =? 13)%Z
      || match r with
         | String x (String y _) =>
             (code c =? 226)%Z && (code x =? 128)%Z
             && ((code y =? 168)%Z || (code y =? 169)%Z)
         | _ => false
         end
  end.

Definition is_star (c : ascii) : bool := (code c =? 42)%Z.

(** Some [**] occurs in [s] with no line terminator before it: the rest
    of [/\*\*(.*?)\*\*/] matches here, up to the first such [**]. *)
Fixpoint closes (s : string) : bool :=
  match s with
  | EmptyString => false
  | String _ r =>
      if startsWith s "**" then true
      else if terminates s then false
      else closes r
  end.

Definition strong_open : string :=
  ("<strong class=" ++ dq ++ "text-white font-semibold" ++ dq ++ ">")%string.
Definition strong_close : string := "</strong>".

(** [s.replace(/\*\*(.*?)\*\*/g, '<strong class="text-white
    font-semibold">$1</strong>')], read from left to right.  Outside a
    match, a [**] that [closes] opens one; any other character is copied
    and the search moves on by one.  [inside] a match, characters are
    copied into the captured text up to the closing [**]. *)
Fixpoint bold (inside : bool) (s : string) : string :=
  match s with
  | EmptyString => EmptyString
  | String c r =>
      match r with
      | String d r2 =>
          if is_star c && is_star d then
            if inside then (strong_close ++ bold false r2)%string
            else if closes r2 then (strong_open ++ bold true r2)%string
            else String c (bold false r)
          else String c (bold inside r)
      | EmptyString => String c EmptyString
      end
  end.

(** The first line of [lines] gets [c] in front. *)
Definition cons_char (c : ascii) (ls : list (string * string)) : list (string * string) :=
  match ls with
  | (l, t) :: rest => (String c l, t) :: rest
  | [] => [(String c EmptyString, EmptyString)]
  end.

(** The lines of a text, each with the terminator that ends it; the last
    line has none. *)
Fixpoint lines (s : string) : list (string * string) :=
  match s with
  | EmptyString => [(EmptyString, EmptyString)]
  | String c r =>
      if (code c =? 10)%Z || (code c =? 13)%Z then
        (EmptyString, String c EmptyString) :: lines r
      else
        match r with
        | String x (String y r3) =>
            if (code c =? 226)%Z && (code x =? 128)%Z
               && ((code y =? 168)%Z || (code y =? 169)%Z)
            then (EmptyString, String c (String x (String y EmptyString))) :: lines r3
            else cons_char c (lines r)
        | _ => cons_char c (lines r)
        end
  end.

Definition unlines (ls : list (string * string)) : string :=
  fold_right (fun lt acc => (fst lt ++ snd lt ++ acc)%string) EmptyString ls.

(** What [/^marker(.*$)/gm] with the replacement [open$1close] does to
    one line. *)
Definition wrap_line (marker open close line : string) : string :=
  match strip_prefix marker line with
  | Some captured => (open ++ captured ++ close)%string
  | None => line
  end.

(** [s.replace(/^marker(.*$)/gm, 'open$1close')] *)
Definition replace_lines (marker open close s : string) : string :=
  unlines (map (fun lt => (wrap_line marker open close (fst lt), snd lt)) (lines s)).

Definition h3_open : string :=
  ("<h3 class=" ++ dq ++ "text-lg font-bold text-emerald-400 mt-4 mb-2" ++ dq ++ ">")%string.
Definition h3_close : string := "</h3>".
Definition h2_open : string :=
  ("<h2 class=" ++ dq ++ "text-xl font-bold text-emerald-500 mt-6 mb-3" ++ dq ++ ">")%string.
Definition h2_close : string := "</h2>".
Definition li_open : string :=
  ("<li class=" ++ dq ++ "ml-4 list-disc text-gray-300" ++ dq ++ ">")%string.
Definition li_close : string := "</li>".

(** [s.split('\n')] *)
Fixpoint split_newline (s : string) : list string :=
  match s with
  | EmptyString => [EmptyString]
  | String c r =>
      if (code c =? 10)%Z then EmptyString :: split_newline r
      else
        match split_newline r with
        | l :: rest => String c l :: rest
        | [] => [String c EmptyString]
        end
  end.

(** What a line is rendered as: [<br />], or a [<div className="mb-1">]
    whose [innerHTML] is the line. *)
Inductive element : Type :=
| br
| div (html : string).

(** [line.trim() === '' ? <br /> : <div dangerouslySetInnerHTML={{ __html:
    line }} />], with [trim] as module [App] has it. *)
Definition renderLine (line : string) : element :=
  if String.eqb (App.trim line) "" then br else div line.

Definition formatText (text : string) : list element :=
  (* Bold *)
  let formatted := bold false text in
  (* Headers *)
  let formatted := replace_lines "### " h3_open h3_close formatted in
  let formatted := replace_lines "## " h2_open h2_close formatted in
  (* Lists *)
  let formatted := replace_lines "* " li_open li_close formatted in
  let formatted := replace_lines "- " li_open li_close formatted in
  (* Paragraphs (naive split by newline) *)
  map renderLine (split_newline formatted).

(** *** Notions used to state what it does *)

(** The number of line feeds. *)
Fixpoint newlines (s : string) : nat :=
  match s with
  | EmptyString => 0
  | String c r => (if (code c =? 10)%Z then 1 else 0) + newlines r
  end.

(** No line terminator anywhere. *)
Fixpoint one_line (s : string) : bool :=
  match s with
  | EmptyString => true
  | String _ r => negb (terminates s) && one_line r
  end.

(** None of the characters of [s] is one of [avoid]. *)
Fixpoint without (avoid : string) (s : string) : bool :=
  match s with
  | EmptyString => true
  | String c r => negb (includes avoid (String c EmptyString)) && without avoid r
  end.

(** The line starts with one of the four markers. *)
Definition starts_marked (line : string) : bool :=
  startsWith line "### " || startsWith line "## "
  || startsWith line "* " || startsWith line "- ".

(** No line of the text starts with a marker. *)
Definition plain_lines (s : string) : bool :=
  forallb (fun lt => negb (starts_marked (fst lt))) (lines s).

(** What the four line replacements, in their order, make of one line. *)
Definition markup (line : string) : string :=
  wrap_line "- " li_open li_close
    (wrap_line "* " li_open li_close
       (wrap_line "## " h2_open h2_close
          (wrap_line "### " h3_open h3_close line))).

(** Sample characters outside ASCII, in UTF-8: the em dash U+2014, the
    rupee sign U+20B9, the no-break space U+00A0. *)
Definition em_dash : string := String "226" (String "128" (String "148" EmptyString)).
Definition rupee_sign : string := String "226" (String "130" (String "185" EmptyString)).
Definition no_break_space : string := String "194" (String "160" EmptyString).

End MarkdownRenderer.

(* ================================================================== *)
(** ** Properties *)

Import JsString JSON GenAI Types Gemini Spec.

(** *** Strings *)

Lemma append_assoc (a b c : string) : ((a ++ b) ++ c)%string = (a ++ (b ++ c))%string.
Proof.
  induction a as [| x a IH]; simpl; [reflexivity | now rewrite IH].
Qed.

Lemma append_empty_r (a : string) : (a ++ "")%string = a.
Proof.
  induction a as [| x a IH]; simpl; [reflexivity | now rewrite IH].
Qed.

Lemma startsWith_append_includes (a b s : string) :
  startsWith s (a ++ b) = true -> includes s b = true.
Proof.
  revert s; induction a as [| x a IH]; intros s H; simpl in H.
  - destruct s; cbn [includes]; rewrite H; reflexivity.
  - destruct s as [| y s]; [discriminate |].
    apply andb_prop in H as [_ H]. apply IH in H.
    simpl. rewrite H. apply orb_true_r.
Qed.

(** A string that includes [a ++ b] includes [b]. *)
Lemma includes_suffix (a b s : string) :
  includes s (a ++ b) = true -> includes s b = true.
Proof.
  induction s as [| y s IH]; intros H.
  - cbn [includes] in H. rewrite orb_false_r in H.
    now apply startsWith_append_includes with (a := a).
  - cbn [includes] in H. apply orb_prop in H as [H | H].
    + now apply startsWith_append_includes with (a := a).
    + cbn [includes]. rewrite (IH H). apply orb_true_r.
Qed.

Lemma includes_intraday_day (tf : string) :
  includes tf "day" = false -> includes tf "intraday" = false.
Proof.
  intros H. destruct (includes tf "intraday") eqn:E; [| reflexivity].
  apply (includes_suffix "intra" "day") in E. congruence.
Qed.

(** [startsWith] and [includes] say what their names say. *)
Lemma startsWith_iff (s p : string) :
  startsWith s p = true <-> exists b, s = (p ++ b)%string.
Proof.
  revert s; induction p as [| x p IH]; intros s.
  - split; [intros _; now exists s | intros _; destruct s; reflexivity].
  - destruct s as [| y s]; simpl.
    + split; [discriminate | intros [b H]; discriminate].
    + rewrite andb_true_iff, Ascii.eqb_eq, IH. split.
      * intros [-> [b ->]]. now exists b.
      * intros [b H]. injection H as -> ->. split; [reflexivity | now exists b].
Qed.

Lemma includes_iff (s sub : string) :
  includes s sub = true <-> exists a b, s = (a ++ sub ++ b)%string.
Proof.
  split.
  - induction s as [| y s IH]; cbn [includes]; intros H.
    + rewrite orb_false_r in H. apply startsWith_iff in H as [b ->]. now exists "", b.
    + apply orb_prop in H as [H | H].
      * apply startsWith_iff in H as [b ->]. now exists "", b.
      * destruct (IH H) as [a [b ->]]. now exists (String y a), b.
  - intros [a [b ->]]. induction a as [| x a IH].
    + assert (H : startsWith (sub ++ b) sub = true) by (apply startsWith_iff; now exists b).
      simpl. destruct (sub ++ b)%string; cbn [includes]; rewrite H; reflexivity.
    + simpl. cbn [includes]. rewrite IH. apply orb_true_r.
Qed.

Lemma string_length_append (a b : string) :
  String.length (a ++ b) = String.length a + String.length b.
Proof.
  induction a as [| x a IH]; simpl; [reflexivity | now rewrite IH].
Qed.

(** Induction on a string that may step over more than one character. *)
Lemma string_strong_ind (P : string -> Prop) :
  (forall s, (forall r, String.length r < String.length s -> P r) -> P s) ->
  forall s, P s.
Proof.
  intros H s. remember (String.length s) as n eqn:E.
  revert s E. induction n as [n IH] using lt_wf_ind.
  intros s ->. apply H. intros r Hr. now apply (IH (String.length r)).
Qed.

Lemma lower_char_idempotent (c : ascii) : lower_char (lower_char c) = lower_char c.
Proof.
  destruct c as [[] [] [] [] [] [] [] []]; reflexivity.
Qed.

(** [toLowerCase] on sample texts: ASCII letters, the Kelvin sign
    (E2 84 AA) and the capital I with a dot above (C4 B0); a timeframe
    that spells its week with the Kelvin sign is a week. *)
Example toLowerCase_forms :
  toLowerCase "Next QUARTER, 12 Months" = "next quarter, 12 months"
  /\ toLowerCase ("1 WEE" ++ kelvin_sign) = "1 week"
  /\ toLowerCase ("BULL" ++ dotted_I ++ "SH") = ("bulli" ++ dot_above ++ "sh")%string
  /\ getTopPicks_strategy ("1 WEE" ++ kelvin_sign)
     = "SWING TRADING. Focus on technical breakouts, sector rotation, and short-term news catalysts.".
Proof.
  repeat split.
Qed.

(** *** [JSON.parse] on sample texts *)

Example parse_number_forms :
  JSON.parse " -12.50e1 " = Normal (JNum (Num (-1250) (-1)))
  /\ JSON.parse "0" = Normal (of_Z 0)
  /\ JSON.parse "1E+2" = Normal (JNum (Num 1 2))
  /\ (exists e, JSON.parse "01" = Throw e)
  /\ (exists e, JSON.parse "1." = Throw e)
  /\ (exists e, JSON.parse ".5" = Throw e)
  /\ (exists e, JSON.parse "+1" = Throw e).
Proof.
  repeat split; try reflexivity; eexists; reflexivity.
Qed.

Example parse_structures :
  JSON.parse "[1, [true, null], {}]"
  = Normal (JArr [of_Z 1; JArr [JBool true; JNull]; JObj []])
  /\ JSON.parse ("{" ++ Mock.q "a" ++ ":1," ++ Mock.q "b" ++ ":[]," ++ Mock.q "a" ++ ":2}")
     = Normal (JObj [("a", of_Z 2); ("b", JArr [])])
  /\ JSON.parse (Mock.q "tab\tA\u0041")
     = Normal (JStr ("tab" ++ String "009" "AA"))
  /\ (exists e, JSON.parse "" = Throw e)
  /\ (exists e, JSON.parse "[1,]" = Throw e)
  /\ (exists e, JSON.parse "[1 2]" = Throw e)
  /\ (exists e, JSON.parse ("{" ++ Mock.q "a" ++ ":1,}") = Throw e)
  /\ (exists e, JSON.parse "nullx" = Throw e)
  /\ (exists e, JSON.parse "I cannot find that symbol." = Throw e).
Proof.
  repeat split; try reflexivity; eexists; reflexivity.
Qed.

Example parse_mock_texts :
  JSON.parse Mock.zero_quote_text = Normal Mock.zero_quote
  /\ JSON.parse Mock.one_scenario_text = Normal Mock.one_scenario.
Proof.
  split; reflexivity.
Qed.

(** *** The loop of [analyzeStock] *)

Lemma last_cons {A} (l : list A) (x d : A) : last (x :: l) d = last l x.
Proof.
  revert x d; induction l as [| y l IH]; intros x d; [reflexivity |].
  change (last (x :: y :: l) d) with (last (y :: l) d).
  now rewrite !IH.
Qed.

Lemma loop_completes (onStream : option (string -> M unit))
    (chunks : list GenerateContentResponse) (buffer : string)
    (finalResponse : option GenerateContentResponse) :
  returns onStream ->
  analyzeStock_loop onStream (stream_of chunks) buffer finalResponse
  = (calls onStream (buffers buffer (map chunk_text chunks)),
     Normal ((buffer ++ join (map chunk_text chunks))%string,
             last (map Some chunks) finalResponse)).
Proof.
  intros Hret. revert buffer finalResponse.
  induction chunks as [| chunk chunks IH]; intros buffer finalResponse.
  - simpl. rewrite append_empty_r. destruct onStream; reflexivity.
  - cbn [stream_of fold_right analyzeStock_loop].
    fold (stream_of chunks). fold (chunk_text chunk).
    rewrite IH. cbn [map buffers join fold_right]. fold (join (map chunk_text chunks)).
    rewrite append_assoc.
    rewrite last_cons.
    destruct onStream as [f |]; simpl in *.
    + specialize (Hret (buffer ++ chunk_text chunk)%string).
      destruct (f (buffer ++ chunk_text chunk)%string) as [t c]; simpl in *.
      subst c. reflexivity.
    + reflexivity.
Qed.

Lemma loop_fails (onStream : option (string -> M unit)) (s : Stream)
    (buffer : string) (finalResponse : option GenerateContentResponse) :
  stream_error s <> None ->
  exists e, value_of (analyzeStock_loop onStream s buffer finalResponse) = Throw e.
Proof.
  revert buffer finalResponse.
  induction s as [| e | chunk rest IH]; intros buffer finalResponse H; simpl in *.
  - congruence.
  - now exists e.
  - set (b := (buffer ++ _)%string).
    destruct (IH b (Some chunk) H) as [e He].
    destruct (match onStream with Some f => f b | None => ret tt end) as [t [[] | e']].
    + exists e. simpl.
      destruct (analyzeStock_loop onStream rest b (Some chunk)) as [t' r].
      simpl in *. exact He.
    + now exists e'.
Qed.

(** *** What every call of the orchestrators gives *)

(** [analyzeStock] never throws, and the sentiment it returns is the one
    its rule gives for the text it returns. *)
Lemma analyzeStock_returns (ai : GoogleGenAI) (symbol : string) (mode : AnalysisMode)
    (onStream : option (string -> M unit)) :
  exists r, value_of (analyzeStock ai symbol mode onStream) = Normal r
            /\ sentiment r = analyzeStock_sentiment (markdown r).
Proof.
  unfold analyzeStock.
  destruct (generateContentStream ai (analyzeStock_request symbol mode)) as [s | e]; simpl.
  - destruct (analyzeStock_loop onStream s "" None) as [t [[fullText finalResponse] | e]];
      simpl; eexists; split; reflexivity.
  - eexists; split; reflexivity.
Qed.

(** [getTopPicks] never throws, and [strategyUsed] is the strategy it
    determined from the timeframe, whatever the service did. *)
Lemma getTopPicks_returns (JSON_parse : string -> completion json) (ai : GoogleGenAI)
    (market : Market) (timeframe : string) :
  exists r, value_of (getTopPicks JSON_parse ai market timeframe) = Normal r
            /\ strategyUsed r = getTopPicks_strategy timeframe.
Proof.
  unfold getTopPicks.
  destruct (generateContent ai (getTopPicks_request market timeframe)) as [response | e];
    simpl; [| eexists; split; reflexivity].
  destruct (text response) as [t |]; simpl; [| eexists; split; reflexivity].
  destruct (truthy t); simpl; [| eexists; split; reflexivity].
  destruct (JSON_parse t); simpl; eexists; split; reflexivity.
Qed.

Lemma sentiment_cases (fullText : string) :
  let lowerText := toLowerCase fullText in
  let bull := includes lowerText "invest" || includes lowerText "buy"
              || includes lowerText "bullish" in
  let bear := includes lowerText "pass" || includes lowerText "sell"
              || includes lowerText "bearish" in
  (analyzeStock_sentiment fullText = bullish <-> bull = true)
  /\ (analyzeStock_sentiment fullText = bearish <-> bull = false /\ bear = true)
  /\ (analyzeStock_sentiment fullText = neutral <-> bull = false /\ bear = false).
Proof.
  intros lowerText bull bear. unfold analyzeStock_sentiment.
  fold lowerText. fold bull. fold bear.
  destruct bull, bear; repeat split; intros; try discriminate; try tauto;
    destruct H; discriminate.
Qed.

(* ------------------------------------------------------------------ *)
(** *** C1: the quote [getLivePrice] returns *)

(** C1, as amended.  For every symbol, [getLivePrice] does not throw and
    returns either [null] or, unchanged, the value [JSON.parse] gives for
    the non-empty text of the service's response: nothing in between
    inspects the price or the currency. *)
Theorem getLivePrice_null_or_parsed (JSON_parse : string -> completion json)
    (ai : GoogleGenAI) (symbol : string) :
  exists v,
    value_of (getLivePrice JSON_parse ai symbol) = Normal v
    /\ (v = JNull
        \/ exists response t,
             generateContent ai (getLivePrice_request symbol) = Normal response
             /\ text response = Some t
             /\ truthy t = true
             /\ JSON_parse t = Normal v).
Proof.
  unfold getLivePrice.
  destruct (generateContent ai (getLivePrice_request symbol)) as [response | e] eqn:Ecall;
    simpl; [| eauto].
  destruct (text response) as [t |] eqn:Etext; simpl; [| eauto].
  destruct (truthy t) eqn:Etruthy; simpl; [| eauto].
  destruct (JSON_parse t) as [v | e] eqn:Eparse; simpl; [| eauto].
  exists v. split; [reflexivity |]. right. exists response, t. auto.
Qed.

(** C1 fails as stated.  Asked for the non-empty symbol NVDA, a service
    that answers with a quote of price 0, in the shape the request's
    schema asks for, has that quote returned: it is not [null] and its
    price is not strictly positive. *)
Lemma getLivePrice_returns_zero_price :
  "NVDA" <> ""
  /\ value_of (getLivePrice JSON.parse (Mock.answering Mock.zero_quote_text) "NVDA")
     = Normal Mock.zero_quote
  /\ Mock.zero_quote <> JNull
  /\ nonpositive_price Mock.zero_quote = true
  /\ valid_quote Mock.zero_quote = false
  /\ option_map (fun s => conforms s Mock.zero_quote)
       (responseSchema (config (getLivePrice_request "NVDA"))) = Some true.
Proof.
  repeat split; try discriminate; vm_compute; reflexivity.
Qed.

(* ------------------------------------------------------------------ *)
(** *** C2: the forecast [getForecast] returns *)

(** C2, as amended.  For every symbol, [getForecast] does not throw and
    returns either [null] or, unchanged, the value [JSON.parse] gives for
    the non-empty text of the second response, the first response's text
    having gone into the second request: the number and the kinds of the
    scenarios are not inspected. *)
Theorem getForecast_null_or_parsed (JSON_parse : string -> completion json)
    (ai : GoogleGenAI) (symbol : string) :
  exists v,
    value_of (getForecast JSON_parse ai symbol) = Normal v
    /\ (v = JNull
        \/ exists contextResp response t,
             generateContent ai (getForecast_contextRequest symbol) = Normal contextResp
             /\ generateContent ai (getForecast_request symbol (text contextResp))
                = Normal response
             /\ text response = Some t
             /\ truthy t = true
             /\ JSON_parse t = Normal v).
Proof.
  unfold getForecast.
  destruct (generateContent ai (getForecast_contextRequest symbol))
    as [contextResp | e] eqn:Econtext; simpl; [| eauto].
  destruct (generateContent ai (getForecast_request symbol (text contextResp)))
    as [response | e] eqn:Ecall; simpl; [| eauto].
  destruct (text response) as [t |] eqn:Etext; simpl; [| eauto].
  destruct (truthy t) eqn:Etruthy; simpl; [| eauto].
  destruct (JSON_parse t) as [v | e] eqn:Eparse; simpl; [| eauto].
  exists v. split; [reflexivity |]. right. exists contextResp, response, t. auto.
Qed.

(** C2 fails as stated.  A service whose second answer holds one
    scenario, of kind Base, in the shape the request's schema asks for,
    has that forecast returned: it is not [null] and it has neither three
    scenarios nor the three kinds. *)
Lemma getForecast_returns_one_scenario :
  value_of (getForecast JSON.parse Mock.one_scenario_service "NVDA")
  = Normal Mock.one_scenario
  /\ Mock.one_scenario <> JNull
  /\ three_scenarios Mock.one_scenario = false
  /\ conforms getForecast_schema Mock.one_scenario = true.
Proof.
  repeat split; try discriminate; vm_compute; reflexivity.
Qed.

(* ------------------------------------------------------------------ *)
(** *** C3: the sentiment rule *)

(** C3, as amended.  For every symbol, mode, callback and behaviour of
    the service, [analyzeStock] returns a result whose sentiment is one of
    bullish, bearish and neutral, decided by the lower-cased text it
    returns: bullish exactly when that contains "invest", "buy" or
    "bullish"; bearish exactly when it contains none of these and contains
    "pass", "sell" or "bearish"; neutral exactly when it contains none of
    the six. *)
Theorem analyzeStock_sentiment_rule (ai : GoogleGenAI) (symbol : string)
    (mode : AnalysisMode) (onStream : option (string -> M unit)) :
  exists r,
    value_of (analyzeStock ai symbol mode onStream) = Normal r
    /\ let lowerText := toLowerCase (markdown r) in
       let bull := includes lowerText "invest" || includes lowerText "buy"
                   || includes lowerText "bullish" in
       let bear := includes lowerText "pass" || includes lowerText "sell"
                   || includes lowerText "bearish" in
       (sentiment r = bullish <-> bull = true)
       /\ (sentiment r = bearish <-> bull = false /\ bear = true)
       /\ (sentiment r = neutral <-> bull = false /\ bear = false).
Proof.
  destruct (analyzeStock_returns ai symbol mode onStream) as [r [Hr Hs]].
  exists r. split; [exact Hr |]. rewrite Hs. apply sentiment_cases.
Qed.

(** C3 fails as stated.  The streamed text "I would pass on this stock."
    holds none of "buy", "invest", "bullish", "sell", "bearish", so the
    rule as stated makes it neutral; [analyzeStock] returns bearish. *)
Lemma analyzeStock_pass_is_bearish :
  value_of (analyzeStock (Mock.streaming ["I would pass on this stock."]) "NVDA" QUICK None)
  = Normal {| markdown := "I would pass on this stock.";
              groundingChunks := Some [];
              sentiment := bearish |}
  /\ stated_sentiment "I would pass on this stock." = neutral
  /\ bearish <> neutral.
Proof.
  repeat split; try discriminate; vm_compute; reflexivity.
Qed.

(* ------------------------------------------------------------------ *)
(** *** C4: the buffer and the callback *)

(** C4.  When the stream yields the chunks and ends, and the callback
    (if there is one) returns, [analyzeStock] calls the callback once per
    chunk, in order, each time on the buffer so far, that is, on the chunk
    texts up to that chunk put together, and does nothing else that can be
    seen; the text it returns is all the chunk texts put together.  For
    the chunks "NVDA looks " and "like a strong buy." the text returned is
    "NVDA looks like a strong buy." and the sentiment is bullish. *)
Theorem analyzeStock_accumulates (ai : GoogleGenAI) (symbol : string)
    (mode : AnalysisMode) (onStream : option (string -> M unit))
    (chunks : list GenerateContentResponse) :
  generateContentStream ai (analyzeStock_request symbol mode) = Normal (stream_of chunks) ->
  returns onStream ->
  trace_of (analyzeStock ai symbol mode onStream)
  = calls onStream (buffers "" (map chunk_text chunks))
  /\ exists r,
       value_of (analyzeStock ai symbol mode onStream) = Normal r
       /\ markdown r = join (map chunk_text chunks)
       /\ (map chunk_text chunks = ["NVDA looks "; "like a strong buy."] ->
           markdown r = "NVDA looks like a strong buy." /\ sentiment r = bullish).
Proof.
  intros Hcall Hret. unfold analyzeStock. rewrite Hcall. simpl.
  rewrite (loop_completes onStream chunks "" None Hret). simpl.
  split; [now rewrite app_nil_r |].
  eexists. split; [reflexivity |]. simpl. split; [reflexivity |].
  intros ->. split; reflexivity.
Qed.

Lemma analyzeStock_accumulates_nvda :
  generateContentStream (Mock.streaming ["NVDA looks "; "like a strong buy."])
    (analyzeStock_request "NVDA" QUICK)
  = Normal (stream_of [Mock.chunk_of "NVDA looks "; Mock.chunk_of "like a strong buy."])
  /\ returns Mock.render
  /\ trace_of (analyzeStock (Mock.streaming ["NVDA looks "; "like a strong buy."])
                 "NVDA" QUICK Mock.render)
     = [observed "NVDA looks "; observed "NVDA looks like a strong buy."]
  /\ exists r,
       value_of (analyzeStock (Mock.streaming ["NVDA looks "; "like a strong buy."])
                   "NVDA" QUICK Mock.render) = Normal r
       /\ markdown r = "NVDA looks like a strong buy."
       /\ sentiment r = bullish.
Proof.
  assert (Hcall :
    generateContentStream (Mock.streaming ["NVDA looks "; "like a strong buy."])
      (analyzeStock_request "NVDA" QUICK)
    = Normal (stream_of [Mock.chunk_of "NVDA looks "; Mock.chunk_of "like a strong buy."]))
    by reflexivity.
  assert (Hret : returns Mock.render) by (intros t; reflexivity).
  destruct (analyzeStock_accumulates _ "NVDA" QUICK Mock.render _ Hcall Hret)
    as [Htrace [r [Hr [Htext Hnvda]]]].
  split; [exact Hcall |]. split; [exact Hret |]. split; [exact Htrace |].
  exists r. split; [exact Hr |]. destruct (Hnvda eq_refl) as [H1 H2].
  split; [exact H1 | exact H2].
Defined.

(* ------------------------------------------------------------------ *)
(** *** C5: a transport error during the analysis *)

(** C5.  For every symbol, mode and callback, when the streaming call
    throws, or the stream it opened throws while it is consumed,
    [analyzeStock] does not throw: it returns the fixed failure message
    with the neutral sentiment. *)
Theorem analyzeStock_transport_error (ai : GoogleGenAI) (symbol : string)
    (mode : AnalysisMode) (onStream : option (string -> M unit)) :
  transport_error (generateContentStream ai (analyzeStock_request symbol mode)) = true ->
  value_of (analyzeStock ai symbol mode onStream)
  = Normal {| markdown := "Failed to generate analysis. Please try again.";
              groundingChunks := None;
              sentiment := neutral |}.
Proof.
  unfold analyzeStock, transport_error.
  destruct (generateContentStream ai (analyzeStock_request symbol mode)) as [s | e];
    simpl; [| reflexivity].
  intros H.
  assert (Herr : stream_error s <> None) by (destruct (stream_error s); congruence).
  destruct (loop_fails onStream s "" None Herr) as [e He].
  destruct (analyzeStock_loop onStream s "" None) as [t c]. simpl in He. subst c.
  reflexivity.
Qed.

Lemma analyzeStock_transport_error_network_down :
  transport_error (generateContentStream Mock.network_down (analyzeStock_request "NVDA" DEEP))
  = true
  /\ value_of (analyzeStock Mock.network_down "NVDA" DEEP Mock.render)
     = Normal {| markdown := "Failed to generate analysis. Please try again.";
                 groundingChunks := None;
                 sentiment := neutral |}.
Proof.
  split; [reflexivity |].
  apply (analyzeStock_transport_error Mock.network_down "NVDA" DEEP Mock.render).
  reflexivity.
Defined.

(* ------------------------------------------------------------------ *)
(** *** C6: a failed price lookup *)

(** C6.  For every symbol, when the service's call throws, or its
    response has no text or an empty one, or [JSON.parse] throws on the
    text, [getLivePrice] returns [null] and does not throw.  The lookup of
    ZZZZ against a service that fails on the network is the instance
    below. *)
Theorem getLivePrice_absent_on_failure (JSON_parse : string -> completion json)
    (ai : GoogleGenAI) (symbol : string) :
  no_result JSON_parse (generateContent ai (getLivePrice_request symbol)) = true ->
  value_of (getLivePrice JSON_parse ai symbol) = Normal JNull.
Proof.
  unfold getLivePrice, no_result.
  destruct (generateContent ai (getLivePrice_request symbol)) as [response | e];
    simpl; [| reflexivity].
  destruct (text response) as [t |]; simpl; [| reflexivity].
  destruct (truthy t); simpl; [| reflexivity].
  destruct (JSON_parse t); simpl; [discriminate | reflexivity].
Qed.

Lemma getLivePrice_absent_ZZZZ :
  no_result JSON.parse (generateContent Mock.network_down (getLivePrice_request "ZZZZ")) = true
  /\ value_of (getLivePrice JSON.parse Mock.network_down "ZZZZ") = Normal JNull.
Proof.
  split; [reflexivity |].
  apply (getLivePrice_absent_on_failure JSON.parse Mock.network_down "ZZZZ").
  reflexivity.
Defined.

(* ------------------------------------------------------------------ *)
(** *** C7: the strategy is a function of the timeframe *)

(** C7.  Two calls of [getTopPicks] with the same timeframe return the
    same strategy, whatever the market and whatever the service and the
    parser do in each; and for the market US and the timeframe Intraday
    every call returns the intra-day momentum strategy. *)
Theorem getTopPicks_strategy_deterministic :
  (forall (JSON_parse1 JSON_parse2 : string -> completion json)
          (ai1 ai2 : GoogleGenAI) (market1 market2 : Market) (timeframe : string),
      exists r1 r2,
        value_of (getTopPicks JSON_parse1 ai1 market1 timeframe) = Normal r1
        /\ value_of (getTopPicks JSON_parse2 ai2 market2 timeframe) = Normal r2
        /\ strategyUsed r1 = strategyUsed r2)
  /\ (forall (JSON_parse : string -> completion json) (ai : GoogleGenAI),
        exists r,
          value_of (getTopPicks JSON_parse ai US "Intraday") = Normal r
          /\ strategyUsed r
             = "INTRA-DAY MOMENTUM. Focus on high relative volume, pre-market movers, earnings beats, and immediate volatility.").
Proof.
  split.
  - intros JSON_parse1 JSON_parse2 ai1 ai2 market1 market2 timeframe.
    destruct (getTopPicks_returns JSON_parse1 ai1 market1 timeframe) as [r1 [H1 S1]].
    destruct (getTopPicks_returns JSON_parse2 ai2 market2 timeframe) as [r2 [H2 S2]].
    exists r1, r2. repeat split; congruence.
  - intros JSON_parse ai.
    destruct (getTopPicks_returns JSON_parse ai US "Intraday") as [r [H S]].
    exists r. split; [exact H |]. rewrite S. reflexivity.
Qed.

(* ------------------------------------------------------------------ *)
(** *** C8: the default strategy *)

(** C8.  When the lower-cased timeframe contains none of "day",
    "intraday", "week", "month" and "year", [getTopPicks] returns the
    balanced growth and value strategy. *)
Theorem getTopPicks_default_strategy (JSON_parse : string -> completion json)
    (ai : GoogleGenAI) (market : Market) (timeframe : string) :
  includes (toLowerCase timeframe) "day" = false ->
  includes (toLowerCase timeframe) "intraday" = false ->
  includes (toLowerCase timeframe) "week" = false ->
  includes (toLowerCase timeframe) "month" = false ->
  includes (toLowerCase timeframe) "year" = false ->
  exists r,
    value_of (getTopPicks JSON_parse ai market timeframe) = Normal r
    /\ strategyUsed r
       = "BALANCED GROWTH & VALUE. Focus on companies with strong fundamentals and technical uptrends.".
Proof.
  intros Hday Hintraday Hweek Hmonth Hyear.
  destruct (getTopPicks_returns JSON_parse ai market timeframe) as [r [H S]].
  exists r. split; [exact H |]. rewrite S. unfold getTopPicks_strategy.
  rewrite Hday, Hintraday, Hweek, Hmonth, Hyear. reflexivity.
Qed.

Lemma getTopPicks_default_strategy_quarter :
  exists r,
    value_of (getTopPicks JSON.parse Mock.network_down IN "Next Quarter") = Normal r
    /\ strategyUsed r
       = "BALANCED GROWTH & VALUE. Focus on companies with strong fundamentals and technical uptrends.".
Proof.
  apply (getTopPicks_default_strategy JSON.parse Mock.network_down IN "Next Quarter");
    reflexivity.
Defined.

(* ------------------------------------------------------------------ *)
(** *** C9: bullish keywords come first *)

(** C9.  For every symbol, mode, callback and behaviour of the service,
    [analyzeStock] returns a result, and if the lower-cased text of the
    result contains one of "invest", "buy", "bullish" and also one of
    "pass", "sell", "bearish", the sentiment of the result is bullish. *)
Theorem analyzeStock_bullish_first (ai : GoogleGenAI) (symbol : string)
    (mode : AnalysisMode) (onStream : option (string -> M unit)) :
  exists r,
    value_of (analyzeStock ai symbol mode onStream) = Normal r
    /\ forall bull bear : string,
         In bull ["invest"; "buy"; "bullish"] ->
         In bear ["pass"; "sell"; "bearish"] ->
         includes (toLowerCase (markdown r)) bull = true ->
         includes (toLowerCase (markdown r)) bear = true ->
         sentiment r = bullish.
Proof.
  destruct (analyzeStock_returns ai symbol mode onStream) as [r [Hr Hs]].
  exists r. split; [exact Hr |].
  intros bull bear Hbull _ Hin _. rewrite Hs. unfold analyzeStock_sentiment.
  simpl in Hbull. destruct Hbull as [<- | [<- | [<- | []]]];
    rewrite Hin; rewrite ?orb_true_r; reflexivity.
Qed.

Lemma analyzeStock_bullish_first_buy_sell :
  exists r,
    value_of (analyzeStock (Mock.streaming ["Verdict: Buy. "; "Do not SELL yet."])
                "NVDA" QUICK None) = Normal r
    /\ markdown r = "Verdict: Buy. Do not SELL yet."
    /\ includes (toLowerCase (markdown r)) "buy" = true
    /\ includes (toLowerCase (markdown r)) "sell" = true
    /\ sentiment r = bullish.
Proof.
  destruct (analyzeStock_bullish_first
              (Mock.streaming ["Verdict: Buy. "; "Do not SELL yet."]) "NVDA" QUICK None)
    as [r [Hr Hfirst]].
  assert (Htext : markdown r = "Verdict: Buy. Do not SELL yet.").
  { vm_compute in Hr. injection Hr as <-. reflexivity. }
  assert (Hbuy : includes (toLowerCase (markdown r)) "buy" = true)
    by (rewrite Htext; reflexivity).
  assert (Hsell : includes (toLowerCase (markdown r)) "sell" = true)
    by (rewrite Htext; reflexivity).
  exists r. split; [exact Hr |]. split; [exact Htext |].
  split; [exact Hbuy |]. split; [exact Hsell |].
  apply (Hfirst "buy" "sell"); simpl; auto.
Defined.

(* ------------------------------------------------------------------ *)
(** *** C10: the month count is a search for digits *)

(** C10.  When the lower-cased timeframe contains "month", contains
    neither "day" nor "week", and contains the character 1 anywhere,
    [getTopPicks] returns the short-to-medium term trend strategy; "12
    months" is such a timeframe, although twelve is not a count from 1 to
    3. *)
Theorem getTopPicks_month_with_digit_1 (JSON_parse : string -> completion json)
    (ai : GoogleGenAI) (market : Market) (timeframe : string) :
  includes (toLowerCase timeframe) "month" = true ->
  includes (toLowerCase timeframe) "day" = false ->
  includes (toLowerCase timeframe) "week" = false ->
  includes (toLowerCase timeframe) "1" = true ->
  exists r,
    value_of (getTopPicks JSON_parse ai market timeframe) = Normal r
    /\ strategyUsed r
       = "SHORT-TO-MEDIUM TERM TREND. Focus on earnings growth, relative strength (RSI), and moving average crossovers.".
Proof.
  intros Hmonth Hday Hweek Hone.
  destruct (getTopPicks_returns JSON_parse ai market timeframe) as [r [H S]].
  exists r. split; [exact H |]. rewrite S. unfold getTopPicks_strategy.
  rewrite (includes_intraday_day _ Hday), Hday, Hweek, Hmonth, Hone. reflexivity.
Qed.

Lemma getTopPicks_12_months :
  exists r,
    value_of (getTopPicks JSON.parse Mock.network_down US "12 months") = Normal r
    /\ strategyUsed r
       = "SHORT-TO-MEDIUM TERM TREND. Focus on earnings growth, relative strength (RSI), and moving average crossovers.".
Proof.
  apply (getTopPicks_month_with_digit_1 JSON.parse Mock.network_down US "12 months");
    reflexivity.
Defined.

(* ================================================================== *)
(** ** Further properties of the services *)

Import GenAIMore GeminiMore SpecMore.

(** *** Auxiliary facts *)

Lemma includes_grows (s k x y : string) :
  includes s k = true -> includes (x ++ s ++ y) k = true.
Proof.
  rewrite !includes_iff. intros [a [b ->]].
  exists (x ++ a)%string, (b ++ y)%string. now rewrite !append_assoc.
Qed.

Lemma includes_head (s b : string) : includes (s ++ b) s = true.
Proof.
  apply includes_iff. now exists "", b.
Qed.

Lemma includes_append_r (a t s : string) :
  includes t s = true -> includes (a ++ t) s = true.
Proof.
  intros H. apply (includes_grows t s a "") in H. now rewrite append_empty_r in H.
Qed.

(** *** Lower case *)

Lemma startsWith_empty (s : string) : startsWith s "" = true.
Proof.
  destruct s; reflexivity.
Qed.

(** One step of [toLowerCase]. *)
Lemma toLowerCase_step (c : ascii) (rest : string) :
  toLowerCase (String c rest)
  = match startsWith (String c rest) kelvin_sign, rest with
    | true, String _ (String _ rest') => String "k" (toLowerCase rest')
    | _, _ =>
        match startsWith (String c rest) dotted_I, rest with
        | true, String _ rest' => String "i" (dot_above ++ toLowerCase rest')
        | _, _ => String (lower_char c) (toLowerCase rest)
        end
    end.
Proof.
  destruct rest as [| x [| y r]]; reflexivity.
Qed.

Lemma toLowerCase_kelvin_sign (s : string) :
  toLowerCase (kelvin_sign ++ s) = String "k" (toLowerCase s).
Proof.
  cbn [kelvin_sign append]. rewrite toLowerCase_step.
  cbn [startsWith kelvin_sign]. rewrite startsWith_empty. reflexivity.
Qed.

Lemma toLowerCase_dotted_I (s : string) :
  toLowerCase (dotted_I ++ s) = String "i" (dot_above ++ toLowerCase s).
Proof.
  cbn [dotted_I append]. rewrite toLowerCase_step.
  cbn [startsWith kelvin_sign dotted_I]. rewrite startsWith_empty. reflexivity.
Qed.

(** Anywhere else one unit is lower-cased and the scan moves on by one. *)
Lemma toLowerCase_unit (c : ascii) (s : string) :
  startsWith (String c s) kelvin_sign = false ->
  startsWith (String c s) dotted_I = false ->
  toLowerCase (String c s) = String (lower_char c) (toLowerCase s).
Proof.
  intros Hk Hd. now rewrite toLowerCase_step, Hk, Hd.
Qed.

Lemma is_ascii_not (c d : ascii) :
  is_ascii c = true -> is_ascii d = false -> Ascii.eqb c d = false.
Proof.
  intros Hc Hd. apply Ascii.eqb_neq. intros ->. congruence.
Qed.

Lemma toLowerCase_ascii_unit (c : ascii) (s : string) :
  is_ascii c = true -> toLowerCase (String c s) = String (lower_char c) (toLowerCase s).
Proof.
  intros Hc. apply toLowerCase_unit; cbn [startsWith kelvin_sign dotted_I].
  - rewrite Ascii.eqb_sym, (is_ascii_not c "226" Hc); reflexivity.
  - rewrite Ascii.eqb_sym, (is_ascii_not c "196" Hc); reflexivity.
Qed.

Lemma toLowerCase_other (c : ascii) (s : string) :
  Ascii.eqb "226" c = false -> Ascii.eqb "196" c = false ->
  toLowerCase (String c s) = String (lower_char c) (toLowerCase s).
Proof.
  intros Hk Hd. apply toLowerCase_unit; cbn [startsWith kelvin_sign dotted_I].
  - now rewrite Hk.
  - now rewrite Hd.
Qed.

Lemma lower_char_ascii (c : ascii) : is_ascii (lower_char c) = is_ascii c.
Proof.
  destruct c as [[] [] [] [] [] [] [] []]; reflexivity.
Qed.

(** How [toLowerCase] starts on a text that is not empty. *)
Lemma toLowerCase_cases (c : ascii) (s : string) :
  (exists r, String c s = (kelvin_sign ++ r)%string)
  \/ (exists r, String c s = (dotted_I ++ r)%string)
  \/ toLowerCase (String c s) = String (lower_char c) (toLowerCase s).
Proof.
  destruct (startsWith (String c s) kelvin_sign) eqn:Hk.
  - left. now apply startsWith_iff.
  - destruct (startsWith (String c s) dotted_I) eqn:Hd.
    + right. left. now apply startsWith_iff.
    + right. right. now apply toLowerCase_unit.
Qed.

Lemma includes_empty (s : string) : includes s "" = true.
Proof.
  destruct s; reflexivity.
Qed.

Lemma startsWith_includes (s k : string) : startsWith s k = true -> includes s k = true.
Proof.
  intros H. destruct s; cbn [includes]; rewrite H; reflexivity.
Qed.

(** An ASCII word does not start at a unit outside ASCII. *)
Lemma includes_skip (c : ascii) (t k : string) :
  is_ascii c = false -> ascii_text k = true ->
  includes (String c t) k = true -> includes t k = true.
Proof.
  intros Hc Hk H. destruct k as [| d k]; [apply includes_empty |].
  cbn [ascii_text] in Hk. apply andb_prop in Hk as [Hd _].
  cbn [includes startsWith] in H. now rewrite (is_ascii_not d c Hd Hc) in H.
Qed.

Lemma startsWith_lower_right (a : string) :
  forall k y, ascii_text k = true ->
    startsWith (toLowerCase a) k = true -> startsWith (toLowerCase (a ++ y)) k = true.
Proof.
  induction a as [a IH] using string_strong_ind. intros k y Hk H.
  destruct k as [| d k]; [apply startsWith_empty |].
  cbn [ascii_text] in Hk. apply andb_prop in Hk as [Hd Hk].
  destruct a as [| c a]; [discriminate H |].
  destruct (toLowerCase_cases c a) as [[r E] | [[r E] | E]].
  - rewrite E in *. rewrite append_assoc, !toLowerCase_kelvin_sign in *.
    cbn [startsWith] in *. apply andb_prop in H as [-> H]. cbn [andb].
    apply IH; [simpl; lia | exact Hk | exact H].
  - rewrite E in *. rewrite append_assoc, !toLowerCase_dotted_I in *.
    cbn [startsWith] in *. apply andb_prop in H as [-> H]. cbn [andb].
    destruct k as [| e k]; [apply startsWith_empty |].
    cbn [ascii_text] in Hk. apply andb_prop in Hk as [He _].
    cbn [dot_above append startsWith] in H.
    rewrite (is_ascii_not e "204" He) in H by reflexivity. discriminate H.
  - rewrite E in H. cbn [startsWith] in H. apply andb_prop in H as [Hc H].
    apply Ascii.eqb_eq in Hc. subst d. rewrite lower_char_ascii in Hd.
    change ((String c a ++ y)%string) with (String c (a ++ y)).
    rewrite (toLowerCase_ascii_unit c _ Hd). cbn [startsWith].
    rewrite Ascii.eqb_refl. cbn [andb].
    apply IH; [simpl; lia | exact Hk | exact H].
Qed.

Lemma includes_lower_left (k : string) :
  ascii_text k = true ->
  forall x s, includes (toLowerCase s) k = true ->
    includes (toLowerCase (x ++ s)) k = true.
Proof.
  intros Hk x. induction x as [x IH] using string_strong_ind. intros s H.
  destruct x as [| c x]; [exact H |].
  change ((String c x ++ s)%string) with (String c (x ++ s)).
  destruct (toLowerCase_cases c (x ++ s)) as [[r E] | [[r E] | E]].
  - rewrite E, toLowerCase_kelvin_sign. apply (includes_append_r "k").
    cbn [kelvin_sign append] in E. injection E as _ E.
    destruct x as [| d [| e x]]; cbn [append] in E.
    + subst s. rewrite !toLowerCase_other in H by reflexivity.
      apply includes_skip in H; [| reflexivity | exact Hk].
      apply includes_skip in H; [exact H | reflexivity | exact Hk].
    + injection E as _ E. subst s. rewrite toLowerCase_other in H by reflexivity.
      apply includes_skip in H; [exact H | reflexivity | exact Hk].
    + injection E as _ _ E. subst r. apply IH; [simpl; lia | exact H].
  - rewrite E, toLowerCase_dotted_I.
    apply (includes_append_r (String "i" dot_above)).
    cbn [dotted_I append] in E. injection E as _ E.
    destruct x as [| d x]; cbn [append] in E.
    + subst s. rewrite toLowerCase_other in H by reflexivity.
      apply includes_skip in H; [exact H | reflexivity | exact Hk].
    + injection E as _ E. subst r. apply IH; [simpl; lia | exact H].
  - rewrite E. apply (includes_append_r (String (lower_char c) "")).
    apply IH; [simpl; lia | exact H].
Qed.

Lemma includes_lower_right (k : string) :
  ascii_text k = true ->
  forall a y, includes (toLowerCase a) k = true ->
    includes (toLowerCase (a ++ y)) k = true.
Proof.
  intros Hk a. induction a as [a IH] using string_strong_ind. intros y H.
  destruct (startsWith (toLowerCase a) k) eqn:Hhere.
  { apply startsWith_includes. now apply startsWith_lower_right. }
  destruct a as [| c a];
    [cbn [toLowerCase includes] in H, Hhere; rewrite Hhere in H; discriminate H |].
  destruct (toLowerCase_cases c a) as [[r E] | [[r E] | E]].
  - rewrite E in *. rewrite append_assoc. apply includes_lower_left; [exact Hk |].
    rewrite toLowerCase_kelvin_sign in *. cbn [includes] in H. rewrite Hhere in H.
    apply IH; [simpl; lia | exact H].
  - rewrite E in *. rewrite append_assoc. apply includes_lower_left; [exact Hk |].
    rewrite toLowerCase_dotted_I in *. cbn [includes] in H. rewrite Hhere in H.
    cbn [orb dot_above append] in H.
    apply includes_skip in H; [| reflexivity | exact Hk].
    apply includes_skip in H; [| reflexivity | exact Hk].
    apply IH; [simpl; lia | exact H].
  - change ((String c a ++ y)%string) with ((String c "" ++ (a ++ y))%string).
    apply includes_lower_left; [exact Hk |].
    rewrite E in *. cbn [includes] in H. rewrite Hhere in H.
    apply IH; [simpl; lia | exact H].
Qed.

(** The test [text.toLowerCase().includes(keyword)] of the code, for an
    ASCII keyword, keeps holding when the text grows at either end. *)
Lemma includes_lower_grows (a k x y : string) :
  ascii_text k = true ->
  includes (toLowerCase a) k = true ->
  includes (toLowerCase (x ++ a ++ y)) k = true.
Proof.
  intros Hk H. apply includes_lower_left; [exact Hk |].
  now apply includes_lower_right.
Qed.

Lemma loop_fails_after (onStream : option (string -> M unit))
    (chunks : list GenerateContentResponse) (e : error) (buffer : string)
    (finalResponse : option GenerateContentResponse) :
  returns onStream ->
  analyzeStock_loop onStream (failing_stream chunks e) buffer finalResponse
  = (calls onStream (buffers buffer (map chunk_text chunks)), Throw e).
Proof.
  intros Hret. revert buffer finalResponse.
  induction chunks as [| chunk chunks IH]; intros buffer finalResponse.
  - simpl. destruct onStream; reflexivity.
  - cbn [failing_stream fold_right analyzeStock_loop].
    fold (failing_stream chunks e). fold (chunk_text chunk).
    rewrite IH. cbn [map buffers].
    destruct onStream as [f |]; simpl in *.
    + specialize (Hret (buffer ++ chunk_text chunk)%string).
      destruct (f (buffer ++ chunk_text chunk)%string) as [t c]; simpl in *.
      subst c. reflexivity.
    + reflexivity.
Qed.

Lemma generateAppThumbnail_loop_none (ps : list Part) :
  generateAppThumbnail_loop ps = None <-> no_inline_data ps.
Proof.
  unfold no_inline_data. induction ps as [| p ps IH]; simpl.
  - split; [constructor | reflexivity].
  - destruct (inlineData p) eqn:E.
    + split; [discriminate | intros H; inversion H; congruence].
    + rewrite IH. split; [now constructor | intros H; now inversion H].
Qed.

Lemma generateAppThumbnail_loop_first (before after : list Part) (p : Part) (blob : Blob) :
  no_inline_data before ->
  inlineData p = Some blob ->
  generateAppThumbnail_loop (before ++ p :: after)
  = Some ("data:image/png;base64," ++ interpolate (data blob))%string.
Proof.
  intros Hbefore Hp. induction Hbefore as [| q before Hq _ IH]; simpl.
  - now rewrite Hp.
  - now rewrite Hq.
Qed.

Lemma generateAppThumbnail_loop_prefix (ps : list Part) (url : string) :
  generateAppThumbnail_loop ps = Some url ->
  startsWith url "data:image/png;base64," = true.
Proof.
  induction ps as [| p ps IH]; simpl; [discriminate |].
  destruct (inlineData p); [| exact IH].
  intros H. injection H as <-. apply startsWith_iff. now eexists.
Qed.

(* ------------------------------------------------------------------ *)
(** *** getMarketNews *)


(* ------------------------------------------------------------------ *)
(** *** generateAppThumbnail *)

(** X2.  When the first candidate of the response has a part with inline
    data, [generateAppThumbnail] returns the PNG data URL of the first
    such part, whatever parts come before and after it and whatever MIME
    type the part states. *)
Theorem generateAppThumbnail_first_inline (ai : Models) (response : ContentResponse)
    (before after : list Part) (p : Part) (blob : Blob) :
  generateContent_image ai generateAppThumbnail_request = Normal response ->
  candidate_parts response = before ++ p :: after ->
  no_inline_data before ->
  inlineData p = Some blob ->
  generateAppThumbnail ai
  = ([], Normal (Some ("data:image/png;base64," ++ interpolate (data blob))%string)).
Proof.
  intros Hcall Hparts Hbefore Hp. unfold generateAppThumbnail.
  rewrite Hcall. simpl. rewrite Hparts.
  now rewrite (generateAppThumbnail_loop_first before after p blob Hbefore Hp).
Qed.

Lemma generateAppThumbnail_first_inline_jpeg :
  generateAppThumbnail
    (MockMore.models None
       [MockMore.text_part "Here is the image."; MockMore.image_part "AAAA";
        MockMore.image_part "BBBB"])
  = ([], Normal (Some "data:image/png;base64,AAAA")).
Proof.
  apply (generateAppThumbnail_first_inline _
           (MockMore.parts_response
              [MockMore.text_part "Here is the image."; MockMore.image_part "AAAA";
               MockMore.image_part "BBBB"])
           [MockMore.text_part "Here is the image."] [MockMore.image_part "BBBB"]
           (MockMore.image_part "AAAA")
           {| data := Some "AAAA"; mimeType := Some "image/jpeg" |}).
  - reflexivity.
  - reflexivity.
  - repeat constructor.
  - reflexivity.
Defined.

(** X3.  [generateAppThumbnail] never throws.  It returns [null] exactly
    when the call throws or no part of the first candidate carries inline
    data, and anything else it returns starts with
    [data:image/png;base64,]. *)
Theorem generateAppThumbnail_null_or_url (ai : Models) :
  exists r,
    value_of (generateAppThumbnail ai) = Normal r
    /\ (r = None
        <-> (exists e, generateContent_image ai generateAppThumbnail_request = Throw e)
            \/ exists response,
                 generateContent_image ai generateAppThumbnail_request = Normal response
                 /\ no_inline_data (candidate_parts response))
    /\ forall url, r = Some url -> startsWith url "data:image/png;base64," = true.
Proof.
  unfold generateAppThumbnail.
  destruct (generateContent_image ai generateAppThumbnail_request) as [response | e];
    simpl.
  - exists (generateAppThumbnail_loop (candidate_parts response)).
    split; [reflexivity |]. split.
    + rewrite generateAppThumbnail_loop_none. split.
      * intros H. right. now exists response.
      * intros [[e He] | [response' [H1 H2]]]; [discriminate | congruence].
    + intros url. apply generateAppThumbnail_loop_prefix.
  - exists None. split; [reflexivity |]. split.
    + split; [intros _; left; now exists e | reflexivity].
    + discriminate.
Qed.

(* ------------------------------------------------------------------ *)
(** *** analyzeStock *)

(** X4.  When the stream yields its chunks and ends, and the callback
    returns, the sources [analyzeStock] returns are those of the last
    chunk alone: citations carried by earlier chunks are not kept, and a
    last chunk without citations gives the empty list. *)
Theorem analyzeStock_sources_of_last_chunk (ai : GoogleGenAI) (symbol : string)
    (mode : AnalysisMode) (onStream : option (string -> M unit))
    (earlier : list GenerateContentResponse) (final : GenerateContentResponse) :
  generateContentStream ai (analyzeStock_request symbol mode)
  = Normal (stream_of (earlier ++ [final])) ->
  returns onStream ->
  exists r,
    value_of (analyzeStock ai symbol mode onStream) = Normal r
    /\ Types.groundingChunks r = Some (citations final).
Proof.
  intros Hcall Hret. unfold analyzeStock. rewrite Hcall. simpl.
  rewrite (loop_completes onStream (earlier ++ [final]) "" None Hret).
  rewrite (map_app Some). change (map Some [final]) with [Some final]. rewrite last_last.
  simpl. eexists. split; reflexivity.
Qed.

Lemma analyzeStock_sources_of_last_chunk_dropped :
  exists r,
    value_of (analyzeStock
                (MockMore.streaming_as
                   (stream_of [MockMore.cited_chunk "NVDA is a buy."
                                 [MockMore.source "https://example.com/nvda" "NVDA"];
                               Mock.chunk_of " Done."]))
                "NVDA" QUICK None) = Normal r
    /\ Types.groundingChunks r = Some [].
Proof.
  apply (analyzeStock_sources_of_last_chunk
           (MockMore.streaming_as
              (stream_of [MockMore.cited_chunk "NVDA is a buy."
                            [MockMore.source "https://example.com/nvda" "NVDA"];
                          Mock.chunk_of " Done."]))
           "NVDA" QUICK None
           [MockMore.cited_chunk "NVDA is a buy."
              [MockMore.source "https://example.com/nvda" "NVDA"]]
           (Mock.chunk_of " Done.")).
  - reflexivity.
  - exact I.
Defined.

(** X5.  When the stream throws after some chunks, and the callback
    returns, the callback has been given the buffer after each of those
    chunks, the error is logged once, and the result is the fixed failure
    message: the text received so far is not returned. *)
Theorem analyzeStock_fails_midstream (ai : GoogleGenAI) (symbol : string)
    (mode : AnalysisMode) (onStream : option (string -> M unit))
    (chunks : list GenerateContentResponse) (e : error) :
  generateContentStream ai (analyzeStock_request symbol mode)
  = Normal (failing_stream chunks e) ->
  returns onStream ->
  analyzeStock ai symbol mode onStream
  = (calls onStream (buffers "" (map chunk_text chunks))
       ++ [console_error "Analysis error:" e],
     Normal analysis_failed).
Proof.
  intros Hcall Hret. unfold analyzeStock. rewrite Hcall. simpl.
  rewrite (loop_fails_after onStream chunks e "" None Hret). reflexivity.
Qed.

Lemma analyzeStock_fails_midstream_after_two :
  analyzeStock
    (MockMore.streaming_as
       (failing_stream [Mock.chunk_of "NVDA looks "; Mock.chunk_of "like a strong buy."]
          Mock.network_error))
    "NVDA" QUICK Mock.render
  = ([observed "NVDA looks "; observed "NVDA looks like a strong buy.";
      console_error "Analysis error:" Mock.network_error],
     Normal analysis_failed).
Proof.
  apply (analyzeStock_fails_midstream
           (MockMore.streaming_as
              (failing_stream [Mock.chunk_of "NVDA looks "; Mock.chunk_of "like a strong buy."]
                 Mock.network_error))
           "NVDA" QUICK Mock.render
           [Mock.chunk_of "NVDA looks "; Mock.chunk_of "like a strong buy."]
           Mock.network_error).
  - reflexivity.
  - intros t. reflexivity.
Defined.

(** X6.  When the callback throws on the first chunk, [analyzeStock]
    reads no further chunk, logs the callback's error as an analysis
    error and returns the fixed failure message, although the service
    did not fail. *)
Theorem analyzeStock_callback_throws (ai : GoogleGenAI) (symbol : string)
    (mode : AnalysisMode) (f : string -> M unit)
    (chunk : GenerateContentResponse) (rest : Stream)
    (seen : list event) (e : error) :
  generateContentStream ai (analyzeStock_request symbol mode) = Normal (Yield chunk rest) ->
  f (chunk_text chunk) = (seen, Throw e) ->
  analyzeStock ai symbol mode (Some f)
  = (seen ++ [console_error "Analysis error:" e], Normal analysis_failed).
Proof.
  intros Hcall Hf. unfold analyzeStock. rewrite Hcall. simpl.
  fold (chunk_text chunk). rewrite Hf. reflexivity.
Qed.

Lemma analyzeStock_callback_throws_unmounted :
  analyzeStock (Mock.streaming ["NVDA looks "; "like a strong buy."]) "NVDA" QUICK
    MockMore.render_once
  = ([observed "NVDA looks ";
      console_error "Analysis error:" (Error "TypeError" "unmounted")],
     Normal analysis_failed).
Proof.
  apply (analyzeStock_callback_throws
           (Mock.streaming ["NVDA looks "; "like a strong buy."]) "NVDA" QUICK _
           (Mock.chunk_of "NVDA looks ")
           (stream_of [Mock.chunk_of "like a strong buy."])
           [observed "NVDA looks "] (Error "TypeError" "unmounted")).
  - reflexivity.
  - reflexivity.
Defined.

(** X7.  As the text grows, at its front or at its end, the sentiment
    rule of [analyzeStock] never steps down: a bullish text stays bullish
    and a bearish text does not become neutral. *)
Theorem analyzeStock_sentiment_monotone (x a y : string) :
  rank (analyzeStock_sentiment a) <= rank (analyzeStock_sentiment (x ++ a ++ y)).
Proof.
  unfold analyzeStock_sentiment.
  set (bull t := includes (toLowerCase t) "invest" || includes (toLowerCase t) "buy"
                 || includes (toLowerCase t) "bullish").
  set (bear t := includes (toLowerCase t) "pass" || includes (toLowerCase t) "sell"
                 || includes (toLowerCase t) "bearish").
  change (rank (if bull a then bullish else if bear a then bearish else neutral)
          <= rank (if bull (x ++ a ++ y)%string then bullish
                   else if bear (x ++ a ++ y)%string then bearish else neutral)).
  assert (Hbull : bull a = true -> bull (x ++ a ++ y)%string = true).
  { unfold bull. rewrite !orb_true_iff.
    intros [[H | H] | H]; apply (includes_lower_grows _ _ x y) in H;
      solve [auto | reflexivity]. }
  assert (Hbear : bear a = true -> bear (x ++ a ++ y)%string = true).
  { unfold bear. rewrite !orb_true_iff.
    intros [[H | H] | H]; apply (includes_lower_grows _ _ x y) in H;
      solve [auto | reflexivity]. }
  destruct (bull a); [rewrite (Hbull eq_refl); simpl; lia |].
  destruct (bear a); [rewrite (Hbear eq_refl) | simpl; lia].
  destruct (bull (x ++ a ++ y)%string); simpl; lia.
Qed.

(* ------------------------------------------------------------------ *)
(** *** getLivePrice *)


(* ------------------------------------------------------------------ *)
(** *** getForecast *)

(** X9.  When the context response has no text, [getForecast] goes on:
    the second request quotes the word undefined as its context, and what
    the second response parses to is returned. *)
Theorem getForecast_undefined_context (JSON_parse : string -> completion json)
    (ai : GoogleGenAI) (symbol : string)
    (contextResp response : GenerateContentResponse) (t : string) (v : json) :
  generateContent ai (getForecast_contextRequest symbol) = Normal contextResp ->
  text contextResp = None ->
  generateContent ai (getForecast_request symbol None) = Normal response ->
  text response = Some t ->
  truthy t = true ->
  JSON_parse t = Normal v ->
  getForecast JSON_parse ai symbol = ([], Normal v)
  /\ includes (contents (getForecast_request symbol None)) (dq ++ "undefined" ++ dq) = true.
Proof.
  intros Hcontext Hnone Hcall Htext Htruthy Hparse. split.
  - unfold getForecast. rewrite Hcontext. simpl. rewrite Hnone, Hcall. simpl.
    rewrite Htext, Htruthy. simpl. rewrite Hparse. reflexivity.
  - reflexivity.
Qed.

Lemma getForecast_undefined_context_mock :
  getForecast JSON.parse (MockMore.no_context Mock.one_scenario_text) "NVDA"
  = ([], Normal Mock.one_scenario)
  /\ includes (contents (getForecast_request "NVDA" None)) (dq ++ "undefined" ++ dq) = true.
Proof.
  apply (getForecast_undefined_context JSON.parse
           (MockMore.no_context Mock.one_scenario_text) "NVDA"
           {| text := None; candidates := None |}
           (Mock.chunk_of Mock.one_scenario_text) Mock.one_scenario_text Mock.one_scenario);
    reflexivity.
Defined.

(** X10.  When one of the two calls of [getForecast] fails, the forecast
    is [null] and nothing is thrown: the context call throws, whatever the
    service would have answered to the second call; or the second call
    throws, has no text or an empty one, or its text does not parse. *)
Theorem getForecast_absent_on_failure (JSON_parse : string -> completion json)
    (ai : GoogleGenAI) (symbol : string) :
  no_forecast JSON_parse ai symbol = true ->
  value_of (getForecast JSON_parse ai symbol) = Normal JNull.
Proof.
  unfold getForecast, no_forecast, no_result.
  destruct (generateContent ai (getForecast_contextRequest symbol)) as [contextResp | e];
    simpl; [| reflexivity].
  destruct (generateContent ai (getForecast_request symbol (text contextResp)))
    as [response | e]; simpl; [| reflexivity].
  destruct (text response) as [t |]; simpl; [| reflexivity].
  destruct (truthy t); simpl; [| reflexivity].
  destruct (JSON_parse t); simpl; [discriminate | reflexivity].
Qed.

Lemma getForecast_absent_on_failure_context_down :
  generateContent (MockMore.context_down Mock.one_scenario_text)
    (getForecast_request "NVDA" None) = Normal (Mock.chunk_of Mock.one_scenario_text)
  /\ no_forecast JSON.parse (MockMore.context_down Mock.one_scenario_text) "NVDA" = true
  /\ value_of (getForecast JSON.parse (MockMore.context_down Mock.one_scenario_text) "NVDA")
     = Normal JNull.
Proof.
  split; [reflexivity |]. split; [reflexivity |].
  apply (getForecast_absent_on_failure JSON.parse
           (MockMore.context_down Mock.one_scenario_text) "NVDA").
  reflexivity.
Defined.

(* ------------------------------------------------------------------ *)
(** *** getTopPicks *)

(** X11.  When the call of [getTopPicks] gives nothing to return, the
    recommendations are the empty list and the strategy determined from
    the timeframe is still returned; nothing is thrown. *)
Theorem getTopPicks_empty_on_failure (JSON_parse : string -> completion json)
    (ai : GoogleGenAI) (market : Market) (timeframe : string) :
  no_result JSON_parse (generateContent ai (getTopPicks_request market timeframe)) = true ->
  value_of (getTopPicks JSON_parse ai market timeframe)
  = Normal {| recommendations := JArr [];
              strategyUsed := getTopPicks_strategy timeframe |}.
Proof.
  unfold getTopPicks, no_result.
  destruct (generateContent ai (getTopPicks_request market timeframe)) as [response | e];
    simpl; [| reflexivity].
  destruct (text response) as [t |]; simpl; [| reflexivity].
  destruct (truthy t); simpl; [| reflexivity].
  destruct (JSON_parse t); simpl; [discriminate | reflexivity].
Qed.

Lemma getTopPicks_empty_on_failure_down :
  value_of (getTopPicks JSON.parse Mock.network_down IN "1 Week (Swing)")
  = Normal {| recommendations := JArr [];
              strategyUsed :=
                "SWING TRADING. Focus on technical breakouts, sector rotation, and short-term news catalysts." |}.
Proof.
  apply (getTopPicks_empty_on_failure JSON.parse Mock.network_down IN "1 Week (Swing)").
  reflexivity.
Defined.

(** X12.  The prompt [getTopPicks] sends holds the timeframe as the
    caller gave it, the market context, and the very strategy text that
    comes back as [strategyUsed]. *)
Theorem getTopPicks_prompt_states_strategy (JSON_parse : string -> completion json)
    (ai : GoogleGenAI) (market : Market) (timeframe : string) :
  exists r,
    value_of (getTopPicks JSON_parse ai market timeframe) = Normal r
    /\ includes (contents (getTopPicks_request market timeframe)) (strategyUsed r) = true
    /\ includes (contents (getTopPicks_request market timeframe)) timeframe = true
    /\ includes (contents (getTopPicks_request market timeframe))
         (getTopPicks_marketContext market) = true.
Proof.
  destruct (getTopPicks_returns JSON_parse ai market timeframe) as [r [H S]].
  exists r. split; [exact H |]. rewrite S.
  unfold getTopPicks_request, getTopPicks_prompt. cbn [contents].
  generalize (getTopPicks_strategy timeframe) (getTopPicks_marketContext market).
  intros strategy marketContext. repeat split.
  - do 5 apply includes_append_r. apply includes_head.
  - do 3 apply includes_append_r. apply includes_head.
  - apply includes_append_r. apply includes_head.
Qed.

(** X13.  The strategy [getTopPicks] returns is always one of seven
    fixed texts; the seven differ from one another, and each of them is
    the strategy of some timeframe. *)
Theorem getTopPicks_seven_strategies :
  (forall (JSON_parse : string -> completion json) (ai : GoogleGenAI)
          (market : Market) (timeframe : string),
      exists r,
        value_of (getTopPicks JSON_parse ai market timeframe) = Normal r
        /\ In (strategyUsed r) strategies)
  /\ NoDup strategies
  /\ List.length strategies = 7
  /\ forall label, In label strategies ->
       exists timeframe, getTopPicks_strategy timeframe = label.
Proof.
  split; [| split; [| split]].
  - intros JSON_parse ai market timeframe.
    destruct (getTopPicks_returns JSON_parse ai market timeframe) as [r [H S]].
    exists r. split; [exact H |]. rewrite S. unfold getTopPicks_strategy, strategies.
    repeat match goal with
           | |- context [if ?b then _ else _] => destruct b
           end; simpl; tauto.
  - unfold strategies.
    repeat (constructor;
            [simpl; intros H;
             repeat (destruct H as [H | H]; [discriminate H |]); exact H |]).
    constructor.
  - reflexivity.
  - intros label H. simpl in H.
    destruct H as [<- | [<- | [<- | [<- | [<- | [<- | [<- | []]]]]]]].
    + now exists "Intraday".
    + now exists "1 Week".
    + now exists "1 Month".
    + now exists "6 Months".
    + now exists "Months".
    + now exists "5 Years".
    + now exists "Custom".
Qed.

(** X14.  A timeframe with "day" in it, in any casing and anywhere,
    gets the intra-day momentum strategy, whatever else it says. *)
Theorem getTopPicks_day_comes_first (JSON_parse : string -> completion json)
    (ai : GoogleGenAI) (market : Market) (a k b : string) :
  toLowerCase k = "day" ->
  exists r,
    value_of (getTopPicks JSON_parse ai market (a ++ k ++ b)) = Normal r
    /\ strategyUsed r
       = "INTRA-DAY MOMENTUM. Focus on high relative volume, pre-market movers, earnings beats, and immediate volatility.".
Proof.
  intros Hk.
  destruct (getTopPicks_returns JSON_parse ai market (a ++ k ++ b)) as [r [H S]].
  exists r. split; [exact H |]. rewrite S. unfold getTopPicks_strategy.
  assert (Hday : includes (toLowerCase (a ++ k ++ b)) "day" = true).
  { apply includes_lower_grows; [reflexivity |]. rewrite Hk. reflexivity. }
  rewrite Hday. reflexivity.
Qed.

Lemma getTopPicks_day_comes_first_90_days :
  exists r,
    value_of (getTopPicks JSON.parse Mock.network_down US "90 Days (3 months)") = Normal r
    /\ strategyUsed r
       = "INTRA-DAY MOMENTUM. Focus on high relative volume, pre-market movers, earnings beats, and immediate volatility.".
Proof.
  apply (getTopPicks_day_comes_first JSON.parse Mock.network_down US
           "90 " "Day" "s (3 months)").
  reflexivity.
Defined.

(* ------------------------------------------------------------------ *)
(** *** The prompts *)

(** X15.  Every prompt built for a symbol holds the symbol as it was
    given: the price lookup, the analysis in both modes, and both calls of
    the forecast, whatever the context. *)
Theorem prompts_hold_the_symbol (symbol : string) (mode : AnalysisMode)
    (context : option string) :
  includes (contents (getLivePrice_request symbol)) symbol = true
  /\ includes (contents (analyzeStock_request symbol mode)) symbol = true
  /\ includes (contents (getForecast_contextRequest symbol)) symbol = true
  /\ includes (contents (getForecast_request symbol context)) symbol = true.
Proof.
  repeat split.
  - unfold getLivePrice_request, getLivePrice_prompt. cbn [contents].
    do 2 apply includes_append_r. apply includes_head.
  - unfold analyzeStock_request, analyzeStock_prompt. cbn [contents].
    destruct mode.
    + apply includes_append_r. apply includes_head.
    + do 5 apply includes_append_r. apply includes_head.
  - unfold getForecast_contextRequest, getForecast_contextPrompt. cbn [contents].
    apply includes_append_r. apply includes_head.
  - unfold getForecast_request, getForecast_prompt. cbn [contents].
    generalize (interpolate context). intros c.
    do 5 apply includes_append_r. apply includes_head.
Qed.

(* ================================================================== *)
(** ** Properties of the handlers of App.tsx *)

Lemma getLivePrice_returns (JSON_parse : string -> completion json) (ai : GoogleGenAI)
    (symbol : string) :
  exists v, value_of (getLivePrice JSON_parse ai symbol) = Normal v.
Proof.
  unfold getLivePrice.
  destruct (generateContent ai (getLivePrice_request symbol)) as [response | e];
    simpl; [| eauto].
  destruct (text response) as [t |]; simpl; [| eauto].
  destruct (truthy t); simpl; [| eauto].
  destruct (JSON_parse t); simpl; eauto.
Qed.

Lemma getForecast_returns (JSON_parse : string -> completion json) (ai : GoogleGenAI)
    (symbol : string) :
  exists v, value_of (getForecast JSON_parse ai symbol) = Normal v.
Proof.
  unfold getForecast.
  destruct (generateContent ai (getForecast_contextRequest symbol)) as [contextResp | e];
    simpl; [| eauto].
  destruct (generateContent ai (getForecast_request symbol (text contextResp)))
    as [response | e]; simpl; [| eauto].
  destruct (text response) as [t |]; simpl; [| eauto].
  destruct (truthy t); simpl; [| eauto].
  destruct (JSON_parse t); simpl; eauto.
Qed.

Lemma generateAppThumbnail_returns (models : Models) :
  exists url, value_of (generateAppThumbnail models) = Normal url.
Proof.
  unfold generateAppThumbnail.
  destruct (generateContent_image models generateAppThumbnail_request); simpl; eauto.
Qed.

Lemma getMarketNews_returns (models : Models) :
  exists data, value_of (getMarketNews models) = Normal data
               /\ truthy (GeminiMore.news data) = true.
Proof.
  unfold getMarketNews.
  destruct (generateContent_sampled models getMarketNews_request) as [response | e];
    simpl; [| eauto].
  destruct (text response) as [t |]; simpl; [| eauto].
  destruct (truthy t) eqn:E; eauto.
Qed.

(** The callback of [handleAnalyze] changes [analysisResult] and nothing
    else. *)
Lemma replay_sets_analysisResult (t : list event) (s : App.AppState) :
  App.replay t s = App.setAnalysisResult (App.analysisResult (App.replay t s)) s.
Proof.
  revert s. induction t as [| ev t IH]; intros s.
  - destruct s; reflexivity.
  - unfold App.replay in *. cbn [fold_left]. destruct ev as [label e | streamedText].
    + apply IH.
    + rewrite IH at 1. reflexivity.
Qed.

(** The state [handleAnalyze] ends in, from the results of the two
    calls. *)
Lemma handleAnalyze_final (JSON_parse : string -> completion json) (ai : GoogleGenAI)
    (price_first : bool) (render s : App.AppState) (r : AnalysisResult) (data : json) :
  truthy (App.symbol render) = true ->
  value_of (analyzeStock ai (App.symbol render) (App.analysisMode render)
              App.renderPartial) = Normal r ->
  value_of (getLivePrice JSON_parse ai (App.symbol render)) = Normal data ->
  App.final_state (App.handleAnalyze JSON_parse ai price_first render s)
  = App.setCurrency (snd (App.price_after data s))
      (App.setLivePrice (fst (App.price_after data s))
         (App.setIsAnalyzing false
            (App.setAnalysisResult (Some r)
               (App.setActiveTab App.research (App.setForecast JNull s)))))
  /\ App.ui_value (App.handleAnalyze JSON_parse ai price_first render s) = Normal tt
  /\ Forall (fun ev => exists ev', ev = App.from_service ev')
       (App.ui_trace (App.handleAnalyze JSON_parse ai price_first render s)).
Proof.
  intros Hsymbol Hanalysis Hprice.
  unfold App.handleAnalyze. rewrite Hsymbol. cbn [negb].
  unfold App.ui_bind, App.set, App.ui_finally, App.ui_try_catch, App.ui_ret,
    App.streamAnalysis, App.priceArrives, App.price_after.
  rewrite Hanalysis, Hprice.
  set (m := analyzeStock ai (App.symbol render) (App.analysisMode render) _).
  set (p := getLivePrice JSON_parse ai (App.symbol render)).
  destruct price_first; cbn -[App.replay].
  - rewrite (replay_sets_analysisResult (trace_of m)).
    split; [| split].
    + destruct (App.truthy_json data); reflexivity.
    + reflexivity.
    + rewrite !app_nil_r. apply Forall_app. split;
        apply Forall_forall; intros ev Hin; apply in_map_iff in Hin as [ev' [<- _]];
        now exists ev'.
  - rewrite (replay_sets_analysisResult (trace_of m)).
    split; [| split].
    + destruct (App.truthy_json data); reflexivity.
    + reflexivity.
    + rewrite !app_nil_r. apply Forall_app. split;
        apply Forall_forall; intros ev Hin; apply in_map_iff in Hin as [ev' [<- _]];
        now exists ev'.
Qed.

(** *** [trim] *)

Lemma is_space2_bytes (c x : ascii) :
  App.is_space2 c x = true -> is_ascii c = false /\ is_ascii x = false.
Proof.
  unfold App.is_space2, is_ascii. generalize (code c) (code x). intros n m H.
  rewrite andb_true_iff, !Z.eqb_eq in H. rewrite !Z.ltb_ge. lia.
Qed.

Lemma is_space3_bytes (c x y : ascii) :
  App.is_space3 c x y = true
  -> is_ascii c = false /\ is_ascii x = false /\ is_ascii y = false.
Proof.
  unfold App.is_space3, is_ascii. generalize (code c) (code x) (code y). intros n m p H.
  cbv zeta in H.
  rewrite !orb_true_iff, !andb_true_iff, !orb_true_iff, !andb_true_iff,
    !Z.eqb_eq, !Z.leb_le in H.
  rewrite !Z.ltb_ge. lia.
Qed.

(** One step of [trimStart]. *)
Lemma trimStart_step (s : string) :
  App.trimStart s = match App.strip_space s with
                    | Some r => App.trimStart r
                    | None => s
                    end.
Proof.
  destruct s as [| c [| x [| y r]]]; cbn [App.trimStart App.strip_space];
    try reflexivity.
  - destruct (App.is_space c); reflexivity.
  - destruct (App.is_space c); [reflexivity |]. destruct (App.is_space2 c x); reflexivity.
  - destruct (App.is_space c); [reflexivity |].
    destruct (App.is_space2 c x); [reflexivity |].
    destruct (App.is_space3 c x y); reflexivity.
Qed.

(** The white space character stripped is a prefix that is not empty, and
    it is stripped whatever follows. *)
Lemma strip_space_some (s r : string) :
  App.strip_space s = Some r ->
  String.length r < String.length s
  /\ forall w, App.strip_space (s ++ w) = Some (r ++ w)%string.
Proof.
  destruct s as [| c [| x [| y r3]]]; cbn [App.strip_space]; intros H.
  - discriminate H.
  - destruct (App.is_space c) eqn:Ec; [| discriminate H]. injection H as <-.
    split; [simpl; lia |]. intros w. cbn [append App.strip_space]. now rewrite Ec.
  - destruct (App.is_space c) eqn:Ec.
    + injection H as <-. split; [simpl; lia |]. intros w.
      cbn [append App.strip_space]. now rewrite Ec.
    + destruct (App.is_space2 c x) eqn:E2; [| discriminate H]. injection H as <-.
      split; [simpl; lia |]. intros w. cbn [append App.strip_space]. now rewrite Ec, E2.
  - destruct (App.is_space c) eqn:Ec.
    + injection H as <-. split; [simpl; lia |]. intros w.
      cbn [append App.strip_space]. now rewrite Ec.
    + destruct (App.is_space2 c x) eqn:E2.
      * injection H as <-. split; [simpl; lia |]. intros w.
        cbn [append App.strip_space]. now rewrite Ec, E2.
      * destruct (App.is_space3 c x y) eqn:E3; [| discriminate H]. injection H as <-.
        split; [simpl; lia |]. intros w.
        cbn [append App.strip_space]. now rewrite Ec, E2, E3.
Qed.

Lemma trimStart_length (s : string) : String.length (App.trimStart s) <= String.length s.
Proof.
  induction s as [s IH] using string_strong_ind.
  rewrite trimStart_step. destruct (App.strip_space s) as [r |] eqn:E; [| lia].
  apply strip_space_some in E as [Hlen _]. specialize (IH r Hlen). lia.
Qed.

Lemma trimStart_idempotent (s : string) :
  App.trimStart (App.trimStart s) = App.trimStart s.
Proof.
  induction s as [s IH] using string_strong_ind.
  rewrite (trimStart_step s). destruct (App.strip_space s) as [r |] eqn:E.
  - apply strip_space_some in E as [Hlen _]. now apply IH.
  - rewrite trimStart_step, E. reflexivity.
Qed.

(** White space in front of a text is stripped with the white space the
    text starts with. *)
Lemma trimStart_blank_append (a b : string) :
  App.trimStart a = "" -> App.trimStart (a ++ b) = App.trimStart b.
Proof.
  induction a as [a IH] using string_strong_ind. intros H.
  destruct a as [| c a]; [reflexivity |].
  rewrite trimStart_step in H. rewrite (trimStart_step (String c a ++ b)).
  destruct (App.strip_space (String c a)) as [r |] eqn:E; [| discriminate H].
  apply strip_space_some in E as [Hlen Happ]. rewrite Happ. now apply IH.
Qed.

(** [trimEnd] cuts white space off, and nothing else. *)
Lemma trimEnd_split (s : string) :
  exists w, s = (App.trimEnd s ++ w)%string /\ App.trimStart w = "".
Proof.
  induction s as [| c s [w [Hs Hw]]]; [now exists "" |].
  cbn [App.trimEnd]. destruct (String.eqb (App.trimStart (String c s)) "") eqn:E.
  - apply String.eqb_eq in E. now exists (String c s).
  - exists w. split; [| exact Hw]. cbn [append]. now rewrite <- Hs.
Qed.

Lemma trimEnd_empty (s : string) : App.trimEnd s = "" <-> App.trimStart s = "".
Proof.
  destruct s as [| c s]; [split; reflexivity |].
  cbn [App.trimEnd]. destruct (String.eqb (App.trimStart (String c s)) "") eqn:E.
  - apply String.eqb_eq in E. split; [intros _; exact E | reflexivity].
  - apply String.eqb_neq in E. split; [discriminate | intros H; contradiction].
Qed.

Lemma trimEnd_idempotent (s : string) : App.trimEnd (App.trimEnd s) = App.trimEnd s.
Proof.
  induction s as [| c s IH]; [reflexivity |].
  cbn [App.trimEnd]. destruct (String.eqb (App.trimStart (String c s)) "") eqn:E;
    [reflexivity |].
  cbn [App.trimEnd]. rewrite IH.
  destruct (String.eqb (App.trimStart (String c (App.trimEnd s))) "") eqn:E';
    [| reflexivity].
  apply String.eqb_eq in E'. apply String.eqb_neq in E. exfalso. apply E.
  destruct (trimEnd_split s) as [w [Hs Hw]].
  rewrite Hs. change (String c (App.trimEnd s ++ w)) with ((String c (App.trimEnd s) ++ w)%string).
  now rewrite (trimStart_blank_append _ w E').
Qed.

(** A text that does not start with white space still does not when
    white space is cut off its end. *)
Lemma trimStart_trimEnd (u : string) :
  App.trimStart u = u -> App.trimStart (App.trimEnd u) = App.trimEnd u.
Proof.
  intros Hu. rewrite trimStart_step.
  destruct (App.strip_space (App.trimEnd u)) as [r |] eqn:E; [| reflexivity].
  exfalso. apply strip_space_some in E as [Hlen Happ].
  destruct (trimEnd_split u) as [w [Hs _]].
  assert (Hcut : App.trimStart u = App.trimStart (r ++ w)).
  { rewrite Hs at 1. now rewrite trimStart_step, Happ. }
  pose proof (trimStart_length (r ++ w)) as Hle.
  rewrite <- Hcut, Hu, string_length_append in Hle.
  assert (Hu' : String.length u = String.length (App.trimEnd u) + String.length w)
    by (rewrite Hs at 1; apply string_length_append).
  lia.
Qed.

Lemma trim_idempotent (s : string) : App.trim (App.trim s) = App.trim s.
Proof.
  unfold App.trim.
  rewrite (trimStart_trimEnd _ (trimStart_idempotent s)). apply trimEnd_idempotent.
Qed.

(** [trim] leaves nothing exactly when the text is white space
    throughout, which is when [trimStart] leaves nothing. *)
Lemma trim_empty (s : string) : App.trim s = "" <-> App.trimStart s = "".
Proof.
  unfold App.trim. now rewrite trimEnd_empty, trimStart_idempotent.
Qed.

(** An ASCII character that is not white space is part of no white space
    character: what is stripped in front of it leaves it in place. *)
Lemma strip_space_visible (a : string) (c : ascii) (r q : string) :
  is_ascii c = true -> App.is_space c = false ->
  App.strip_space (a ++ String c r) = Some q ->
  exists a', q = (a' ++ String c r)%string /\ String.length a' < String.length a.
Proof.
  intros Hc Hs H.
  destruct a as [| d [| e [| f a]]]; cbn [append App.strip_space] in H.
  - rewrite Hs in H. destruct r as [| x [| y r]]; try discriminate H.
    + destruct (App.is_space2 c x) eqn:E2; [| discriminate H].
      apply is_space2_bytes in E2 as [E2 _]. congruence.
    + destruct (App.is_space2 c x) eqn:E2.
      * apply is_space2_bytes in E2 as [E2 _]. congruence.
      * destruct (App.is_space3 c x y) eqn:E3; [| discriminate H].
        apply is_space3_bytes in E3 as [E3 _]. congruence.
  - destruct (App.is_space d) eqn:Ed.
    + injection H as <-. exists "". split; [reflexivity | simpl; lia].
    + destruct (App.is_space2 d c) eqn:E2.
      * apply is_space2_bytes in E2 as [_ E2]. congruence.
      * destruct r as [| y r]; [discriminate H |].
        destruct (App.is_space3 d c y) eqn:E3; [| discriminate H].
        apply is_space3_bytes in E3 as [_ [E3 _]]. congruence.
  - destruct (App.is_space d) eqn:Ed.
    + injection H as <-. exists (String e ""). split; [reflexivity | simpl; lia].
    + destruct (App.is_space2 d e) eqn:E2.
      * injection H as <-. exists "". split; [reflexivity | simpl; lia].
      * destruct (App.is_space3 d e c) eqn:E3; [| discriminate H].
        apply is_space3_bytes in E3 as [_ [_ E3]]. congruence.
  - destruct (App.is_space d) eqn:Ed.
    + injection H as <-. exists (String e (String f a)). split; [reflexivity | simpl; lia].
    + destruct (App.is_space2 d e) eqn:E2.
      * injection H as <-. exists (String f a). split; [reflexivity | simpl; lia].
      * destruct (App.is_space3 d e f) eqn:E3; [| discriminate H].
        injection H as <-. exists a. split; [reflexivity | simpl; lia].
Qed.

(** A line with an ASCII character that is not white space is not
    blank. *)
Lemma trim_not_blank (a : string) (c : ascii) (r : string) :
  is_ascii c = true -> App.is_space c = false ->
  String.eqb (App.trim (a ++ String c r)) "" = false.
Proof.
  intros Hc Hs. apply String.eqb_neq. rewrite trim_empty.
  induction a as [a IH] using string_strong_ind.
  rewrite trimStart_step.
  destruct (App.strip_space (a ++ String c r)) as [q |] eqn:E.
  - apply (strip_space_visible a c r q Hc Hs) in E as [a' [-> Hlen]]. now apply IH.
  - destruct a; discriminate.
Qed.

Lemma finalTimeframe_trimmed (render : App.AppState) :
  truthy (App.finalTimeframe render) = true
  /\ App.trim (App.finalTimeframe render) = App.finalTimeframe render.
Proof.
  unfold App.finalTimeframe.
  destruct (truthy (App.trim _)) eqn:E.
  - split; [exact E | apply trim_idempotent].
  - split; reflexivity.
Qed.

(* ------------------------------------------------------------------ *)
(** *** handleAnalyze *)

(** X16.  With a symbol that is not empty, [handleAnalyze] ends without
    throwing, whatever the services do and wherever the price lookup
    settles: the busy flag is down, the research tab is shown, the
    forecast is cleared, and the report is what [analyzeStock] returned,
    never [null]; its own [catch] logs nothing and the price lookup leaves
    no unhandled rejection. *)
Theorem handleAnalyze_settles (JSON_parse : string -> completion json) (ai : GoogleGenAI)
    (price_first : bool) (render s : App.AppState) :
  truthy (App.symbol render) = true ->
  exists r,
    value_of (analyzeStock ai (App.symbol render) (App.analysisMode render)
                App.renderPartial) = Normal r
    /\ App.ui_value (App.handleAnalyze JSON_parse ai price_first render s) = Normal tt
    /\ App.analysisResult
         (App.final_state (App.handleAnalyze JSON_parse ai price_first render s)) = Some r
    /\ App.isAnalyzing
         (App.final_state (App.handleAnalyze JSON_parse ai price_first render s)) = false
    /\ App.activeTab
         (App.final_state (App.handleAnalyze JSON_parse ai price_first render s))
       = App.research
    /\ App.forecast
         (App.final_state (App.handleAnalyze JSON_parse ai price_first render s)) = JNull
    /\ Forall (fun ev => exists ev', ev = App.from_service ev')
         (App.ui_trace (App.handleAnalyze JSON_parse ai price_first render s)).
Proof.
  intros Hsymbol.
  destruct (analyzeStock_returns ai (App.symbol render) (App.analysisMode render)
              App.renderPartial) as [r [Hr _]].
  destruct (getLivePrice_returns JSON_parse ai (App.symbol render)) as [data Hdata].
  destruct (handleAnalyze_final JSON_parse ai price_first render s r data
              Hsymbol Hr Hdata) as [Hfinal [Hvalue Htrace]].
  exists r. rewrite Hfinal. repeat split; auto.
Qed.

Lemma handleAnalyze_settles_network_down :
  App.ui_value (App.handleAnalyze JSON.parse Mock.network_down false App.initial App.initial)
  = Normal tt
  /\ App.analysisResult
       (App.final_state
          (App.handleAnalyze JSON.parse Mock.network_down false App.initial App.initial))
     = Some analysis_failed
  /\ App.isAnalyzing
       (App.final_state
          (App.handleAnalyze JSON.parse Mock.network_down false App.initial App.initial))
     = false.
Proof.
  destruct (handleAnalyze_settles JSON.parse Mock.network_down false App.initial App.initial
              eq_refl) as [r [Hr [Hvalue [Hresult [Hbusy _]]]]].
  vm_compute in Hr. injection Hr as <-.
  split; [exact Hvalue |]. split; [exact Hresult | exact Hbusy].
Defined.

(** X17.  The state [handleAnalyze] ends in does not depend on whether
    the price lookup settles before the analysis streams or after the
    handler has finished. *)
Theorem handleAnalyze_order_irrelevant (JSON_parse : string -> completion json)
    (ai : GoogleGenAI) (render s : App.AppState) :
  App.final_state (App.handleAnalyze JSON_parse ai true render s)
  = App.final_state (App.handleAnalyze JSON_parse ai false render s).
Proof.
  destruct (truthy (App.symbol render)) eqn:Hsymbol.
  - destruct (analyzeStock_returns ai (App.symbol render) (App.analysisMode render)
                App.renderPartial) as [r [Hr _]].
    destruct (getLivePrice_returns JSON_parse ai (App.symbol render)) as [data Hdata].
    destruct (handleAnalyze_final JSON_parse ai true render s r data Hsymbol Hr Hdata)
      as [H1 _].
    destruct (handleAnalyze_final JSON_parse ai false render s r data Hsymbol Hr Hdata)
      as [H2 _].
    congruence.
  - unfold App.handleAnalyze. rewrite Hsymbol. reflexivity.
Qed.

(** X18.  After [handleAnalyze] with a symbol that is not empty, the
    price and the currency are those of the data the lookup gave when the
    data is truthy; when it is not, the price is [null] and the currency
    stays what it was before, that of an earlier symbol.  The chart and
    verdict section is then shown exactly when the price is truthy: a
    failed lookup, or a price of zero, hides it. *)
Theorem handleAnalyze_price_and_currency (JSON_parse : string -> completion json)
    (ai : GoogleGenAI) (price_first : bool) (render s : App.AppState) :
  truthy (App.symbol render) = true ->
  exists data,
    value_of (getLivePrice JSON_parse ai (App.symbol render)) = Normal data
    /\ (App.truthy_json data = true ->
        App.livePrice
          (App.final_state (App.handleAnalyze JSON_parse ai price_first render s))
        = App.member data "price"
        /\ App.currency
             (App.final_state (App.handleAnalyze JSON_parse ai price_first render s))
           = App.member data "currency")
    /\ (App.truthy_json data = false ->
        App.livePrice
          (App.final_state (App.handleAnalyze JSON_parse ai price_first render s))
        = App.null
        /\ App.currency
             (App.final_state (App.handleAnalyze JSON_parse ai price_first render s))
           = App.currency s)
    /\ App.showsChart
         (App.final_state (App.handleAnalyze JSON_parse ai price_first render s))
       = App.truthy_value
           (App.livePrice
              (App.final_state (App.handleAnalyze JSON_parse ai price_first render s))).
Proof.
  intros Hsymbol.
  destruct (analyzeStock_returns ai (App.symbol render) (App.analysisMode render)
              App.renderPartial) as [r [Hr _]].
  destruct (getLivePrice_returns JSON_parse ai (App.symbol render)) as [data Hdata].
  destruct (handleAnalyze_final JSON_parse ai price_first render s r data
              Hsymbol Hr Hdata) as [Hfinal _].
  exists data. rewrite Hfinal. unfold App.price_after, App.showsChart.
  split; [exact Hdata |].
  destruct (App.truthy_json data); cbn;
    (split; [intros H; try discriminate; split; reflexivity |]);
    (split; [intros H; try discriminate; split; reflexivity |]);
    first [reflexivity | apply orb_false_r].
Qed.

Lemma handleAnalyze_price_and_currency_stale :
  App.livePrice
    (App.final_state
       (App.handleAnalyze JSON.parse Mock.network_down true App.initial MockApp.after_inr))
  = App.null
  /\ App.currency
       (App.final_state
          (App.handleAnalyze JSON.parse Mock.network_down true App.initial MockApp.after_inr))
     = App.of_json (JStr "INR")
  /\ App.showsChart
       (App.final_state
          (App.handleAnalyze JSON.parse Mock.network_down true App.initial MockApp.after_inr))
     = false.
Proof.
  destruct (handleAnalyze_price_and_currency JSON.parse Mock.network_down true
              App.initial MockApp.after_inr eq_refl)
    as [data [Hdata [_ [Hfalsy Hchart]]]].
  vm_compute in Hdata. injection Hdata as <-.
  destruct (Hfalsy eq_refl) as [Hprice Hcurrency].
  split; [exact Hprice |]. split; [exact Hcurrency |].
  rewrite Hchart, Hprice. reflexivity.
Defined.

(** X19.  The Analyze button of a pick sets the symbol to the pick's,
    but the analysis it starts is the render's [handleAnalyze]: it
    analyses the symbol of the render, and when that symbol is empty it
    analyses nothing. *)
Theorem analyzePick_analyses_render_symbol (JSON_parse : string -> completion json)
    (ai : GoogleGenAI) (price_first : bool) (pick_symbol : string)
    (render s : App.AppState) :
  App.symbol
    (App.final_state (App.analyzePick JSON_parse ai price_first pick_symbol render s))
  = pick_symbol
  /\ if truthy (App.symbol render)
     then exists r,
            value_of (analyzeStock ai (App.symbol render) (App.analysisMode render)
                        App.renderPartial) = Normal r
            /\ App.analysisResult
                 (App.final_state
                    (App.analyzePick JSON_parse ai price_first pick_symbol render s))
               = Some r
     else App.analyzePick JSON_parse ai price_first pick_symbol render s
          = ([], App.setSymbol pick_symbol s, Normal tt).
Proof.
  assert (Hrun : App.analyzePick JSON_parse ai price_first pick_symbol render s
                 = App.handleAnalyze JSON_parse ai price_first render
                     (App.setSymbol pick_symbol s)).
  { unfold App.analyzePick, App.ui_bind, App.set.
    destruct (App.handleAnalyze JSON_parse ai price_first render
                (App.setSymbol pick_symbol s)) as [[t s'] c]. reflexivity. }
  rewrite Hrun. clear Hrun.
  destruct (truthy (App.symbol render)) eqn:Hsymbol.
  - destruct (analyzeStock_returns ai (App.symbol render) (App.analysisMode render)
                App.renderPartial) as [r [Hr _]].
    destruct (getLivePrice_returns JSON_parse ai (App.symbol render)) as [data Hdata].
    destruct (handleAnalyze_final JSON_parse ai price_first render
                (App.setSymbol pick_symbol s) r data Hsymbol Hr Hdata) as [Hfinal _].
    rewrite Hfinal. split; [reflexivity |].
    exists r. split; [exact Hr | reflexivity].
  - unfold App.handleAnalyze. rewrite Hsymbol. split; reflexivity.
Qed.

Lemma analyzePick_analyses_render_symbol_echo :
  App.symbol
    (App.final_state (App.analyzePick JSON.parse MockApp.echo true "TSLA" App.initial App.initial))
  = "TSLA"
  /\ option_map markdown
       (App.analysisResult
          (App.final_state
             (App.analyzePick JSON.parse MockApp.echo true "TSLA" App.initial App.initial)))
     = Some "Analyze NVDA. Provide a structured report including Current Price (approx), Key Catalysts, Risks, and a Verdict (Buy/Sell/Hold).".
Proof.
  destruct (analyzePick_analyses_render_symbol JSON.parse MockApp.echo true "TSLA"
              App.initial App.initial) as [Hsymbol Hanalysis].
  change (truthy (App.symbol App.initial)) with true in Hanalysis. cbv iota in Hanalysis.
  destruct Hanalysis as [r [Hr Hresult]].
  split; [exact Hsymbol |]. rewrite Hresult.
  vm_compute in Hr. injection Hr as <-. reflexivity.
Defined.

(* ------------------------------------------------------------------ *)
(** *** handleGetPicks *)

(** X20.  [handleGetPicks] ends without throwing, whatever the service
    does: the busy flag is down, the picks and the strategy shown are
    those [getTopPicks] returned for the timeframe passed on, and that
    timeframe is never empty and has no white space at its ends. *)
Theorem handleGetPicks_settles (JSON_parse : string -> completion json) (ai : GoogleGenAI)
    (render s : App.AppState) :
  exists result,
    value_of (getTopPicks JSON_parse ai (App.pickMarket render) (App.finalTimeframe render))
    = Normal result
    /\ App.ui_value (App.handleGetPicks JSON_parse ai render s) = Normal tt
    /\ App.isPicking (App.final_state (App.handleGetPicks JSON_parse ai render s)) = false
    /\ App.picks (App.final_state (App.handleGetPicks JSON_parse ai render s))
       = recommendations result
    /\ App.activeStrategy (App.final_state (App.handleGetPicks JSON_parse ai render s))
       = getTopPicks_strategy (App.finalTimeframe render)
    /\ truthy (App.finalTimeframe render) = true
    /\ App.trim (App.finalTimeframe render) = App.finalTimeframe render.
Proof.
  destruct (getTopPicks_returns JSON_parse ai (App.pickMarket render)
              (App.finalTimeframe render)) as [result [Hresult Hstrategy]].
  destruct (finalTimeframe_trimmed render) as [Htruthy Htrim].
  exists result. split; [exact Hresult |].
  unfold App.handleGetPicks, App.ui_bind, App.set, App.ui_finally, App.ui_try_catch,
    App.call, App.final_state, App.ui_value.
  rewrite Hresult. cbn. rewrite Hstrategy. repeat split; assumption.
Qed.

(** X21.  With 'Custom' selected and a custom horizon of nothing but
    white space, [handleGetPicks] asks for '1 Month' and shows the
    short-to-medium term trend strategy. *)
Theorem handleGetPicks_blank_custom (JSON_parse : string -> completion json)
    (ai : GoogleGenAI) (render s : App.AppState) :
  App.pickTimeframe render = "Custom" ->
  App.trim (App.customTimeframe render) = "" ->
  App.finalTimeframe render = "1 Month"
  /\ App.activeStrategy (App.final_state (App.handleGetPicks JSON_parse ai render s))
     = "SHORT-TO-MEDIUM TERM TREND. Focus on earnings growth, relative strength (RSI), and moving average crossovers.".
Proof.
  intros Hcustom Hblank.
  assert (Hfinal : App.finalTimeframe render = "1 Month").
  { unfold App.finalTimeframe. now rewrite Hcustom, String.eqb_refl, Hblank. }
  split; [exact Hfinal |].
  destruct (getTopPicks_returns JSON_parse ai (App.pickMarket render)
              (App.finalTimeframe render)) as [result [Hresult Hstrategy]].
  unfold App.handleGetPicks, App.ui_bind, App.set, App.ui_finally, App.ui_try_catch,
    App.call, App.final_state.
  rewrite Hresult. cbn. rewrite Hstrategy, Hfinal. reflexivity.
Qed.

Lemma handleGetPicks_blank_custom_mock :
  App.finalTimeframe MockApp.custom_blank = "1 Month"
  /\ App.activeStrategy
       (App.final_state
          (App.handleGetPicks JSON.parse Mock.network_down MockApp.custom_blank
             MockApp.custom_blank))
     = "SHORT-TO-MEDIUM TERM TREND. Focus on earnings growth, relative strength (RSI), and moving average crossovers.".
Proof.
  apply (handleGetPicks_blank_custom JSON.parse Mock.network_down MockApp.custom_blank
           MockApp.custom_blank); reflexivity.
Defined.

(* ------------------------------------------------------------------ *)
(** *** handleForecast, handleGenerateThumbnail, fetchNews *)

(** X22.  With a symbol that is not empty, [handleForecast] ends without
    throwing: the busy flag is down and the forecast is what
    [getForecast] returned, [null] included; its own [catch] logs
    nothing. *)
Theorem handleForecast_settles (JSON_parse : string -> completion json) (ai : GoogleGenAI)
    (render s : App.AppState) :
  truthy (App.symbol render) = true ->
  exists data,
    value_of (getForecast JSON_parse ai (App.symbol render)) = Normal data
    /\ App.ui_value (App.handleForecast JSON_parse ai render s) = Normal tt
    /\ App.forecast (App.final_state (App.handleForecast JSON_parse ai render s)) = data
    /\ App.isForecasting (App.final_state (App.handleForecast JSON_parse ai render s))
       = false
    /\ Forall (fun ev => exists ev', ev = App.from_service ev')
         (App.ui_trace (App.handleForecast JSON_parse ai render s)).
Proof.
  intros Hsymbol.
  destruct (getForecast_returns JSON_parse ai (App.symbol render)) as [data Hdata].
  exists data. split; [exact Hdata |].
  unfold App.handleForecast. rewrite Hsymbol. cbn [negb].
  unfold App.ui_bind, App.set, App.ui_finally, App.ui_try_catch, App.call,
    App.final_state, App.ui_value, App.ui_trace.
  rewrite Hdata. cbn. repeat split.
  rewrite !app_nil_r. apply Forall_forall. intros ev Hin.
  apply in_map_iff in Hin as [ev' [<- _]]. now exists ev'.
Qed.

Lemma handleForecast_settles_one_scenario :
  App.forecast
    (App.final_state
       (App.handleForecast JSON.parse Mock.one_scenario_service App.initial App.initial))
  = Mock.one_scenario
  /\ App.isForecasting
       (App.final_state
          (App.handleForecast JSON.parse Mock.one_scenario_service App.initial App.initial))
     = false.
Proof.
  destruct (handleForecast_settles JSON.parse Mock.one_scenario_service App.initial
              App.initial eq_refl) as [data [Hdata [_ [Hforecast [Hbusy _]]]]].
  vm_compute in Hdata. injection Hdata as <-.
  split; [exact Hforecast | exact Hbusy].
Defined.

(** X23.  [handleGenerateThumbnail], which has no [try], still never
    throws, because [generateAppThumbnail] does not: the busy flag is
    down at the end and the thumbnail is what the call returned, so that
    a failed generation replaces an earlier thumbnail by [null]. *)
Theorem handleGenerateThumbnail_settles (models : Models) (s : App.AppState) :
  exists url,
    value_of (generateAppThumbnail models) = Normal url
    /\ App.ui_value (App.handleGenerateThumbnail models s) = Normal tt
    /\ App.thumbnailUrl (App.final_state (App.handleGenerateThumbnail models s)) = url
    /\ App.isGeneratingThumbnail (App.final_state (App.handleGenerateThumbnail models s))
       = false.
Proof.
  destruct (generateAppThumbnail_returns models) as [url Hurl].
  exists url. split; [exact Hurl |].
  unfold App.handleGenerateThumbnail, App.ui_bind, App.set, App.call,
    App.final_state, App.ui_value.
  rewrite Hurl. cbn. repeat split.
Qed.

(** X24.  [fetchNews] never throws, and the news text it puts in the
    state is never empty, so that the dashboard stops showing the loading
    placeholder whatever the service does. *)
Theorem fetchNews_fills_news (models : Models) (s : App.AppState) :
  App.ui_value (App.fetchNews models s) = Normal tt
  /\ truthy (GeminiMore.news (App.news (App.final_state (App.fetchNews models s)))) = true.
Proof.
  destruct (getMarketNews_returns models) as [data [Hdata Hnews]].
  unfold App.fetchNews, App.ui_bind, App.set, App.call, App.final_state, App.ui_value.
  rewrite Hdata. cbn. split; [reflexivity | exact Hnews].
Qed.

(* ================================================================== *)
(** ** Properties of the simulated chart data *)

Lemma decimal_digits (n : nat) :
  includes (StockChart.decimal n) ":" = false.
Proof.
  unfold StockChart.decimal. generalize (Nat.to_uint n). intros d.
  induction d; simpl; try rewrite IHd; reflexivity.
Qed.

Lemma decimal_injective (n m : nat) :
  StockChart.decimal n = StockChart.decimal m -> n = m.
Proof.
  unfold StockChart.decimal. intros H.
  apply DecimalNat.Unsigned.to_uint_inj.
  assert (E : NilEmpty.uint_of_string (NilEmpty.string_of_uint (Nat.to_uint n))
              = NilEmpty.uint_of_string (NilEmpty.string_of_uint (Nat.to_uint m)))
    by now rewrite H.
  rewrite !NilEmpty.usu in E. now injection E.
Qed.

Lemma includes_colon_head (x : string) : includes (String ":" x) ":" = true.
Proof.
  destruct x; reflexivity.
Qed.

(** Two texts without a colon, each followed by a colon and more, are
    cut at the same place. *)
Lemma cut_at_colon (a a' b b' : string) :
  includes a ":" = false -> includes a' ":" = false ->
  (a ++ ":" ++ b)%string = (a' ++ ":" ++ b')%string ->
  a = a' /\ b = b'.
Proof.
  revert a'. induction a as [| c a IH]; intros a' Ha Ha' H.
  - destruct a' as [| c' a']; simpl in H.
    + injection H as H. now split.
    + injection H as Hc H. subst c'. rewrite includes_colon_head in Ha'. discriminate.
  - destruct a' as [| c' a']; simpl in H.
    + injection H as Hc H. subst c. rewrite includes_colon_head in Ha. discriminate.
    + injection H as Hc H. subst c'.
      cbn [includes] in Ha, Ha'. apply orb_false_elim in Ha as [_ Ha].
      apply orb_false_elim in Ha' as [_ Ha'].
      destruct (IH a' Ha Ha' H) as [-> ->]. now split.
Qed.

Lemma time_label_injective (i j : nat) :
  StockChart.time_label i = StockChart.time_label j -> i = j.
Proof.
  unfold StockChart.time_label. intros H.
  apply cut_at_colon in H as [Hh Hm]; try apply decimal_digits.
  apply decimal_injective in Hh. apply decimal_injective in Hm.
  rewrite (Nat.div_mod_eq i 6), (Nat.div_mod_eq j 6). lia.
Qed.

Lemma generateMockData_loop_times (number : Type) (add sub mul : number -> number -> number)
    (literal : JSON.number -> number) (random : nat -> number)
    (remaining i : nat) (currentPrice volatility : number) :
  map StockChart.time
    (StockChart.generateMockData_loop number add sub mul literal random
       remaining i currentPrice volatility)
  = map StockChart.time_label (seq i remaining).
Proof.
  revert i currentPrice. induction remaining as [| k IH]; intros i currentPrice.
  - reflexivity.
  - simpl. now rewrite IH.
Qed.

(** X25.  Whatever the arithmetic of doubles and [Math.random] give,
    [generateMockData] returns as many points as it is asked for, and the
    time labels of the points are pairwise distinct: point [i] carries
    the hour [10 + i / 6] and the minutes [(i mod 6) * 10], written
    without padding. *)
Theorem generateMockData_labels (number : Type) (add sub mul : number -> number -> number)
    (literal : JSON.number -> number) (random : nat -> number)
    (points : nat) (startPrice : number) :
  List.length (StockChart.generateMockData number add sub mul literal random
                 points startPrice) = points
  /\ map StockChart.time
       (StockChart.generateMockData number add sub mul literal random points startPrice)
     = map StockChart.time_label (seq 0 points)
  /\ NoDup (map StockChart.time
              (StockChart.generateMockData number add sub mul literal random
                 points startPrice)).
Proof.
  unfold StockChart.generateMockData.
  pose proof (generateMockData_loop_times number add sub mul literal random points 0
                startPrice (mul startPrice (literal (Num 5 (-3))))) as Htimes.
  split; [| split].
  - rewrite <- (length_map StockChart.time), Htimes, length_map. apply length_seq.
  - exact Htimes.
  - rewrite Htimes. apply Finite.Injective_map_NoDup; [| apply seq_NoDup].
    intros i j. apply time_label_injective.
Qed.

(* ================================================================== *)
(** ** Properties of formatText *)

Import MarkdownRenderer.

Lemma newlines_append (a b : string) : newlines (a ++ b) = newlines a + newlines b.
Proof.
  induction a as [| c a IH]; simpl; [reflexivity | rewrite IH; lia].
Qed.

Lemma split_newline_length (s : string) :
  List.length (split_newline s) = S (newlines s).
Proof.
  induction s as [| c s IH]; [reflexivity |].
  simpl. destruct (code c =? 10)%Z; simpl; [now rewrite IH |].
  destruct (split_newline s); simpl in *; [discriminate | exact IH].
Qed.

Lemma star_not_newline (c : ascii) : is_star c = true -> (code c =? 10)%Z = false.
Proof.
  unfold is_star. intros H. apply Z.eqb_eq in H. rewrite H. reflexivity.
Qed.

Lemma bold_step (inside : bool) (c d : ascii) (r2 : string) :
  bold inside (String c (String d r2))
  = if is_star c && is_star d then
      if inside then (strong_close ++ bold false r2)%string
      else if closes r2 then (strong_open ++ bold true r2)%string
      else String c (bold false (String d r2))
    else String c (bold inside (String d r2)).
Proof.
  reflexivity.
Qed.

Lemma bold_newlines (s : string) :
  forall inside, newlines (bold inside s) = newlines s.
Proof.
  induction s as [s IH] using string_strong_ind. intros inside.
  destruct s as [| c [| d r2]]; [reflexivity | reflexivity |].
  rewrite bold_step. destruct (is_star c && is_star d) eqn:E.
  - apply andb_prop in E as [Hc Hd].
    assert (Hs : newlines (String c (String d r2)) = newlines r2).
    { cbn [newlines]. now rewrite (star_not_newline c Hc), (star_not_newline d Hd). }
    rewrite Hs.
    destruct inside; [| destruct (closes r2)].
    + rewrite newlines_append, IH by (simpl; lia). reflexivity.
    + rewrite newlines_append, IH by (simpl; lia). reflexivity.
    + rewrite <- Hs. change (newlines (String c (bold false (String d r2))))
        with ((if (code c =? 10)%Z then 1 else 0) + newlines (bold false (String d r2))).
      rewrite IH by (simpl; lia). reflexivity.
  - change (newlines (String c (bold inside (String d r2))))
      with ((if (code c =? 10)%Z then 1 else 0) + newlines (bold inside (String d r2))).
    rewrite IH by (simpl; lia). reflexivity.
Qed.

Lemma lines_not_nil (s : string) : lines s <> [].
Proof.
  induction s as [s IH] using string_strong_ind.
  destruct s as [| c r]; [discriminate |].
  cbn [lines]. destruct (_ || _); [discriminate |].
  assert (Hcons : cons_char c (lines r) <> []).
  { unfold cons_char. destruct (lines r) as [| [l t] rest]; discriminate. }
  destruct r as [| x [| y r3]]; try exact Hcons.
  destruct (_ && _ && _); [discriminate | exact Hcons].
Qed.

Lemma unlines_cons_char (c : ascii) (ls : list (string * string)) :
  ls <> [] -> unlines (cons_char c ls) = String c (unlines ls).
Proof.
  destruct ls as [| [l t] rest]; [congruence | reflexivity].
Qed.

Lemma unlines_lines (s : string) : unlines (lines s) = s.
Proof.
  induction s as [s IH] using string_strong_ind.
  destruct s as [| c r]; [reflexivity |].
  assert (Hcons : unlines (cons_char c (lines r)) = String c r).
  { rewrite unlines_cons_char by apply lines_not_nil. rewrite IH by (simpl; lia).
    reflexivity. }
  cbn [lines]. destruct (_ || _).
  - cbn. rewrite IH by (simpl; lia). reflexivity.
  - destruct r as [| x [| y r3]]; try exact Hcons.
    destruct (_ && _ && _); [| exact Hcons].
    cbn. rewrite IH by (simpl; lia). reflexivity.
Qed.

(** A line holds no line feed. *)
Lemma lines_no_newline (s : string) :
  Forall (fun lt => newlines (fst lt) = 0) (lines s).
Proof.
  induction s as [s IH] using string_strong_ind.
  destruct s as [| c r]; [repeat constructor |].
  cbn [lines]. destruct ((code c =? 10)%Z || (code c =? 13)%Z) eqn:E.
  - constructor; [reflexivity | apply IH; simpl; lia].
  - assert (Hcons : Forall (fun lt => newlines (fst lt) = 0) (cons_char c (lines r))).
    { assert (Hr : Forall (fun lt => newlines (fst lt) = 0) (lines r))
        by (apply IH; simpl; lia).
      unfold cons_char. destruct (lines r) as [| [l t] rest]; simpl.
      - repeat constructor. simpl. apply orb_false_elim in E as [-> _]. reflexivity.
      - inversion Hr as [| ? ? Hl Hrest]; subst. constructor; [| exact Hrest].
        simpl in *. apply orb_false_elim in E as [-> _]. exact Hl. }
    destruct r as [| x [| y r3]]; try exact Hcons.
    destruct (_ && _ && _); [| exact Hcons].
    constructor; [reflexivity | apply IH; simpl; lia].
Qed.

Lemma strip_prefix_append (p s r : string) :
  strip_prefix p s = Some r -> s = (p ++ r)%string.
Proof.
  revert s. induction p as [| a p IH]; intros s H.
  - destruct s; simpl in H; now injection H as <-.
  - destruct s as [| b s]; simpl in H; [discriminate |].
    destruct (Ascii.eqb a b) eqn:E; [| discriminate].
    apply Ascii.eqb_eq in E. subst b. simpl. now rewrite (IH s H).
Qed.

Lemma newlines_unlines (f : string -> string) (ls : list (string * string)) :
  Forall (fun lt => newlines (f (fst lt)) = newlines (fst lt)) ls ->
  newlines (unlines (map (fun lt => (f (fst lt), snd lt)) ls)) = newlines (unlines ls).
Proof.
  induction 1 as [| [l t] rest Hl _ IH]; [reflexivity |].
  simpl in *. rewrite !newlines_append, IH, Hl. reflexivity.
Qed.

Lemma replace_lines_newlines (marker open close s : string) :
  newlines open = 0 -> newlines close = 0 ->
  newlines (replace_lines marker open close s) = newlines s.
Proof.
  intros Ho Hc. unfold replace_lines.
  rewrite (newlines_unlines (wrap_line marker open close)), unlines_lines; [reflexivity |].
  eapply Forall_impl; [| apply lines_no_newline].
  intros [l t] Hl. simpl in *. unfold wrap_line.
  destruct (strip_prefix marker l) as [captured |] eqn:E; [| reflexivity].
  apply strip_prefix_append in E. subst l.
  rewrite newlines_append in Hl. rewrite !newlines_append. lia.
Qed.

(** X26.  [formatText] renders one element for each line of the text it
    is given: as many elements as the text has line feeds, and one more.
    No replacement adds or removes a line. *)
Theorem formatText_one_element_per_line (text : string) :
  List.length (formatText text) = S (newlines text).
Proof.
  unfold formatText. rewrite length_map, split_newline_length.
  rewrite !replace_lines_newlines by reflexivity.
  now rewrite bold_newlines.
Qed.

(** *** Text without markers *)

Lemma is_star_eq (c : ascii) : is_star c = true -> c = "*"%char.
Proof.
  unfold is_star, code. intros H. apply Z.eqb_eq in H.
  rewrite <- (ascii_N_embedding c).
  replace (N_of_ascii c) with 42%N by lia. reflexivity.
Qed.

Lemma bold_no_pair (s : string) : includes s "**" = false -> bold false s = s.
Proof.
  induction s as [| c r IH]; intros H; [reflexivity |].
  destruct r as [| d r2]; [reflexivity |].
  rewrite bold_step. cbn [includes] in H. apply orb_false_elim in H as [Hhere Hrest].
  destruct (is_star c && is_star d) eqn:E.
  - apply andb_prop in E as [Hc Hd].
    apply is_star_eq in Hc. apply is_star_eq in Hd. subst c d.
    destruct r2; discriminate Hhere.
  - now rewrite (IH Hrest).
Qed.

Lemma startsWith_strip_prefix (marker line : string) :
  startsWith line marker = false -> strip_prefix marker line = None.
Proof.
  revert line. induction marker as [| a m IH]; intros line H.
  - destruct line; discriminate H.
  - destruct line as [| b line]; [reflexivity |].
    simpl in *. destruct (Ascii.eqb a b); [now apply IH | reflexivity].
Qed.

Lemma replace_lines_unmarked (marker open close s : string) :
  forallb (fun lt => negb (startsWith (fst lt) marker)) (lines s) = true ->
  replace_lines marker open close s = s.
Proof.
  intros H. unfold replace_lines. rewrite <- (unlines_lines s) at 2. f_equal.
  rewrite <- (map_id (lines s)) at 2. apply map_ext_in.
  intros [l t] Hin. rewrite forallb_forall in H. specialize (H _ Hin).
  simpl in *. apply negb_true_iff in H.
  unfold wrap_line. now rewrite (startsWith_strip_prefix _ _ H).
Qed.

Lemma plain_lines_unmarked (marker : string) (s : string) :
  plain_lines s = true ->
  In marker ["### "; "## "; "* "; "- "] ->
  forallb (fun lt => negb (startsWith (fst lt) marker)) (lines s) = true.
Proof.
  unfold plain_lines. rewrite !forallb_forall. intros H Hm [l t] Hin.
  specialize (H _ Hin). simpl in *. unfold starts_marked in H.
  apply negb_true_iff in H. apply orb_false_elim in H as [H H4].
  apply orb_false_elim in H as [H H3]. apply orb_false_elim in H as [H1 H2].
  destruct Hm as [<- | [<- | [<- | [<- | []]]]]; apply negb_true_iff; assumption.
Qed.

(** X27.  A text in which no [**] occurs and no line starts with one of
    the markers is rendered line by line exactly as it is: whatever else
    it holds, HTML tags included, becomes the [innerHTML] of the line's
    element unchanged. *)
Theorem formatText_plain_text (text : string) :
  includes text "**" = false ->
  plain_lines text = true ->
  formatText text = map renderLine (split_newline text).
Proof.
  intros Hpair Hplain. unfold formatText.
  rewrite (bold_no_pair text Hpair).
  rewrite (replace_lines_unmarked "### " _ _ text)
    by (apply plain_lines_unmarked; [exact Hplain | simpl; tauto]).
  rewrite (replace_lines_unmarked "## " _ _ text)
    by (apply plain_lines_unmarked; [exact Hplain | simpl; tauto]).
  rewrite (replace_lines_unmarked "* " _ _ text)
    by (apply plain_lines_unmarked; [exact Hplain | simpl; tauto]).
  rewrite (replace_lines_unmarked "- " _ _ text)
    by (apply plain_lines_unmarked; [exact Hplain | simpl; tauto]).
  reflexivity.
Qed.

Lemma formatText_plain_text_img :
  formatText "Verdict: hold. <img src=x onerror=alert(1)>"
  = [div "Verdict: hold. <img src=x onerror=alert(1)>"].
Proof.
  apply (formatText_plain_text "Verdict: hold. <img src=x onerror=alert(1)>");
    reflexivity.
Defined.

(** A line of nothing but white space, a no-break space here, is a
    break. *)
Example formatText_blank_line :
  formatText ("a" ++ String "010" no_break_space ++ String "010" "b")
  = [div "a"; br; div "b"].
Proof.
  reflexivity.
Qed.

(** *** One line *)

Lemma is_ascii_code (c : ascii) (n : Z) :
  is_ascii c = true -> (128 <= n)%Z -> (code c =? n)%Z = false.
Proof.
  unfold is_ascii. intros H Hn. apply Z.ltb_lt in H. apply Z.eqb_neq. lia.
Qed.

(** Whether a line terminator starts at an ASCII character is up to that
    character. *)
Lemma terminates_ascii (c : ascii) (r : string) :
  is_ascii c = true ->
  terminates (String c r) = (code c =? 10)%Z || (code c =? 13)%Z.
Proof.
  intros H. unfold terminates.
  destruct r as [| x [| y r]]; try apply orb_false_r.
  rewrite (is_ascii_code c 226 H) by lia. apply orb_false_r.
Qed.

(** A line terminator that starts in [a] and reaches into what follows
    goes on with a byte outside ASCII. *)
Lemma terminates_append (c : ascii) (a : string) (d : ascii) (b : string) :
  is_ascii d = true ->
  terminates (String c (a ++ String d b)) = terminates (String c a).
Proof.
  intros H. unfold terminates. f_equal.
  destruct a as [| x [| y a]]; cbn [append]; try reflexivity.
  - destruct b as [| y b]; [reflexivity |].
    rewrite (is_ascii_code d 128 H) by lia. now rewrite andb_false_r.
  - rewrite (is_ascii_code d 168 H), (is_ascii_code d 169 H) by lia.
    now rewrite andb_false_r.
Qed.

Lemma terminates_prefix (c : ascii) (a b : string) :
  terminates (String c (a ++ b)) = false -> terminates (String c a) = false.
Proof.
  unfold terminates. intros H. apply orb_false_elim in H as [-> H]. cbn [orb].
  destruct a as [| x [| y a]]; try reflexivity. exact H.
Qed.

Lemma one_line_suffix (a b : string) : one_line (a ++ b) = true -> one_line b = true.
Proof.
  induction a as [| c a IH]; intros H; [exact H |].
  change ((String c a ++ b)%string) with (String c (a ++ b)) in H.
  cbn [one_line] in H. apply andb_prop in H as [_ H]. now apply IH.
Qed.

Lemma one_line_prefix (a b : string) : one_line (a ++ b) = true -> one_line a = true.
Proof.
  induction a as [| c a IH]; intros H; [reflexivity |].
  change ((String c a ++ b)%string) with (String c (a ++ b)) in H.
  cbn [one_line] in *. apply andb_prop in H as [Hc H].
  apply negb_true_iff in Hc. now rewrite (terminates_prefix c a b Hc), (IH H).
Qed.

(** Two lines put together are one line when the second starts with an
    ASCII character. *)
Lemma one_line_append (a : string) (d : ascii) (b : string) :
  is_ascii d = true ->
  one_line a = true -> one_line (String d b) = true ->
  one_line (a ++ String d b) = true.
Proof.
  intros Hd Ha Hb. induction a as [| c a IH]; [exact Hb |].
  change ((String c a ++ String d b)%string) with (String c (a ++ String d b)).
  cbn [one_line] in *. apply andb_prop in Ha as [Hc Ha].
  now rewrite (terminates_append c a d b Hd), Hc, (IH Ha).
Qed.

(** In front of a text, ASCII characters without a line feed or a
    carriage return add no line. *)
Lemma one_line_ascii (p s : string) :
  ascii_text p = true -> one_line p = true -> one_line (p ++ s) = one_line s.
Proof.
  induction p as [| c p IH]; intros Hp H; [reflexivity |].
  change ((String c p ++ s)%string) with (String c (p ++ s)).
  cbn [ascii_text] in Hp. apply andb_prop in Hp as [Hc Hp].
  cbn [one_line] in *. apply andb_prop in H as [Ht H].
  rewrite (terminates_ascii c p Hc) in Ht.
  now rewrite (terminates_ascii c (p ++ s) Hc), Ht, (IH Hp H).
Qed.

Lemma lines_one_line (s : string) : one_line s = true -> lines s = [(s, "")].
Proof.
  induction s as [| c r IH]; intros H; [reflexivity |].
  cbn [one_line] in H. apply andb_prop in H as [Ht Hr].
  apply negb_true_iff in Ht. unfold terminates in Ht.
  apply orb_false_elim in Ht as [Hlf Ht].
  cbn [lines]. rewrite Hlf, (IH Hr).
  destruct r as [| x [| y r3]]; try reflexivity. now rewrite Ht.
Qed.

Lemma split_newline_one_line (s : string) :
  one_line s = true -> split_newline s = [s].
Proof.
  induction s as [| c r IH]; intros H; [reflexivity |].
  cbn [one_line] in H. apply andb_prop in H as [Ht Hr].
  apply negb_true_iff in Ht. unfold terminates in Ht.
  apply orb_false_elim in Ht as [Hlf _]. apply orb_false_elim in Hlf as [Hlf _].
  cbn [split_newline]. now rewrite Hlf, (IH Hr).
Qed.

Lemma replace_lines_one_line (marker open close s : string) :
  one_line s = true ->
  replace_lines marker open close s = wrap_line marker open close s.
Proof.
  intros H. unfold replace_lines. rewrite (lines_one_line s H). simpl.
  apply append_empty_r.
Qed.

(** The tags are ASCII and hold no line terminator, so a line stays one
    line when it is put between them. *)
Lemma wrap_line_one_line (marker open close s : string) :
  ascii_text open = true -> one_line open = true ->
  ascii_text close = true -> one_line close = true ->
  one_line s = true ->
  one_line (wrap_line marker open close s) = true.
Proof.
  intros Ho Ho' Hc Hc' Hs. unfold wrap_line.
  destruct (strip_prefix marker s) as [captured |] eqn:E; [| exact Hs].
  apply strip_prefix_append in E. subst s. apply one_line_suffix in Hs.
  rewrite (one_line_ascii open _ Ho Ho').
  destruct close as [| d close]; [now rewrite append_empty_r |].
  cbn [ascii_text] in Hc. apply andb_prop in Hc as [Hd _].
  now apply one_line_append.
Qed.

(** A text that is one line after the bold replacement is rendered as one
    element. *)
Lemma formatText_one_line (text : string) :
  one_line (bold false text) = true ->
  formatText text = [renderLine (markup (bold false text))].
Proof.
  intros H. unfold formatText, markup.
  set (s0 := bold false text) in *.
  assert (H1 : one_line (wrap_line "### " h3_open h3_close s0) = true)
    by (apply wrap_line_one_line; solve [reflexivity | exact H]).
  assert (H2 : one_line
                 (wrap_line "## " h2_open h2_close
                    (wrap_line "### " h3_open h3_close s0)) = true)
    by (apply wrap_line_one_line; solve [reflexivity | exact H1]).
  assert (H3 : one_line
                 (wrap_line "* " li_open li_close
                    (wrap_line "## " h2_open h2_close
                       (wrap_line "### " h3_open h3_close s0))) = true)
    by (apply wrap_line_one_line; solve [reflexivity | exact H2]).
  assert (H4 : one_line
                 (wrap_line "- " li_open li_close
                    (wrap_line "* " li_open li_close
                       (wrap_line "## " h2_open h2_close
                          (wrap_line "### " h3_open h3_close s0)))) = true)
    by (apply wrap_line_one_line; solve [reflexivity | exact H3]).
  rewrite (replace_lines_one_line _ _ _ s0 H).
  rewrite (replace_lines_one_line _ _ _ _ H1).
  rewrite (replace_lines_one_line _ _ _ _ H2).
  rewrite (replace_lines_one_line _ _ _ _ H3).
  now rewrite (split_newline_one_line _ H4).
Qed.

Lemma renderLine_tagged (a rest : string) :
  renderLine (a ++ String "<" rest) = div (a ++ String "<" rest).
Proof.
  unfold renderLine. now rewrite trim_not_blank.
Qed.

(** *** Bold text and marked lines *)

Lemma without_star_head (c : ascii) (r : string) :
  without "*" (String c r) = true ->
  is_star c = false /\ Ascii.eqb "*" c = false /\ without "*" r = true.
Proof.
  intros H. cbn [without] in H. apply andb_prop in H as [Hc Hr].
  split; [| split; [| exact Hr]];
    destruct c as [[] [] [] [] [] [] [] []]; try reflexivity; discriminate Hc.
Qed.

(** A character that is not a star is copied, inside a match and
    outside. *)
Lemma bold_char (inside : bool) (c : ascii) (t : string) :
  is_star c = false -> bold inside (String c t) = String c (bold inside t).
Proof.
  intros Hc. destruct t as [| d r2]; [reflexivity |].
  rewrite bold_step, Hc. reflexivity.
Qed.

Lemma bold_copy (inside : bool) (a s : string) :
  without "*" a = true ->
  bold inside (a ++ s) = (a ++ bold inside s)%string.
Proof.
  induction a as [| c a IH]; intros H; [reflexivity |].
  apply without_star_head in H as [Hc [_ Ha]].
  change ((String c a ++ s)%string) with (String c (a ++ s)).
  rewrite (bold_char inside c _ Hc), (IH Ha). reflexivity.
Qed.

Lemma startsWith_head_differs (a b : ascii) (s p : string) :
  Ascii.eqb a b = false -> startsWith (String b s) (String a p) = false.
Proof.
  intros H. cbn [startsWith]. now rewrite H.
Qed.

(** On one line, the next [**] closes the match. *)
Lemma closes_found (x rest : string) :
  without "*" x = true ->
  one_line (x ++ String "*" (String "*" rest)) = true ->
  closes (x ++ String "*" (String "*" rest)) = true.
Proof.
  induction x as [| c x IH]; intros H Hline.
  - simpl. destruct rest; reflexivity.
  - apply without_star_head in H as [_ [Hc Hx]].
    change ((String c x ++ String "*" (String "*" rest))%string)
      with (String c (x ++ String "*" (String "*" rest))) in *.
    cbn [one_line] in Hline. apply andb_prop in Hline as [Ht Hline].
    apply negb_true_iff in Ht.
    cbn [closes].
    rewrite (startsWith_head_differs "*" c _ "*" Hc), Ht. now apply IH.
Qed.

Lemma bold_pair (a x b : string) :
  without "*" a = true ->
  without "*" x = true ->
  without "*" b = true ->
  one_line (x ++ "**" ++ b) = true ->
  bold false (a ++ "**" ++ x ++ "**" ++ b)
  = (a ++ strong_open ++ x ++ strong_close ++ b)%string.
Proof.
  intros Ha Hx Hb Hline.
  rewrite (bold_copy false a _ Ha).
  change (("**" ++ x ++ "**" ++ b)%string)
    with (String "*" (String "*" (x ++ String "*" (String "*" b)))).
  rewrite bold_step. change (is_star "*") with true. cbn [andb].
  rewrite (closes_found x b Hx Hline).
  rewrite (bold_copy true x _ Hx).
  rewrite bold_step. change (is_star "*") with true. cbn [andb].
  rewrite <- (append_empty_r b) at 1. rewrite (bold_copy false b "" Hb).
  now rewrite append_empty_r.
Qed.

(** Whether a text starts with a marker is not changed by what follows
    it, when that starts with a character the marker does not hold. *)
Lemma startsWith_append_other (marker a : string) (c : ascii) (r : string) :
  includes marker (String c "") = false ->
  startsWith (a ++ String c r) marker = startsWith a marker.
Proof.
  revert a. induction marker as [| m marker IH]; intros a H.
  - now rewrite !startsWith_empty.
  - cbn [includes] in H. apply orb_false_elim in H as [Hm H].
    destruct a as [| d a].
    + cbn [append startsWith]. cbn [startsWith] in Hm.
      rewrite startsWith_empty, andb_true_r in Hm.
      now rewrite Ascii.eqb_sym, Hm.
    + cbn [append startsWith]. now rewrite (IH a H).
Qed.

Lemma starts_unmarked (marker open close a rest : string) :
  In marker ["### "; "## "; "* "; "- "] ->
  starts_marked a = false ->
  wrap_line marker open close (a ++ String "<" rest) = (a ++ String "<" rest)%string.
Proof.
  intros Hm Ha. unfold wrap_line, starts_marked in *.
  apply orb_false_elim in Ha as [Ha H4]. apply orb_false_elim in Ha as [Ha H3].
  apply orb_false_elim in Ha as [H1 H2].
  rewrite startsWith_strip_prefix; [reflexivity |].
  destruct Hm as [<- | [<- | [<- | [<- | []]]]];
    rewrite startsWith_append_other by reflexivity; assumption.
Qed.

(** X28.  In a text of one line [a**x**b], where [a], [x] and [b] hold no
    star and [a] does not start with a marker, [**x**] becomes [x] in a
    strong element and the text around it stays as it is: the line is
    rendered as one element whose HTML is [a], the tagged [x], and
    [b]. *)
Theorem formatText_bold (a x b : string) :
  one_line (a ++ "**" ++ x ++ "**" ++ b) = true ->
  without "*" a = true ->
  without "*" x = true ->
  without "*" b = true ->
  starts_marked a = false ->
  formatText (a ++ "**" ++ x ++ "**" ++ b)
  = [div (a ++ strong_open ++ x ++ strong_close ++ b)].
Proof.
  intros Hline Ha Hx Hb Hstart.
  assert (Ha1 : one_line a = true) by exact (one_line_prefix _ _ Hline).
  assert (Hxb : one_line (x ++ "**" ++ b) = true).
  { apply one_line_suffix in Hline. exact (one_line_suffix "**" _ Hline). }
  assert (Hx1 : one_line x = true) by exact (one_line_prefix _ _ Hxb).
  assert (Hb1 : one_line b = true).
  { apply one_line_suffix in Hxb. exact (one_line_suffix "**" _ Hxb). }
  assert (Hbold := bold_pair a x b Ha Hx Hb Hxb).
  assert (Htagged : one_line (a ++ strong_open ++ x ++ strong_close ++ b) = true).
  { change ((strong_open ++ x ++ strong_close ++ b)%string)
      with (String "<" (substring 1 100 strong_open ++ x ++ strong_close ++ b)).
    apply one_line_append; [reflexivity | exact Ha1 |].
    change (String "<" (substring 1 100 strong_open ++ x ++ strong_close ++ b))
      with ((strong_open ++ x ++ strong_close ++ b)%string).
    rewrite (one_line_ascii strong_open) by reflexivity.
    change ((strong_close ++ b)%string)
      with (String "<" (substring 1 100 strong_close ++ b)).
    apply one_line_append; [reflexivity | exact Hx1 |].
    change (String "<" (substring 1 100 strong_close ++ b))
      with ((strong_close ++ b)%string).
    now rewrite (one_line_ascii strong_close) by reflexivity. }
  rewrite formatText_one_line; rewrite Hbold; [| exact Htagged].
  unfold markup.
  change ((strong_open ++ x ++ strong_close ++ b)%string)
    with (String "<" (substring 1 100 strong_open ++ x ++ strong_close ++ b)).
  rewrite !starts_unmarked by (simpl; tauto || exact Hstart).
  now rewrite renderLine_tagged.
Qed.

Lemma formatText_bold_verdict :
  formatText (("# Verdict " ++ em_dash ++ " ") ++ "**" ++ "Strong Buy" ++ "**"
              ++ " for long-term holders.")
  = [div (("# Verdict " ++ em_dash ++ " ") ++ strong_open ++ "Strong Buy" ++ strong_close
          ++ " for long-term holders.")].
Proof.
  apply (formatText_bold ("# Verdict " ++ em_dash ++ " ") "Strong Buy"
           " for long-term holders."); reflexivity.
Defined.

(** X29.  A text of one line that starts with [### ], [## ], [* ] or [- ],
    the rest without stars, is rendered as one element whose HTML is the
    rest of the line inside an [h3], an [h2] or an [li] element; a line
    that starts with four hashes is rendered as it is. *)
Theorem formatText_marked_line (t : string) :
  one_line t = true ->
  without "*" t = true ->
  formatText ("### " ++ t) = [div (h3_open ++ t ++ h3_close)]
  /\ formatText ("## " ++ t) = [div (h2_open ++ t ++ h2_close)]
  /\ formatText ("* " ++ t) = [div (li_open ++ t ++ li_close)]
  /\ formatText ("- " ++ t) = [div (li_open ++ t ++ li_close)]
  /\ formatText ("#### " ++ t) = [div ("#### " ++ t)].
Proof.
  intros Hline Ht.
  assert (Hbold : forall m, without "*" m = true ->
                    bold false (m ++ t) = (m ++ t)%string).
  { intros m Hm. rewrite (bold_copy false m t Hm).
    rewrite <- (append_empty_r t) at 1. rewrite (bold_copy false t "" Ht).
    now rewrite append_empty_r. }
  assert (Hstar : bold false ("* " ++ t) = ("* " ++ t)%string).
  { change (("* " ++ t)%string) with (String "*" (String " " t)).
    destruct t as [| d r].
    - reflexivity.
    - rewrite bold_step. change (is_star "*" && is_star " ") with false. cbv iota.
      f_equal. exact (Hbold " " eq_refl). }
  assert (Hone : forall m, ascii_text m = true -> one_line m = true ->
                   one_line (m ++ t) = true).
  { intros m Hm Hm'. now rewrite one_line_ascii. }
  repeat split.
  - rewrite formatText_one_line; rewrite (Hbold "### " eq_refl);
      [| exact (Hone "### " eq_refl eq_refl)].
    change (markup ("### " ++ t)) with ((h3_open ++ t ++ h3_close)%string).
    reflexivity.
  - rewrite formatText_one_line; rewrite (Hbold "## " eq_refl);
      [| exact (Hone "## " eq_refl eq_refl)].
    change (markup ("## " ++ t)) with ((h2_open ++ t ++ h2_close)%string).
    reflexivity.
  - rewrite formatText_one_line; rewrite Hstar; [| exact (Hone "* " eq_refl eq_refl)].
    change (markup ("* " ++ t)) with ((li_open ++ t ++ li_close)%string).
    reflexivity.
  - rewrite formatText_one_line; rewrite (Hbold "- " eq_refl);
      [| exact (Hone "- " eq_refl eq_refl)].
    change (markup ("- " ++ t)) with ((li_open ++ t ++ li_close)%string).
    reflexivity.
  - rewrite formatText_one_line; rewrite (Hbold "#### " eq_refl);
      [| exact (Hone "#### " eq_refl eq_refl)].
    change (markup ("#### " ++ t)) with (("#### " ++ t)%string).
    reflexivity.
Qed.

Lemma formatText_marked_line_verdict :
  formatText ("### " ++ "VI. Final Verdict: target " ++ rupee_sign ++ "1,500")
  = [div (h3_open ++ ("VI. Final Verdict: target " ++ rupee_sign ++ "1,500") ++ h3_close)].
Proof.
  apply (formatText_marked_line ("VI. Final Verdict: target " ++ rupee_sign ++ "1,500"));
    reflexivity.
Defined.
